(** * hyprkan: rule matching, dispatch and the kanata TCP client

    A shallow embedding of [src/hyprkan.py]: the helpers of [utils], the
    line-oriented client [Kanata], the rule engine [Config], the focus
    handler of [WMBaseListener.listen] and the X11 listener, followed by
    the properties of the specification that concern them.

    Python values that come out of [json.load] are values of [json];
    Python's [None] is [JNull].  A text is the list of its code points,
    as a [str] of Python is, and a literal is read as UTF-8.  A call
    that ends the process through [fatal] has outcome [Fatal], an
    exception that nothing catches has outcome [Raise]. *)

From Stdlib Require Import Lists.List Bool.Bool Arith.PeanoNat.
From Stdlib Require Import NArith.NArith ZArith.ZArith Lia.
From Stdlib Require Strings.Byte.
Import ListNotations.

#[local] Set Warnings "-register-all".

(** ** Text *)

(** A character is a code point. *)
Definition char : Set := N.

Inductive string : Set :=
| EmptyString
| String (c : char) (s : string).

Module Char.

Definition eqb (a b : char) : bool := N.eqb a b.

(** A byte that continues a character of UTF-8, without its mark. *)
Definition continuation (b : Byte.byte) : option N :=
  let n := Byte.to_N b in
  if ((128 <=? n) && (n <? 192))%N then Some (n - 128)%N else None.

(** The character of a literal of one character. *)
Definition of_bytes (l : list Byte.byte) : option N :=
  match l with
  | [b] => Some (Byte.to_N b)
  | _ => None
  end.

Definition to_bytes (c : N) : option (list Byte.byte) :=
  if (c <? 128)%N
  then match Byte.of_N c with
       | Some b => Some [b]
       | None => None
       end
  else None.

End Char.

Module String.

Fixpoint eqb (s t : string) : bool :=
  match s, t with
  | EmptyString, EmptyString => true
  | String a s', String b t' => Char.eqb a b && eqb s' t'
  | _, _ => false
  end.

Fixpoint length (s : string) : nat :=
  match s with
  | EmptyString => 0
  | String _ s' => S (length s')
  end.

Fixpoint append (s t : string) : string :=
  match s with
  | EmptyString => t
  | String c s' => String c (append s' t)
  end.

Fixpoint get (n : nat) (s : string) {struct s} : option char :=
  match s with
  | EmptyString => None
  | String c s' =>
      match n with
      | O => Some c
      | S n' => get n' s'
      end
  end.

(** [s[n:]] *)
Fixpoint drop (n : nat) (s : string) : string :=
  match n, s with
  | S n', String _ s' => drop n' s'
  | _, _ => s
  end.

(** The text that the bytes of a literal spell in UTF-8, one character
    for each byte that is no part of a well-formed sequence. *)
Fixpoint of_utf8 (l : list Byte.byte) : string :=
  match l with
  | [] => EmptyString
  | b :: r =>
      let n := Byte.to_N b in
      let alone := String n (of_utf8 r) in
      if (n <? 192)%N then alone
      else
        match r with
        | b1 :: r1 =>
            match Char.continuation b1 with
            | Some c1 =>
                if (n <? 224)%N
                then String ((n - 192) * 64 + c1)%N (of_utf8 r1)
                else
                  match r1 with
                  | b2 :: r2 =>
                      match Char.continuation b2 with
                      | Some c2 =>
                          if (n <? 240)%N
                          then String (((n - 224) * 64 + c1) * 64 + c2)%N
                                 (of_utf8 r2)
                          else
                            match r2 with
                            | b3 :: r3 =>
                                match Char.continuation b3 with
                                | Some c3 =>
                                    String
                                      ((((n - 240) * 64 + c1) * 64 + c2) * 64 + c3)%N
                                      (of_utf8 r3)
                                | None => alone
                                end
                            | [] => alone
                            end
                      | None => alone
                      end
                  | [] => alone
                  end
            | None => alone
            end
        | [] => alone
        end
  end.

(** Only a text of ASCII is shown as a literal. *)
Fixpoint to_utf8 (s : string) : option (list Byte.byte) :=
  match s with
  | EmptyString => Some []
  | String c s' =>
      match Char.to_bytes c, to_utf8 s' with
      | Some [b], Some l => Some (b :: l)
      | _, _ => None
      end
  end.

End String.

Declare Scope char_scope.
Delimit Scope char_scope with char.
Bind Scope char_scope with char.
String Notation N Char.of_bytes Char.to_bytes : char_scope.

Declare Scope string_scope.
Delimit Scope string_scope with string.
Bind Scope string_scope with string.
String Notation string String.of_utf8 String.to_utf8 : string_scope.
Infix "++" := String.append (right associativity, at level 60) : string_scope.

Local Open Scope string_scope.
Local Open Scope list_scope.
Local Open Scope nat_scope.

(** ** Python values *)

(** A float as [json.load] can produce it: only whether it is zero is
    ever looked at (truth value). *)
Inductive pyfloat : Type :=
| Finite (mantissa exponent : Z)
| Infinite (negative : bool)
| NaN.

Inductive json : Type :=
| JNull
| JBool (b : bool)
| JInt (n : Z)
| JFloat (f : pyfloat)
| JString (s : string)
| JList (l : list json)
| JObject (d : list (string * json)).

(** [bool(v)] *)
Definition truthy (v : json) : bool :=
  match v with
  | JNull => false
  | JBool b => b
  | JInt n => negb (Z.eqb n 0)
  | JFloat (Finite m _) => negb (Z.eqb m 0)
  | JFloat _ => true
  | JString s => negb (String.eqb s "")
  | JList l => match l with [] => false | _ => true end
  | JObject d => match d with [] => false | _ => true end
  end.

(** [isinstance(v, str)], [isinstance(v, int)] (a [bool] is an [int]),
    [isinstance(v, list)], [isinstance(v, dict)]. *)
Definition is_str (v : json) : bool :=
  match v with JString _ => true | _ => false end.

Definition is_int (v : json) : bool :=
  match v with JInt _ | JBool _ => true | _ => false end.

Definition is_list (v : json) : bool :=
  match v with JList _ => true | _ => false end.

Definition is_dict (v : json) : bool :=
  match v with JObject _ => true | _ => false end.

(** A dict is an association list read from the left. *)
Fixpoint dict_get (d : list (string * json)) (k : string) : option json :=
  match d with
  | [] => None
  | (k', v) :: d' => if String.eqb k' k then Some v else dict_get d' k
  end.

Definition dict_keys (d : list (string * json)) : list string :=
  map fst d.

(** ** Outcomes *)

(** The exceptions that end a run.  [NotModelled] is none of Python's:
    it marks a run that leaves the part of Python described here, and
    nothing is said about such a run. *)
Inductive exn : Type :=
| AttributeError
| TypeError
| ValueError
| OSError
| UnicodeDecodeError
| RecursionError
| re_error
| NotModelled.

(** The messages of [fatal], by call site. *)
Inductive diagnostic : Type :=
| BlankFakeKeyName
| InvalidActionInRule (rule_no : nat) (action : string)
| InvalidAction (action : string)
| ConnectionError
| ExpectedArray
| UnexpectedKeys (rule_no : nat) (keys : list string)
| NotNonEmptyString (key : string) (rule_no : nat)
| NotNonEmptyObject (rule_no : nat)
| FakeKeyNotStrings (rule_no : nat)
| SetMouseNotIntegers (rule_no : nat)
| UndefinedLayer (layer : string) (rule_no : nat).

(** The rule number a message carries, if it carries one. *)
Definition rule_no_of (d : diagnostic) : option nat :=
  match d with
  | InvalidActionInRule n _ => Some n
  | UnexpectedKeys n _ => Some n
  | NotNonEmptyString _ n => Some n
  | NotNonEmptyObject n => Some n
  | FakeKeyNotStrings n => Some n
  | SetMouseNotIntegers n => Some n
  | UndefinedLayer _ n => Some n
  | BlankFakeKeyName | InvalidAction _ | ConnectionError | ExpectedArray => None
  end.

Inductive outcome (A : Type) : Type :=
| Ok (a : A)
| Fatal (d : diagnostic)
| Raise (e : exn).

Arguments Ok {A} a.
Arguments Fatal {A} d.
Arguments Raise {A} e.

Definition bind {A B : Type} (m : outcome A) (f : A -> outcome B) : outcome B :=
  match m with
  | Ok a => f a
  | Fatal d => Fatal d
  | Raise e => Raise e
  end.

(** Code that changes a state of type [S]; the state is lost when the
    process ends. *)
Definition M (S A : Type) : Type := S -> outcome (A * S).

Definition ret {S A : Type} (a : A) : M S A := fun s => Ok (a, s).

Definition mbind {S A B : Type} (m : M S A) (f : A -> M S B) : M S B :=
  fun s => match m s with
           | Ok (a, s') => f a s'
           | Fatal d => Fatal d
           | Raise e => Raise e
           end.

Definition lift {S A : Type} (o : outcome A) : M S A :=
  fun s => match o with
           | Ok a => Ok (a, s)
           | Fatal d => Fatal d
           | Raise e => Raise e
           end.

Declare Scope py_scope.
Delimit Scope py_scope with py.
Notation "x <- m ;; k" := (mbind m (fun x => k))
  (at level 61, m at next level, right associativity) : py_scope.
Notation "m ;;; k" := (mbind m (fun _ => k))
  (at level 61, right associativity) : py_scope.
Notation "x <~ o ;; k" := (bind o (fun x => k))
  (at level 61, o at next level, right associativity) : py_scope.

(** ** Strings *)

Definition nl : char := 10%N.

(** [str.isspace] of one character: the white space of Unicode. *)
Definition is_space (c : char) : bool :=
  (((9 <=? c) && (c <=? 13)) || ((28 <=? c) && (c <=? 32))
   || (c =? 133) || (c =? 160) || (c =? 5760)
   || ((8192 <=? c) && (c <=? 8202))
   || (c =? 8232) || (c =? 8233) || (c =? 8239) || (c =? 8287)
   || (c =? 12288))%N.

Fixpoint lstrip (s : string) : string :=
  match s with
  | EmptyString => EmptyString
  | String c s' => if is_space c then lstrip s' else s
  end.

Fixpoint rstrip (s : string) : string :=
  match s with
  | EmptyString => EmptyString
  | String c s' =>
      match rstrip s' with
      | EmptyString => if is_space c then EmptyString else String c EmptyString
      | r => String c r
      end
  end.

(** [s.strip()] *)
Definition strip (s : string) : string := rstrip (lstrip s).

(** [c in s] for a character [c]. *)
Fixpoint has_char (c : char) (s : string) : bool :=
  match s with
  | EmptyString => false
  | String a s' => Char.eqb a c || has_char c s'
  end.

(** [s.split(c)]: never the empty list. *)
Fixpoint split (c : char) (s : string) : list string :=
  match s with
  | EmptyString => [EmptyString]
  | String a s' =>
      if Char.eqb a c then EmptyString :: split c s'
      else match split c s' with
           | [] => [String a EmptyString]
           | p :: ps => String a p :: ps
           end
  end.

(** The letters of ASCII.  Python changes the case of letters outside
    ASCII as well; none of them becomes a letter of ASCII that the texts
    compared here hold, so only the wording of a message about an
    action outside ASCII depends on it. *)
Definition is_upper (c : char) : bool := ((65 <=? c) && (c <=? 90))%N.

Definition is_lower (c : char) : bool := ((97 <=? c) && (c <=? 122))%N.

Definition to_upper (c : char) : char :=
  if is_lower c then (c - 32)%N else c.

Definition to_lower (c : char) : char :=
  if is_upper c then (c + 32)%N else c.

Fixpoint lower (s : string) : string :=
  match s with
  | EmptyString => EmptyString
  | String c s' => String (to_lower c) (lower s')
  end.

(** [s.capitalize()] *)
Definition capitalize (s : string) : string :=
  match s with
  | EmptyString => EmptyString
  | String c s' => String (to_upper c) (lower s')
  end.

(** ** utils *)

Module utils.

(** [utils.is_blank] *)
Definition is_blank (s : string) : bool :=
  String.eqb (strip s) "".

(** [name, action = fake_key]: unpacking an iterable of JSON origin
    into two targets. *)
Definition unpack2 (v : json) : outcome (json * json) :=
  match v with
  | JList [a; b] => Ok (a, b)
  | JList _ => Raise ValueError
  | JString (String a (String b EmptyString)) =>
      Ok (JString (String a EmptyString), JString (String b EmptyString))
  | JString _ => Raise ValueError
  | JObject [(k1, _); (k2, _)] => Ok (JString k1, JString k2)
  | JObject _ => Raise ValueError
  | JNull | JBool _ | JInt _ | JFloat _ => Raise TypeError
  end.

Definition valid_actions : list string :=
  ["Press"; "Release"; "Tap"; "Toggle"].

Definition str_in (s : string) (l : list string) : bool :=
  existsb (String.eqb s) l.

(** [utils.validate_fake_key]; [strip] and [capitalize] are methods of
    [str] only. *)
Definition validate_fake_key (fake_key : json) (rule_no : option nat)
  : outcome (string * string) :=
  (p <~ unpack2 fake_key ;;
   let '(name, action) := p in
   match name with
   | JString name =>
       if is_blank name then Fatal BlankFakeKeyName
       else
         match action with
         | JString action =>
             let action := capitalize action in
             if negb (str_in action valid_actions) then
               match rule_no with
               | Some (S n) => Fatal (InvalidActionInRule (S n) action)
               | _ => Fatal (InvalidAction action)
               end
             else Ok (name, action)
         | _ => Raise AttributeError
         end
   | _ => Raise AttributeError
   end)%py.

End utils.

(** ** The socket *)

(** What one [recv] gives: bytes that are UTF-8 for the text [data]
    (none when the peer has closed), bytes that are no UTF-8,
    [socket.timeout], or another [OSError]. *)
Inductive recv_result : Type :=
| Chunk (data : string)
| Timeout
| Undecodable
| Reset.

(** The connection seen from the client: whether [connect] succeeds,
    the commands handed to [sendall] (oldest first, each standing for
    its line [json.dumps(cmd)] and a newline), what the coming [recv]
    calls give, and which calls of [sendall], counted from 0 over the
    commands sent, fail with an [OSError].  When nothing is left to
    give, [recv] times out. *)
Record socket : Type := {
  reachable : bool;
  sent : list json;
  incoming : list recv_result;
  send_error : nat -> bool
}.

Definition sendall (cmd : json) (s : socket) : outcome socket :=
  if send_error s (length (sent s)) then Raise OSError
  else Ok {| reachable := reachable s;
             sent := sent s ++ [cmd];
             incoming := incoming s;
             send_error := send_error s |}.

Definition with_incoming (inc : list recv_result) (s : socket) : socket :=
  {| reachable := reachable s;
     sent := sent s;
     incoming := inc;
     send_error := send_error s |}.

(** ** Kanata *)

Record Kanata : Type := {
  _client : socket;
  _buffer : string;
  _connected : bool
}.

(** The [recv] loop of [_flush_buffer]: until a timeout or an empty
    chunk; an [OSError] that is no timeout and the [UnicodeDecodeError]
    of [chunk.decode] leave the loop. *)
Fixpoint drain (inc : list recv_result) (buf : string)
  : outcome (list recv_result * string) :=
  match inc with
  | [] => Ok ([], buf)
  | Timeout :: rest => Ok (rest, buf)
  | Chunk EmptyString :: rest => Ok (rest, buf)
  | Chunk chunk :: rest => drain rest (buf ++ chunk)
  | Undecodable :: _ => Raise UnicodeDecodeError
  | Reset :: _ => Raise OSError
  end.

(** [Kanata._flush_buffer] *)
Definition _flush_buffer : M Kanata unit :=
  fun k =>
    (p <~ drain (incoming (_client k)) (_buffer k) ;;
     let '(inc, buf) := p in
     Ok (tt, {| _client := with_incoming inc (_client k);
                _buffer := if has_char nl buf then last (split nl buf) "" else buf;
                _connected := _connected k |}))%py.

(** The [recv] loop of [send]: while the buffer holds no newline.  The
    first component tells whether it ended in a timeout. *)
Fixpoint recv_line (inc : list recv_result) (buf : string)
  : outcome (bool * list recv_result * string) :=
  if has_char nl buf then Ok (false, inc, buf)
  else
    match inc with
    | [] => Ok (true, [], buf)
    | Timeout :: rest => Ok (true, rest, buf)
    | Chunk EmptyString :: rest => Ok (false, rest, buf)
    | Chunk chunk :: rest => recv_line rest (buf ++ chunk)
    | Undecodable :: _ => Raise UnicodeDecodeError
    | Reset :: _ => Raise OSError
    end.

(** The first line that is not blank, stripped. *)
Fixpoint first_response (lines : list string) : option string :=
  match lines with
  | [] => None
  | line :: rest =>
      if negb (String.eqb (strip line) "") then Some (strip line)
      else first_response rest
  end.

(** What [send] does once the buffer is flushed: [sendall], the [recv]
    loop and the lines. *)
Definition exchange (cmd : json) : M Kanata (option string) :=
  fun k1 =>
    (sock <~ sendall cmd (_client k1) ;;
     p <~ recv_line (incoming sock) (_buffer k1) ;;
     let '(timed_out, inc, buf) := p in
     if timed_out then
       Ok (None, {| _client := with_incoming inc sock;
                    _buffer := buf;
                    _connected := _connected k1 |})
     else
       let lines := split nl buf in
       Ok (first_response (removelast lines),
           {| _client := with_incoming inc sock;
              _buffer := last lines "";
              _connected := _connected k1 |}))%py.

(** [Kanata.send] from [logging.debug] on, that is on a connected
    client. *)
Definition transmit (cmd : json) : M Kanata (option string) :=
  (_flush_buffer ;;; exchange cmd)%py.

(** [v.get(key, default)]: only a dict has [get]. *)
Definition py_get (v : json) (key : string) (default : json) : outcome json :=
  match v with
  | JObject d => Ok (match dict_get d key with Some x => x | None => default end)
  | _ => Raise AttributeError
  end.

Definition request (tag : string) (args : list (string * json)) : json :=
  JObject [(tag, JObject args)].

(** What [json.loads] comes to: a value, [json.JSONDecodeError], or
    another exception ([RecursionError] for a text nested too deep,
    [ValueError] for an integer of too many digits). *)
Inductive loads_result : Type :=
| Parsed (v : json)
| JSONDecodeError
| LoadsRaises (e : exn).

Section Client.

(** [json.loads] *)
Variable json_loads : string -> loads_result.

(** [Kanata._parse_json_response]: only [json.JSONDecodeError] is
    caught. *)
Definition _parse_json_response (response : option string) : outcome json :=
  match response with
  | Some (String c r) =>
      match json_loads (String c r) with
      | Parsed v => Ok v
      | JSONDecodeError => Ok (JObject [])
      | LoadsRaises e => Raise e
      end
  | _ => Ok (JObject [])
  end.

Definition current_layer_name_in (response : option string) : outcome json :=
  (data <~ _parse_json_response response ;;
   inner <~ py_get data "CurrentLayerName" (JObject []) ;;
   py_get inner "name" JNull)%py.

(** [except socket.error as e: fatal(...)] of [_connect]:
    [socket.error] is [OSError]. *)
Definition on_socket_error {A : Type} (o : outcome A) : outcome A :=
  match o with
  | Raise OSError => Fatal ConnectionError
  | _ => o
  end.

(** [Kanata._connect]: the [send] inside its
    [get_current_layer_name] finds the client connected. *)
Definition _connect : M Kanata unit :=
  fun k =>
    if reachable (_client k) then
      on_socket_error
        ((response <- transmit (request "RequestCurrentLayerName" []) ;;
          _ <- lift (current_layer_name_in response) ;;
          ret tt)%py
           {| _client := _client k; _buffer := _buffer k; _connected := true |})
    else Fatal ConnectionError.

(** [Kanata.send] *)
Definition send (cmd : json) : M Kanata (option string) :=
  fun k =>
    ((if _connected k then ret tt else _connect) ;;; transmit cmd)%py k.

(** [Kanata.get_current_layer_name] *)
Definition get_current_layer_name : M Kanata json :=
  (response <- send (request "RequestCurrentLayerName" []) ;;
   lift (current_layer_name_in response))%py.

(** [Kanata.get_current_layer_info] *)
Definition get_current_layer_info : M Kanata json :=
  (response <- send (request "RequestCurrentLayerInfo" []) ;;
   lift (data <~ _parse_json_response response ;;
         py_get data "CurrentLayerInfo" JNull))%py.

(** [Kanata.get_layer_names] *)
Definition get_layer_names : M Kanata json :=
  (response <- send (request "RequestLayerNames" []) ;;
   lift (data <~ _parse_json_response response ;;
         inner <~ py_get data "LayerNames" (JObject []) ;;
         py_get inner "names" JNull))%py.

(** [layer == name] for a [str] on the left. *)
Definition str_eq_json (layer : string) (name : json) : bool :=
  match name with
  | JString s => String.eqb layer s
  | _ => false
  end.

(** [Kanata.change_layer] *)
Definition change_layer (layer : string) : M Kanata bool :=
  (name <- get_current_layer_name ;;
   if str_eq_json layer name then ret false
   else
     response <- send (request "ChangeLayer" [("new", JString layer)]) ;;
     _ <- lift (_parse_json_response response) ;;
     ret true)%py.

(** [Kanata.act_on_fake_key] *)
Definition act_on_fake_key (fake_key : json) : M Kanata unit :=
  (p <- lift (utils.validate_fake_key fake_key None) ;;
   let '(name, action) := p in
   response <- send (request "ActOnFakeKey"
                       [("name", JString name); ("action", JString action)]) ;;
   _ <- lift (_parse_json_response response) ;;
   ret tt)%py.

(** [Kanata.set_mouse] *)
Definition set_mouse (pos : json) : M Kanata unit :=
  (p <- lift (utils.unpack2 pos) ;;
   let '(x, y) := p in
   response <- send (request "SetMouse" [("x", x); ("y", y)]) ;;
   _ <- lift (_parse_json_response response) ;;
   ret tt)%py.

End Client.

(** ** Config *)

Fixpoint is_prefix (p s : string) : bool :=
  match p, s with
  | EmptyString, _ => true
  | String a p', String b s' => Char.eqb a b && is_prefix p' s'
  | String _ _, EmptyString => false
  end.

(** [p in s] for two strings. *)
Fixpoint contains (p s : string) : bool :=
  is_prefix p s
  || match s with
     | EmptyString => false
     | String _ s' => contains p s'
     end.

(** [layer in container] for a [str] on the left. *)
Definition str_in_json (layer : string) (container : json) : outcome bool :=
  match container with
  | JList l => Ok (existsb (str_eq_json layer) l)
  | JString s => Ok (contains layer s)
  | JObject d => Ok (utils.str_in layer (dict_keys d))
  | JNull | JBool _ | JInt _ | JFloat _ => Raise TypeError
  end.

Definition allowed_rule_keys : list string :=
  ["class"; "title"; "layer"; "fake_key"; "set_mouse"; "cmd"].

(** [rule.keys() - allowed_rule_keys]; a rule without [keys] has
    already failed at [rule.get]. *)
Definition unexpected_rule_keys (rule : json) : list string :=
  match rule with
  | JObject d =>
      filter (fun k => negb (utils.str_in k allowed_rule_keys)) (dict_keys d)
  | _ => []
  end.

(** The loop over [["class", "title", "layer", "cmd"]]. *)
Fixpoint check_strings (rule : json) (rule_no : nat) (keys : list string)
  : outcome unit :=
  match keys with
  | [] => Ok tt
  | key :: rest =>
      (value <~ py_get rule key JNull ;;
       match value with
       | JBool false | JNull => check_strings rule rule_no rest
       | JString s =>
           if utils.is_blank s then Fatal (NotNonEmptyString key rule_no)
           else check_strings rule rule_no rest
       | _ => Fatal (NotNonEmptyString key rule_no)
       end)%py
  end.

Definition all_of (p : json -> bool) (v : json) : bool :=
  match v with
  | JList l => forallb p l
  | _ => false
  end.

(** The block under [if rule_fake_key:]. *)
Definition check_fake_key (rule_no : nat) (rule_fake_key : json) : outcome unit :=
  if truthy rule_fake_key then
    if negb (is_list rule_fake_key) || negb (all_of is_str rule_fake_key)
    then Fatal (FakeKeyNotStrings rule_no)
    else (_ <~ utils.validate_fake_key rule_fake_key (Some rule_no) ;; Ok tt)%py
  else Ok tt.

(** The check of [rule_set_mouse]. *)
Definition check_set_mouse (rule_no : nat) (rule_set_mouse : json) : outcome unit :=
  if truthy rule_set_mouse
     && (negb (is_list rule_set_mouse) || negb (all_of is_int rule_set_mouse))
  then Fatal (SetMouseNotIntegers rule_no)
  else Ok tt.

(** The check of [layer]; after the check of the text keys a layer that
    counts as true is a [str]. *)
Definition check_layer (kanata_layers : json) (rule_no : nat) (layer : json)
  : outcome unit :=
  if truthy layer then
    match layer with
    | JString l =>
        (known <~ str_in_json l kanata_layers ;;
         if negb known then Fatal (UndefinedLayer l rule_no) else Ok tt)%py
    | _ => Raise NotModelled
    end
  else Ok tt.

(** One turn of the loop of [Config._validate]. *)
Definition validate_rule (kanata_layers : json) (rule_no : nat) (rule : json)
  : outcome unit :=
  (rule_fake_key <~ py_get rule "fake_key" JNull ;;
   rule_set_mouse <~ py_get rule "set_mouse" JNull ;;
   match unexpected_rule_keys rule with
   | _ :: _ as keys => Fatal (UnexpectedKeys rule_no keys)
   | [] =>
       _ <~ check_strings rule rule_no ["class"; "title"; "layer"; "cmd"] ;;
       if negb (is_dict rule) || negb (truthy rule) then
         Fatal (NotNonEmptyObject rule_no)
       else
         _ <~ check_fake_key rule_no rule_fake_key ;;
         _ <~ check_set_mouse rule_no rule_set_mouse ;;
         layer <~ py_get rule "layer" JNull ;;
         check_layer kanata_layers rule_no layer
   end)%py.

(** The loop of [Config._validate], [rule_no] being the number of the
    first rule of [rules]. *)
Fixpoint validate_rules (kanata_layers : json) (rule_no : nat) (rules : list json)
  : outcome unit :=
  match rules with
  | [] => Ok tt
  | rule :: rest =>
      (_ <~ validate_rule kanata_layers rule_no rule ;;
       validate_rules kanata_layers (S rule_no) rest)%py
  end.

Record WinInfo : Type := {
  cls : string;
  title : string
}.

(** [to_pattern] of [Config.detect_rule]; the f-string is modelled for
    the values a checked rule can hold. *)
Definition to_pattern (value : json) : outcome string :=
  match value with
  | JString s => Ok (if String.eqb s "*" then ".*" else ".*" ++ s ++ ".*")%string
  | JBool true => Ok ".*True.*"
  | JBool false => Ok ".*False.*"
  | JNull => Ok ".*None.*"
  | JInt _ | JFloat _ | JList _ | JObject _ => Raise NotModelled
  end.

(** The state of the closure [on_focus_event] and of what it acts on:
    the client, the two [nonlocal] variables, the commands given to
    [utils.run_cmd_bg], and the windows reported by the handler's own
    [log.info]. *)
Record Listener : Type := {
  kanata : Kanata;
  last_win_title : option string;
  last_win_class : option string;
  spawned : list json;
  logged : list WinInfo
}.

Definition on_kanata {A : Type} (m : M Kanata A) : M Listener A :=
  fun st =>
    match m (kanata st) with
    | Ok (a, k) =>
        Ok (a, {| kanata := k;
                  last_win_title := last_win_title st;
                  last_win_class := last_win_class st;
                  spawned := spawned st;
                  logged := logged st |})
    | Fatal d => Fatal d
    | Raise e => Raise e
    end.

Definition log_info (w : WinInfo) : M Listener unit :=
  fun st =>
    Ok (tt, {| kanata := kanata st;
               last_win_title := last_win_title st;
               last_win_class := last_win_class st;
               spawned := spawned st;
               logged := logged st ++ [w] |}).

Definition set_last_win (w : WinInfo) : M Listener unit :=
  fun st =>
    Ok (tt, {| kanata := kanata st;
               last_win_title := Some (title w);
               last_win_class := Some (cls w);
               spawned := spawned st;
               logged := logged st |}).

(** [utils.run_cmd_bg]: the thread is started and not waited for. *)
Definition run_cmd_bg (cmd : json) : M Listener unit :=
  fun st =>
    Ok (tt, {| kanata := kanata st;
               last_win_title := last_win_title st;
               last_win_class := last_win_class st;
               spawned := spawned st ++ [cmd];
               logged := logged st |}).

Definition opt_eqb (s : string) (o : option string) : bool :=
  match o with
  | Some s' => String.eqb s s'
  | None => false
  end.

Definition when {S : Type} (b : bool) (m : M S unit) : M S unit :=
  if b then m else ret tt.

Section Engine.

Variable json_loads : string -> loads_result.

(** [re.match(pattern, string)] as a truth value; [Raise re_error]
    when the pattern does not compile. *)
Variable re_match : string -> string -> outcome bool.

(** [Config._validate] *)
Definition _validate (rules : json) : M Kanata unit :=
  match rules with
  | JList rs =>
      (kanata_layers <- get_layer_names json_loads ;;
       lift (validate_rules kanata_layers 1 rs))%py
  | _ => lift (Fatal ExpectedArray)
  end.

(** Whether the test of the [if] in [Config.detect_rule] holds. *)
Definition rule_matches (rule : json) (win_info : WinInfo) : outcome bool :=
  (c <~ py_get rule "class" (JString "*") ;;
   pattern_class <~ to_pattern c ;;
   t <~ py_get rule "title" (JString "*") ;;
   pattern_title <~ to_pattern t ;;
   m <~ re_match pattern_class (cls win_info) ;;
   if m then re_match pattern_title (title win_info) else Ok false)%py.

(** [Config.detect_rule] *)
Fixpoint detect_rule (rules : list json) (win_info : WinInfo)
  : outcome (option json) :=
  match rules with
  | [] => Ok None
  | rule :: rest =>
      (m <~ rule_matches rule win_info ;;
       if m then Ok (Some rule) else detect_rule rest win_info)%py
  end.

(** The body of [if ok:] in [on_focus_event]. *)
Definition side_effects (matched_rule : json) : M Listener unit :=
  (rule_cmd <- lift (py_get matched_rule "cmd" JNull) ;;
   fake_key <- lift (py_get matched_rule "fake_key" JNull) ;;
   set_mouse_pos <- lift (py_get matched_rule "set_mouse" JNull) ;;
   when (truthy rule_cmd) (run_cmd_bg rule_cmd) ;;;
   when (truthy fake_key) (on_kanata (act_on_fake_key json_loads fake_key)) ;;;
   when (truthy set_mouse_pos) (on_kanata (set_mouse json_loads set_mouse_pos)))%py.

(** The body of [if matched_rule:] in [on_focus_event]; a layer that
    is not a [str] cannot come out of a checked configuration. *)
Definition dispatch (matched_rule : json) (win_info : WinInfo) : M Listener unit :=
  (set_last_win win_info ;;;
   rule_layer <- lift (py_get matched_rule "layer" JNull) ;;
   if negb (truthy rule_layer) then ret tt
   else
     match rule_layer with
     | JString layer =>
         ok <- on_kanata (change_layer json_loads layer) ;;
         when ok (side_effects matched_rule)
     | _ => lift (Raise NotModelled)
     end)%py.

(** [on_focus_event] of [WMBaseListener.listen], for the rules of
    [cfg] and the window [self.get_active_win()] gives. *)
Definition on_focus_event (rules : list json) (win_info : WinInfo)
  : M Listener unit :=
  fun st =>
    if negb (opt_eqb (title win_info) (last_win_title st))
       || negb (opt_eqb (cls win_info) (last_win_class st))
    then
      (log_info win_info ;;;
       matched_rule <- lift (detect_rule rules win_info) ;;
       match matched_rule with
       | Some rule => when (truthy rule) (dispatch rule win_info)
       | None => ret tt
       end)%py st
    else Ok (tt, st).

(** The state [listen] starts from. *)
Definition listen_init (k : Kanata) : Listener :=
  {| kanata := k;
     last_win_title := None;
     last_win_class := None;
     spawned := [];
     logged := [] |}.

End Engine.

(** ** Regular expressions

    Python's [re] for the patterns made of literal characters, [.],
    [^], [$], escaped punctuation, groups, [|] and the greedy [*], [+]
    and [?].  Sets, counted, lazy and possessive repeats, [(?...)] and
    letter or digit escapes are outside this part: for them the answer
    is [Raise NotModelled]. *)

Module re.

Inductive regex : Type :=
| Empty
| Char (c : char)
| AnyChar
| Bol
| Eol
| Seq (r1 r2 : regex)
| Alt (r1 r2 : regex)
| Star (r : regex).

(** What the parser has to know of the last item read: whether a
    repeat may follow it. *)
Inductive kind : Type := Plain | Anchor | Repeat.

(** A (sub)pattern being read: its finished alternatives and the items
    of the current one, last read first. *)
Record frame : Type := {
  branches : list regex;
  items : list (regex * kind)
}.

Definition empty_frame : frame := {| branches := []; items := [] |}.

Definition push (it : regex * kind) (f : frame) : frame :=
  {| branches := branches f; items := it :: items f |}.

Definition seq_of (its : list (regex * kind)) : regex :=
  fold_left (fun acc it => Seq (fst it) acc) its Empty.

Definition close (f : frame) : regex :=
  fold_left (fun acc b => Alt b acc) (branches f) (seq_of (items f)).

Definition next_branch (f : frame) : frame :=
  {| branches := seq_of (items f) :: branches f; items := [] |}.

Inductive parsed : Type :=
| Parsed (r : regex)
| Invalid
| Unsupported.

Definition is_alnum (c : char) : bool :=
  let n := N.to_nat c in
  (((48 <=? n) && (n <=? 57)) || is_upper c || is_lower c)%nat.

(** The parser: [stack] holds the frames of the groups still open. *)
Fixpoint parse_from (p : string) (stack : list frame) (cur : frame) : parsed :=
  match p with
  | EmptyString =>
      match stack with
      | [] => Parsed (close cur)
      | _ :: _ => Invalid
      end
  | String c p' =>
      match c with
      | "("%char =>
          match p' with
          | String "?"%char _ => Unsupported
          | _ => parse_from p' (cur :: stack) empty_frame
          end
      | ")"%char =>
          match stack with
          | [] => Invalid
          | parent :: stack' =>
              parse_from p' stack' (push (close cur, Plain) parent)
          end
      | "|"%char => parse_from p' stack (next_branch cur)
      | "*"%char =>
          match items cur with
          | (r, Plain) :: rest =>
              parse_from p' stack
                {| branches := branches cur; items := (Star r, Repeat) :: rest |}
          | _ => Invalid
          end
      | "+"%char =>
          match items cur with
          | (r, Plain) :: rest =>
              parse_from p' stack
                {| branches := branches cur;
                   items := (Seq r (Star r), Repeat) :: rest |}
          | (_, Repeat) :: _ => Unsupported
          | _ => Invalid
          end
      | "?"%char =>
          match items cur with
          | (r, Plain) :: rest =>
              parse_from p' stack
                {| branches := branches cur;
                   items := (Alt r Empty, Repeat) :: rest |}
          | (_, Repeat) :: _ => Unsupported
          | _ => Invalid
          end
      | "{"%char | "["%char => Unsupported
      | "\"%char =>
          match p' with
          | EmptyString => Invalid
          | String e p'' =>
              if is_alnum e then Unsupported
              else parse_from p'' stack (push (Char e, Plain) cur)
          end
      | "."%char => parse_from p' stack (push (AnyChar, Plain) cur)
      | "^"%char => parse_from p' stack (push (Bol, Anchor) cur)
      | "$"%char => parse_from p' stack (push (Eol, Anchor) cur)
      | _ => parse_from p' stack (push (Char c, Plain) cur)
      end
  end.

Definition parse (p : string) : parsed := parse_from p [] empty_frame.

(** [$] holds at the end and before a newline that ends the subject. *)
Definition at_end (s : string) (i : nat) : bool :=
  (i =? String.length s)%nat
  || ((S i =? String.length s)%nat
      && match String.get i s with
         | Some a => Char.eqb a nl
         | None => false
         end).

(** The positions reached from [front] in at most [fuel] steps. *)
Fixpoint closure (fuel : nat) (step : nat -> list nat) (front : list nat)
  : list nat :=
  match fuel with
  | O => front
  | S fuel' => front ++ closure fuel' step (flat_map step front)
  end.

(** The positions where a match of [r] that starts at [i] can end. *)
Fixpoint ends (r : regex) (s : string) (i : nat) : list nat :=
  match r with
  | Empty => [i]
  | Char c =>
      match String.get i s with
      | Some a => if Char.eqb a c then [S i] else []
      | None => []
      end
  | AnyChar =>
      match String.get i s with
      | Some a => if Char.eqb a nl then [] else [S i]
      | None => []
      end
  | Bol => if (i =? 0)%nat then [i] else []
  | Eol => if at_end s i then [i] else []
  | Seq r1 r2 => flat_map (ends r2 s) (ends r1 s i)
  | Alt r1 r2 => ends r1 s i ++ ends r2 s i
  | Star r' => closure (String.length s) (ends r' s) [i]
  end.

(** [re.match(pattern, subject)], as a truth value. *)
Definition match_ (pattern subject : string) : outcome bool :=
  match parse pattern with
  | Parsed r =>
      Ok (match ends r subject 0 with [] => false | _ :: _ => true end)
  | Invalid => Raise re_error
  | Unsupported => Raise NotModelled
  end.

End re.

(** ** Reading JSON text

    [json.loads] on the texts used in the examples below: objects,
    arrays, strings without escape sequences, integers, [true], [false]
    and [null].  It is meant for such texts only. *)

Module json_text.

Definition dq : char := 34%N.

Definition is_ws (c : char) : bool :=
  let n := N.to_nat c in
  ((n =? 32) || (n =? 9) || (n =? 10) || (n =? 13))%nat.

Fixpoint skip_ws (s : string) : string :=
  match s with
  | String c s' => if is_ws c then skip_ws s' else s
  | EmptyString => EmptyString
  end.

Definition is_digit (c : char) : bool :=
  let n := N.to_nat c in ((48 <=? n) && (n <=? 57))%nat.

(** After the opening quote: the characters up to the closing one. *)
Fixpoint read_string (s : string) : option (string * string) :=
  match s with
  | EmptyString => None
  | String c s' =>
      if Char.eqb c dq then Some (EmptyString, s')
      else if Char.eqb c "\"%char || (N.to_nat c <? 32)%nat then None
      else match read_string s' with
           | Some (str, rest) => Some (String c str, rest)
           | None => None
           end
  end.

Fixpoint read_digits (s : string) (acc : Z) : Z * string :=
  match s with
  | String c s' =>
      if is_digit c
      then read_digits s' (10 * acc + Z.of_nat (N.to_nat c - 48))
      else (acc, s)
  | EmptyString => (acc, s)
  end.

Definition starts_float (s : string) : bool :=
  match s with
  | String c _ => Char.eqb c "."%char || Char.eqb c "e"%char || Char.eqb c "E"%char
  | EmptyString => false
  end.

(** [0] or a digit from 1 to 9 followed by digits. *)
Definition read_nat (s : string) : option (Z * string) :=
  match s with
  | String c s' =>
      if Char.eqb c "0"%char then
        match s' with
        | String c' _ => if is_digit c' || starts_float s' then None else Some (0%Z, s')
        | EmptyString => Some (0%Z, s')
        end
      else if is_digit c then
        let '(n, rest) := read_digits s 0 in
        if starts_float rest then None else Some (n, rest)
      else None
  | EmptyString => None
  end.

Definition after (word : string) (s : string) : option string :=
  if is_prefix word s
  then Some (String.drop (String.length word) s)
  else None.

Fixpoint read_value (fuel : nat) (s : string) : option (json * string) :=
  match fuel with
  | O => None
  | S fuel' =>
      match skip_ws s with
      | EmptyString => None
      | String c s' =>
          if Char.eqb c dq then
            match read_string s' with
            | Some (str, rest) => Some (JString str, rest)
            | None => None
            end
          else if Char.eqb c "["%char then
            match skip_ws s' with
            | String "]"%char rest => Some (JList [], rest)
            | _ =>
                match read_elements fuel' s' with
                | Some (l, rest) => Some (JList l, rest)
                | None => None
                end
            end
          else if Char.eqb c "{"%char then
            match skip_ws s' with
            | String "}"%char rest => Some (JObject [], rest)
            | _ =>
                match read_members fuel' s' with
                | Some (d, rest) => Some (JObject d, rest)
                | None => None
                end
            end
          else if Char.eqb c "-"%char then
            match read_nat s' with
            | Some (n, rest) => Some (JInt (- n), rest)
            | None => None
            end
          else if is_digit c then
            match read_nat (String c s') with
            | Some (n, rest) => Some (JInt n, rest)
            | None => None
            end
          else
            match after "null" (String c s'), after "true" (String c s'),
                  after "false" (String c s') with
            | Some rest, _, _ => Some (JNull, rest)
            | _, Some rest, _ => Some (JBool true, rest)
            | _, _, Some rest => Some (JBool false, rest)
            | _, _, _ => None
            end
      end
  end

(** The elements of an array up to and with its closing bracket. *)
with read_elements (fuel : nat) (s : string) : option (list json * string) :=
  match fuel with
  | S fuel' =>
      match read_value fuel' s with
      | Some (v, rest) =>
          match skip_ws rest with
          | String ","%char rest' =>
              match read_elements fuel' rest' with
              | Some (l, rest'') => Some (v :: l, rest'')
              | None => None
              end
          | String "]"%char rest' => Some ([v], rest')
          | _ => None
          end
      | None => None
      end
  | O => None
  end

(** The members of an object up to and with its closing brace. *)
with read_members (fuel : nat) (s : string)
  : option (list (string * json) * string) :=
  match fuel with
  | S fuel' =>
      match skip_ws s with
      | String c s' =>
          if Char.eqb c dq then
            match read_string s' with
            | Some (key, rest) =>
                match skip_ws rest with
                | String ":"%char rest' =>
                    match read_value fuel' rest' with
                    | Some (v, rest'') =>
                        match skip_ws rest'' with
                        | String ","%char r =>
                            match read_members fuel' r with
                            | Some (d, r') => Some ((key, v) :: d, r')
                            | None => None
                            end
                        | String "}"%char r => Some ([(key, v)], r)
                        | _ => None
                        end
                    | None => None
                    end
                | _ => None
                end
            | None => None
            end
          else None
      | EmptyString => None
      end
  | O => None
  end.

Definition loads (s : string) : loads_result :=
  match read_value (S (String.length s)) s with
  | Some (v, rest) =>
      match skip_ws rest with
      | EmptyString => Parsed v
      | String _ _ => JSONDecodeError
      end
  | None => JSONDecodeError
  end.

(** A string between double quotes. *)
Definition quoted (s : string) : string :=
  (String dq s ++ String dq EmptyString)%string.

End json_text.

(** ** Requests

    The requests that are looked for in what was sent. *)

Definition layer_name_query : json := request "RequestCurrentLayerName" [].

Definition change_layer_request (layer : string) : json :=
  request "ChangeLayer" [("new", JString layer)].

Definition is_change_layer (cmd : json) : bool :=
  match cmd with
  | JObject [(tag, _)] => String.eqb tag "ChangeLayer"
  | _ => false
  end.

(** How many [ChangeLayer] requests a list of commands holds. *)
Definition change_layer_requests (cmds : list json) : nat :=
  length (filter is_change_layer cmds).

(** ** A connection without faults *)

(** A result of [recv] that [send] and [_flush_buffer] cope with. *)
Definition sound (r : recv_result) : bool :=
  match r with
  | Chunk _ | Timeout => true
  | Undecodable | Reset => false
  end.

(** Every [recv] to come gives text or times out, and no [sendall]
    fails. *)
Definition faultless (s : socket) : Prop :=
  forallb sound (incoming s) = true /\ forall n, send_error s n = false.

(** [json.loads] raises nothing but [json.JSONDecodeError]. *)
Definition tame (json_loads : string -> loads_result) : Prop :=
  forall line e, json_loads line <> LoadsRaises e.

(** ** What the side effects of a rule come to *)





(** ** Notions used in the statements *)

(** The buffer holds no newline. *)
Definition clean (buf : string) : Prop := has_char nl buf = false.

(** The window is the one the handler remembers. *)
Definition is_last_win (w : WinInfo) (st : Listener) : bool :=
  opt_eqb (title w) (last_win_title st) && opt_eqb (cls w) (last_win_class st).

(** The state once the handler has reported the window in its log. *)
Definition noted (w : WinInfo) (st : Listener) : Listener :=
  {| kanata := kanata st;
     last_win_title := last_win_title st;
     last_win_class := last_win_class st;
     spawned := spawned st;
     logged := logged st ++ [w] |}.

(** The state once the handler remembers the window. *)
Definition remembered (w : WinInfo) (st : Listener) : Listener :=
  {| kanata := kanata st;
     last_win_title := Some (title w);
     last_win_class := Some (cls w);
     spawned := spawned st;
     logged := logged st |}.

(** Only the client may differ between the two states. *)
Definition same_but_kanata (st st' : Listener) : Prop :=
  last_win_title st' = last_win_title st
  /\ last_win_class st' = last_win_class st
  /\ spawned st' = spawned st
  /\ logged st' = logged st.

(** The rule has been found not to match the window. *)
Definition no_match (re_match : string -> string -> outcome bool)
  (win : WinInfo) (rule : json) : Prop :=
  rule_matches re_match rule win = Ok false.

(** The handler takes up a rule for the window: it gets past
    [if matched_rule:]. *)
Definition takes_up (re_match : string -> string -> outcome bool)
  (rules : list json) (w : WinInfo) (st : Listener) : Prop :=
  is_last_win w st = false
  /\ exists rule, detect_rule re_match rules w = Ok (Some rule)
                  /\ truthy rule = true.

(** What [_validate] lets pass under ["class"], ["title"], ["layer"] and
    ["cmd"]: [False], [None] (which [rule.get] also gives for a key that
    is not there) and a string that is not blank. *)
Definition text_or_disabled (v : json) : bool :=
  match v with
  | JBool false | JNull => true
  | JString s => negb (utils.is_blank s)
  | _ => false
  end.

Definition text_keys : list string := ["class"; "title"; "layer"; "cmd"].

(** [d.get(key)] *)
Definition value_of (d : list (string * json)) (key : string) : json :=
  match dict_get d key with
  | Some v => v
  | None => JNull
  end.

(** A fake key that [_validate] lets pass: one that counts as false, or
    a name that is not blank with one of the four actions, in any
    letter case. *)
Definition fake_key_passes (v : json) : Prop :=
  truthy v = false
  \/ exists name action,
      v = JList [JString name; JString action]
      /\ utils.is_blank name = false
      /\ utils.str_in (capitalize action) utils.valid_actions = true.

(** The characters [parse_from] does not take for themselves. *)
Definition is_meta (c : char) : bool :=
  existsb (Char.eqb c)
    ["."; "^"; "$"; "*"; "+"; "?"; "{"; "["; "\"; "|"; "("; ")"]%char.

(** A text without any of them. *)
Fixpoint plain (s : string) : bool :=
  match s with
  | EmptyString => true
  | String c s' => negb (is_meta c) && plain s'
  end.

(** The text a class or a title asks for, if it asks for one. *)
Definition wanted (d : list (string * json)) (key : string) : option string :=
  match dict_get d key with
  | Some (JString s) => if String.eqb s "*" then None else Some s
  | _ => None
  end.

(** The subject holds the text asked for, anywhere. *)
Definition holds (w : option string) (subject : string) : bool :=
  match w with
  | None => true
  | Some s => contains s subject
  end.

(** The class or title of the rule is missing, or ["*"], or a plain
    text to be looked for in a subject of one line. *)
Definition literal_field (d : list (string * json)) (key subject : string) : Prop :=
  match dict_get d key with
  | None => True
  | Some (JString s) =>
      s = "*" \/ (plain s = true /\ has_char nl subject = false)
  | Some _ => False
  end.

(** The characters of [s] one after the other, then [r]. *)
Fixpoint lits (s : string) (r : re.regex) : re.regex :=
  match s with
  | EmptyString => r
  | String c s' => re.Seq (re.Char c) (lits s' r)
  end.

(** [s] is read in [subject] from position [i] on. *)
Fixpoint prefix_at (s subject : string) (i : nat) : bool :=
  match s with
  | EmptyString => true
  | String c s' =>
      match String.get i subject with
      | Some a => Char.eqb a c && prefix_at s' subject (S i)
      | None => false
      end
  end.

(** The frame after the characters of a plain text were read. *)
Fixpoint pushes (s : string) (cur : re.frame) : re.frame :=
  match s with
  | EmptyString => cur
  | String c s' => pushes s' (re.push (re.Char c, re.Plain) cur)
  end.

Definition nonempty {A : Type} (l : list A) : bool :=
  match l with
  | [] => false
  | _ :: _ => true
  end.

(** What it is for a regular expression to match the subject from
    position [i] up to position [j]; the reading against which the
    matcher [re.ends] is checked. *)
Inductive matches (s : string) : re.regex -> nat -> nat -> Prop :=
| matches_empty (i : nat) : matches s re.Empty i i
| matches_char (c : char) (i : nat) :
    String.get i s = Some c -> matches s (re.Char c) i (S i)
| matches_any (a : char) (i : nat) :
    String.get i s = Some a -> Char.eqb a nl = false ->
    matches s re.AnyChar i (S i)
| matches_bol : matches s re.Bol 0 0
| matches_eol (i : nat) : re.at_end s i = true -> matches s re.Eol i i
| matches_seq (r1 r2 : re.regex) (i j k : nat) :
    matches s r1 i j -> matches s r2 j k -> matches s (re.Seq r1 r2) i k
| matches_alt_l (r1 r2 : re.regex) (i j : nat) :
    matches s r1 i j -> matches s (re.Alt r1 r2) i j
| matches_alt_r (r1 r2 : re.regex) (i j : nat) :
    matches s r2 i j -> matches s (re.Alt r1 r2) i j
| matches_star_stop (r : re.regex) (i : nat) : matches s (re.Star r) i i
| matches_star_step (r : re.regex) (i j k : nat) :
    matches s r i j -> matches s (re.Star r) j k -> matches s (re.Star r) i k.

(** [k] is reached from [a] in [m] steps. *)
Inductive iter (step : nat -> list nat) : nat -> nat -> nat -> Prop :=
| iter_stop (a : nat) : iter step 0 a a
| iter_step (m a b k : nat) :
    In b (step a) -> iter step m b k -> iter step (S m) a k.

(** ** Sample inputs *)

Definition newline : string := String nl EmptyString.

(** The line the daemon answers a [RequestCurrentLayerName] with. *)
Definition layer_name_reply (name : string) : string :=
  ("{" ++ json_text.quoted "CurrentLayerName" ++ ":{" ++ json_text.quoted "name"
   ++ ":" ++ json_text.quoted name ++ "}}" ++ newline)%string.

(** The line it answers a [RequestLayerNames] with, for two layers. *)
Definition layer_names_reply : string :=
  ("{" ++ json_text.quoted "LayerNames" ++ ":{" ++ json_text.quoted "names"
   ++ ":[" ++ json_text.quoted "base" ++ "," ++ json_text.quoted "media"
   ++ "]}}" ++ newline)%string.

(** A connected client with an empty buffer and the given [recv]
    results ahead. *)
Definition connected_client (script : list recv_result) : Kanata :=
  {| _client := {| reachable := true; sent := []; incoming := script;
                   send_error := fun _ => false |};
     _buffer := "";
     _connected := true |}.

(** Nothing is waiting when the buffer is flushed, then the line comes. *)
Definition answering (line : string) : list recv_result :=
  [Timeout; Chunk line].

(** The state a run leaves, if it leaves one. *)
Definition state_after {A S : Type} (o : outcome (A * S)) (default : S) : S :=
  match o with
  | Ok (_, s) => s
  | _ => default
  end.

Definition window (c t : string) : WinInfo := {| cls := c; title := t |}.

(** A stale line and the start of another one are waiting; the reply
    comes after the request. *)
Definition stale_client : Kanata :=
  connected_client
    [Chunk ("stale" ++ newline ++ "{"); Timeout; Chunk (layer_name_reply "base")].

(** The daemon says that the current layer is [base]. *)
Definition base_client : Kanata :=
  connected_client (answering (layer_name_reply "base")).

(** The daemon says [base], stays silent on the [ChangeLayer] request
    that follows, and says [media] when asked again. *)
Definition switching_client : Kanata :=
  connected_client
    (answering (layer_name_reply "base")
     ++ [Timeout; Timeout]
     ++ answering (layer_name_reply "media")).

(** The daemon never says anything. *)
Definition silent_client : Kanata := connected_client [].

(** The daemon gives the names of its layers. *)
Definition layers_client : Kanata := connected_client (answering layer_names_reply).

Definition rule_of_class (c : string) : json := JObject [("class", JString c)].

(** The two rules of the specification's example on precedence. *)
Definition rule_a : json := rule_of_class "a".
Definition rule_a_b : json :=
  JObject [("class", JString "a"); ("title", JString "b")].

(** A rule that passes [_validate] and whose class is no regular
    expression. *)
Definition rule_paren : json := rule_of_class "(".

Definition rule_readme : json :=
  JObject [("title", JString "README"); ("layer", JString "docs")].

(** A rule with a command and no layer. *)
Definition rule_no_layer : json :=
  JObject [("class", JString "a"); ("cmd", JString "notify-send a")].

(** A rule with a layer and all three side effects. *)
Definition rule_media : json :=
  JObject [("class", JString "chrome"); ("title", JString "YouTube");
           ("layer", JString "media"); ("cmd", JString "notify-send media");
           ("fake_key", JList [JString "Space"; JString "tap"]);
           ("set_mouse", JList [JInt 300; JInt 400])].

Definition youtube : WinInfo := window "chrome journal" "YouTube - Song".

(** The windows and the rules expected for them in
    [tests/test_config.py]. *)
Definition tested_matches : list (WinInfo * json) :=
  [(window "chrome" "YouTube",
    JObject [("class", JString "chrome"); ("title", JString "YouTube");
             ("layer", JString "media")]);
   (window "code-oss" "index.html - Code - OSS",
    JObject [("class", JString "code-oss"); ("title", JString "*");
             ("layer", JString "vs_code")]);
   (window "vlc" "Movie",
    JObject [("class", JString "vlc"); ("title", JString "Movie");
             ("layer", JString "media");
             ("fake_key", JList [JString "Space"; JString "Tap"]);
             ("set_mouse", JList [JInt 300; JInt 400])]);
   (window "nvim" "nvim - [Scratch]",
    JObject [("class", JString "nvim"); ("title", JString "nvim - \[Scratch]");
             ("layer", JString "vim_scratch")]);
   (window "Steam" "Library",
    JObject [("class", JString "Steam"); ("title", JString "Library");
             ("layer", JString "gaming")]);
   (window "obs" "Recording",
    JObject [("class", JString "^obs$"); ("layer", JString "streaming")]);
   (window "random" "ChatGPT",
    JObject [("class", JString "*"); ("title", JString "ChatGPT");
             ("layer", JString "ai_layer")]);
   (window "any" "README.md",
    JObject [("title", JString "README"); ("layer", JString "docs")]);
   (window "something" "unknown",
    JObject [("class", JString "*"); ("title", JString "*");
             ("layer", JString "base_layer")])].

(** Rules for [_validate]: one in order, and one each with a blank
    class, a [null] class, a fake key and a mouse position set to
    [false] or to the empty list, an action that does not exist, and a
    mouse position given as text. *)
Definition rule_ok : json :=
  JObject [("class", JString "chrome"); ("layer", JString "media")].

Definition rule_blank_class : list (string * json) :=
  [("class", JString " "); ("layer", JString "base")].

Definition rule_null_class : json :=
  JObject [("class", JNull); ("layer", JString "base")].

Definition rule_effects_off : json :=
  JObject [("class", JString "x"); ("fake_key", JBool false);
           ("set_mouse", JBool false)].

Definition rule_effects_empty : json :=
  JObject [("class", JString "y"); ("fake_key", JList []); ("set_mouse", JList [])].

Definition rule_hold : list (string * json) :=
  [("class", JString "x"); ("fake_key", JList [JString "Space"; JString "hold"])].

Definition rule_mouse_text : list (string * json) :=
  [("class", JString "x"); ("set_mouse", JString "300,400")].

(** ** More of [utils] *)

Fixpoint all_digits (s : string) : bool :=
  match s with
  | EmptyString => true
  | String c s' => json_text.is_digit c && all_digits s'
  end.

(** The text holds characters of ASCII only. *)
Fixpoint is_ascii (s : string) : bool :=
  match s with
  | EmptyString => true
  | String c s' => (c <? 128)%N && is_ascii s'
  end.

(** [s.isdigit()] for a text of ASCII. *)
Definition ascii_isdigit (s : string) : bool :=
  match s with
  | EmptyString => false
  | String _ _ => all_digits s
  end.

(** [s.isdigit()].  Which characters outside ASCII count as digits, and
    what [int] makes of them, depends on the Unicode tables of the
    interpreter: a text that holds one is left out. *)
Definition isdigit (s : string) : outcome bool :=
  if is_ascii s then Ok (ascii_isdigit s) else Raise NotModelled.

Fixpoint int_from (acc : Z) (s : string) : Z :=
  match s with
  | EmptyString => acc
  | String c s' => int_from (10 * acc + Z.of_nat (N.to_nat c - 48)) s'
  end.

(** [int(s)] for a string of digits.  Python may refuse a string of more
    than 4300 digits; such strings are left out. *)
Definition py_int (s : string) : outcome Z :=
  if String.length s <=? 4300 then Ok (int_from 0 s) else Raise NotModelled.

(** [utils._is_valid_port] *)
Definition _is_valid_port (port : json) : outcome bool :=
  match port with
  | JInt n => Ok ((0 <? n) && (n <=? 65535))%Z
  | JBool b => Ok b
  | JString s =>
      (d <~ isdigit s ;;
       if d then
         val <~ py_int s ;; Ok ((0 <? val) && (val <=? 65535))%Z
       else Ok false)%py
  | JNull | JFloat _ | JList _ | JObject _ => Ok false
  end.

(** A digit, which is what [\d] matches in a subject of ASCII. *)
Definition digit : re.regex :=
  fold_right (fun c r => re.Alt (re.Char c) r) (re.Char "9"%char)
    ["0"; "1"; "2"; "3"; "4"; "5"; "6"; "7"; "8"]%char.

(** [r{0,n}] and [r{1,n}] *)
Fixpoint at_most (n : nat) (r : re.regex) : re.regex :=
  match n with
  | O => re.Empty
  | S n' => re.Alt (re.Seq r (at_most n' r)) re.Empty
  end.

Definition one_to (n : nat) (r : re.regex) : re.regex :=
  re.Seq r (at_most (n - 1) r).

(** The pattern of [utils._is_valid_ip_port], group by group. *)
Definition ip_port_pattern : re.regex :=
  let dot_digits := re.Seq (re.Char "."%char) (one_to 3 digit) in
  re.Seq
    (re.Seq (one_to 3 digit) (re.Seq dot_digits (re.Seq dot_digits dot_digits)))
    (re.Seq (re.Char ":"%char) (one_to 5 digit)).

(** [re.fullmatch], as a truth value: a match that ends where the
    subject ends. *)
Definition fullmatch (r : re.regex) (subject : string) : bool :=
  existsb (Nat.eqb (String.length subject)) (re.ends r subject 0).

(** An octet of the address, as the [all(...)] of [_is_valid_ip_port]
    tests it; the octets are of ASCII there. *)
Definition octet_ok (o : string) : bool :=
  ascii_isdigit o
  && match py_int o with
     | Ok n => ((0 <=? n) && (n <=? 255))%Z
     | _ => false
     end.

(** [utils._is_valid_ip_port]; the two groups of the match are the two
    sides of the colon.  A value with a character outside ASCII, where
    [\d] follows the Unicode tables, is left out. *)
Definition _is_valid_ip_port (value : string) : outcome bool :=
  if negb (is_ascii value) then Raise NotModelled
  else if negb (fullmatch ip_port_pattern value) then Ok false
  else
    match split ":"%char value with
    | [ip; port_str] =>
        (port <~ py_int port_str ;;
         valid <~ _is_valid_port (JInt port) ;;
         if negb valid then Ok false
         else if String.eqb ip "localhost" then Ok true
         else Ok (forallb octet_ok (split "."%char ip)))%py
    | _ => Raise NotModelled
    end.

(** What [utils.validate_port] comes to: an address, the message
    [Invalid port ...] of [fatal], or an exception. *)
Inductive port_outcome : Type :=
| Address (host : string) (port : Z)
| InvalidPort (port : string)
| PortRaises (e : exn).

(** [utils.validate_port], for the text the command line gives. *)
Definition validate_port (port : string) : port_outcome :=
  match _is_valid_port (JString port) with
  | Ok true =>
      match py_int port with
      | Ok n => Address "127.0.0.1" n
      | Fatal _ => InvalidPort port
      | Raise e => PortRaises e
      end
  | Ok false =>
      match _is_valid_ip_port port with
      | Ok true =>
          match split ":" port with
          | [host; port_part] =>
              match py_int port_part with
              | Ok n => Address host n
              | Fatal _ => InvalidPort port
              | Raise e => PortRaises e
              end
          | _ => PortRaises ValueError
          end
      | Ok false => InvalidPort port
      | Fatal _ => InvalidPort port
      | Raise e => PortRaises e
      end
  | Fatal _ => InvalidPort port
  | Raise e => PortRaises e
  end.

(** The code points for which [str.isspace] holds. *)
Definition white_space : list char :=
  [9; 10; 11; 12; 13; 28; 29; 30; 31; 32; 133; 160; 5760;
   8192; 8193; 8194; 8195; 8196; 8197; 8198; 8199; 8200; 8201; 8202;
   8232; 8233; 8239; 8287; 12288]%N.

(** All characters are white space. *)
Fixpoint all_space (s : string) : bool :=
  match s with
  | EmptyString => true
  | String c s' => is_space c && all_space s'
  end.

(** The ports [tests/test_utils.py] expects to be refused. *)
Definition refused_ports : list string :=
  [""; "99999"; "65536"; "-1"; "abcd"; "127.0.0.1:99999"; "127.0.0.1:-1";
   "256.0.0.1:80"; "127.0.0.1"; "1.1.1.1:"; ":8080"].

(** ** More notions for the client *)

(** The chunks one after the other. *)
Definition joined (chunks : list string) : string :=
  fold_right String.append "" chunks.

(** The [recv] results for chunks that are waiting, none of them empty,
    and then nothing more for the moment. *)
Definition waiting (chunks : list string) : list recv_result :=
  map Chunk chunks ++ [Timeout].

(** Two answers to earlier requests are waiting, each a whole line;
    the answer to the next request comes after it. *)
Definition resync_client : Kanata :=
  connected_client
    (waiting [layer_name_reply "old"; layer_name_reply "older"]
     ++ [Chunk (layer_name_reply "base")]).

(** A client that has not connected yet. *)
Definition fresh_client (up : bool) (script : list recv_result) : Kanata :=
  {| _client := {| reachable := up; sent := []; incoming := script;
                   send_error := fun _ => false |};
     _buffer := "";
     _connected := false |}.

(** The request of [act_on_fake_key]. *)
Definition fake_key_request (name action : string) : json :=
  request "ActOnFakeKey" [("name", JString name); ("action", JString action)].

(** ** More notions for [Config] *)

(** A mouse position that [_validate] lets pass: one that counts as
    false, or a list of integers. *)
Definition set_mouse_passes (v : json) : Prop :=
  truthy v = false \/ (is_list v = true /\ all_of is_int v = true).

(** A layer that [_validate] lets pass: one that counts as false, or a
    text that is found in what the daemon gave as its layers. *)
Definition layer_passes (kanata_layers : json) (v : json) : Prop :=
  truthy v = false
  \/ exists l, v = JString l /\ str_in_json l kanata_layers = Ok true.

(** The rules [_validate] lets pass, for what the daemon gave as its
    layers. *)
Definition well_formed (kanata_layers : json) (rule : json) : Prop :=
  exists d,
    rule = JObject d
    /\ d <> []
    /\ (forall key, In key (dict_keys d) -> In key allowed_rule_keys)
    /\ (forall key, In key text_keys -> text_or_disabled (value_of d key) = true)
    /\ fake_key_passes (value_of d "fake_key")
    /\ set_mouse_passes (value_of d "set_mouse")
    /\ layer_passes kanata_layers (value_of d "layer").

(** The rule asks for a layer. *)
Definition has_layer (rule : json) : bool :=
  match rule with
  | JObject d => truthy (value_of d "layer")
  | _ => false
  end.

(** The request of [set_mouse]. *)
Definition set_mouse_request (x y : json) : json :=
  request "SetMouse" [("x", x); ("y", y)].

(** Rules that pass when the daemon knows the layer [media]: one
    without a layer, one with it. *)
Definition rule_plain : json :=
  JObject [("class", JString "term"); ("cmd", JString "notify-send term")].

Definition two_layers : json := JList [JString "base"; JString "media"].

(** A rule whose mouse position is one number. *)
Definition rule_one_coordinate : list (string * json) :=
  [("class", JString "x"); ("layer", JString "media");
   ("fake_key", JList [JString "Space"; JString "tap"]);
   ("set_mouse", JList [JInt 300])].

(** ** More notions for the lookup and the handler *)

(** The class and the title of the rule are each missing or ["*"]. *)
Definition catch_all (d : list (string * json)) : Prop :=
  (dict_get d "class" = None \/ dict_get d "class" = Some (JString "*"))
  /\ (dict_get d "title" = None \/ dict_get d "title" = Some (JString "*")).

(** How the f-string of [to_pattern] shows [False] and [None]. *)
Definition shown (v : json) : string :=
  match v with
  | JBool false => "False"
  | _ => "None"
  end.

(** The state after a matched rule was taken up and the client has
    become [k]. *)
Definition taken_up (w : WinInfo) (k : Kanata) (st : Listener) : Listener :=
  {| kanata := k;
     last_win_title := Some (title w);
     last_win_class := Some (cls w);
     spawned := spawned st;
     logged := logged st ++ [w] |}.

(** A rule whose class is switched off with [false]. *)
Definition rule_class_off : list (string * json) :=
  [("class", JBool false); ("title", JString "Editor"); ("layer", JString "media")].

(** How many [ChangeLayer] requests the client of the handler has
    sent so far. *)
Definition switches (st : Listener) : nat :=
  change_layer_requests (sent (_client (kanata st))).

(** At most one command more has been started in [st'] than in [st]. *)
Definition at_most_one_started (st st' : Listener) : Prop :=
  spawned st' = spawned st \/ exists cmd, spawned st' = spawned st ++ [cmd].

(** The daemon says that the current layer is [media]. *)
Definition media_client : Kanata :=
  connected_client (answering (layer_name_reply "media")).

(** [WMBaseListener.listen] over a run of notifications: the event
    listener calls [on_focus_event] once for each, and [get_active_win]
    gives the windows of [wins] in turn. *)
Fixpoint handle_all (json_loads : string -> loads_result)
  (re_match : string -> string -> outcome bool)
  (rules : list json) (wins : list WinInfo) : M Listener unit :=
  match wins with
  | [] => ret tt
  | w :: rest =>
      (on_focus_event json_loads re_match rules w ;;;
       handle_all json_loads re_match rules rest)%py
  end.

(** ** The X11 listener *)

Module X11.

(** The exception classes of [Xlib.error] that [__init__] keeps. *)
Inductive error_class : Type :=
| DisplayError
| XError
| BadWindow
| DisplayConnectionError.

(** [self.errors], as [__init__] fills it. *)
Definition errors : list (string * error_class) :=
  [("DisplayError", DisplayError);
   ("XError", XError);
   ("BadWindow", BadWindow);
   ("DisplayConnectionError", DisplayConnectionError)].

(** What may be raised inside the event loop: the [KeyError] of a
    dictionary, an exception of a class of [Xlib.error], [IndexError],
    and what comes out of the callback. *)
Inductive raised : Type :=
| KeyError (key : string)
| Xlib (c : error_class)
| IndexError
| SystemExit (d : diagnostic)
| FromCallback (e : exn).

(** [self.errors[key]] *)
Definition errors_item (key : string) : raised + error_class :=
  match find (fun p => String.eqb (fst p) key) errors with
  | Some (_, c) => inr c
  | None => inl (KeyError key)
  end.

(** [issubclass] among the four classes. *)
Definition subclass (c c' : error_class) : bool :=
  match c, c' with
  | DisplayError, DisplayError
  | XError, XError
  | BadWindow, BadWindow
  | BadWindow, XError
  | DisplayConnectionError, DisplayConnectionError
  | DisplayConnectionError, DisplayError => true
  | _, _ => false
  end.

(** [isinstance(e, classes)] *)
Definition is_instance (r : raised) (classes : list error_class) : bool :=
  match r with
  | Xlib c => existsb (subclass c) classes
  | _ => false
  end.

(** [event.atom == v] for a value of [self.errors]: a number is never
    equal to a class. *)
Definition atom_is (atom : Z) (v : error_class) : bool := false.

(** What [next_event] gives: [PropertyNotify] for an atom or another
    event, or an exception. *)
Inductive event : Type :=
| PropertyNotify (atom : Z)
| OtherEvent.

Inductive next : Type :=
| Event (e : event)
| Fails (r : raised).

(** How the loop ends: it waits in [next_event] when no event is left,
    an exception leaves it, or [fatal] ends the process. *)
Inductive ending : Type :=
| Waiting
| Uncaught (r : raised)
| Exits.

Definition opt_Z_eqb (a b : option Z) : bool :=
  match a, b with
  | Some x, Some y => Z.eqb x y
  | None, None => true
  | _, _ => false
  end.

(** [a and a.value and a.value[0]]-style reading of a property. *)
Definition first_value (prop : option (list Z)) : option Z :=
  match prop with
  | Some (id :: _) => Some id
  | _ => None
  end.

Section Listener.

(** The state the callback works on. *)
Variable S : Type.
Variable on_focus_callback : S -> outcome (unit * S).

(** [self.root.get_full_property(v, AnyPropertyType)] for a value of
    [self.errors]. *)
Variable get_full_property : error_class -> raised + option (list Z).

(** [self.last_seen["xid"]], how often the callback has been called,
    and the state the callback has left. *)
Record Watcher : Type := {
  last_seen : option Z;
  calls : nat;
  state : S
}.

(** The body of [try:] for one result of [next_event]: the state it
    leaves, and the exception if it raises one. *)
Definition try_body (ev : next) (w : Watcher) : Watcher * option raised :=
  match ev with
  | Fails r => (w, Some r)
  | Event OtherEvent => (w, None)
  | Event (PropertyNotify atom) =>
      match errors_item "NET_ACTIVE_WINDOW" with
      | inl r => (w, Some r)
      | inr a =>
          if atom_is atom a then
            match errors_item "NET_ACTIVE_WINDOW" with
            | inl r => (w, Some r)
            | inr a' =>
                match get_full_property a' with
                | inl r => (w, Some r)
                | inr window_id_prop =>
                    let window_id := first_value window_id_prop in
                    if negb (opt_Z_eqb window_id (last_seen w)) then
                      match on_focus_callback (state w) with
                      | Ok (_, s) =>
                          ({| last_seen := window_id;
                              calls := Datatypes.S (calls w);
                              state := s |}, None)
                      | Fatal d =>
                          ({| last_seen := window_id;
                              calls := Datatypes.S (calls w);
                              state := state w |}, Some (SystemExit d))
                      | Raise e =>
                          ({| last_seen := window_id;
                              calls := Datatypes.S (calls w);
                              state := state w |}, Some (FromCallback e))
                      end
                    else (w, None)
                end
            end
          else (w, None)
      end
  end.

(** The classes of [except (...) as e:], evaluated when an exception
    reaches the clause. *)
Definition except_classes : raised + list error_class :=
  match errors_item "ConnectionError" with
  | inl r => inl r
  | inr c1 =>
      match errors_item "XError" with
      | inl r => inl r
      | inr c2 =>
          match errors_item "BadWindow" with
          | inl r => inl r
          | inr c3 => inr [c1; c2; c3]
          end
      end
  end.

Definition is_index_error (r : raised) : bool :=
  match r with
  | IndexError => true
  | _ => false
  end.

(** [_setup_event_listener], once the event mask is set: the loop over
    what [next_event] gives. *)
Fixpoint _setup_event_listener (events : list next) (w : Watcher)
  : ending * Watcher :=
  match events with
  | [] => (Waiting, w)
  | ev :: rest =>
      match try_body ev w with
      | (w', None) => _setup_event_listener rest w'
      | (w', Some r) =>
          match except_classes with
          | inl r' => (Uncaught r', w')
          | inr classes =>
              if is_instance r classes || is_index_error r then (Exits, w')
              else (Uncaught r, w')
          end
      end
  end.

End Listener.

(** What [get_full_property] gives: [None], a property with its value,
    or an exception of [Xlib.error]. *)
Inductive reply (A : Type) : Type :=
| Absent
| Property (value : A)
| Failing (c : error_class).

Arguments Absent {A}.
Arguments Property {A} value.
Arguments Failing {A} c.

(** The properties [get_active_win] reads: [_NET_ACTIVE_WINDOW] of the
    root, and [_NET_WM_NAME] and [WM_CLASS] of a window. *)
Record Display : Type := {
  net_active_window : reply (list Z);
  net_wm_name : Z -> reply string;
  wm_class : Z -> reply string
}.

Definition NUL : char := 0%N.

Definition fallback : WinInfo := {| cls := "*"; title := "*" |}.

Section ActiveWindow.

(** [bytes.decode("utf-8", errors="ignore")] *)
Variable decode : string -> string.

(** The class taken from the text of [WM_CLASS]. *)
Definition class_of (text : string) : string :=
  let class_data := split NUL text in
  if 2 <=? length class_data then nth 1 class_data "*" else "*".

(** [X11.get_active_win]; the exceptions of the four classes are all
    caught by its [except] clause. *)
Definition get_active_win (d : Display) : WinInfo :=
  match net_active_window d with
  | Failing _ => fallback
  | Absent | Property [] => fallback
  | Property (window_id :: _) =>
      match net_wm_name d window_id with
      | Failing _ => fallback
      | title_prop =>
          let title :=
            match title_prop with
            | Property (String a v) => decode (String a v)
            | _ => "*"
            end in
          match wm_class d window_id with
          | Failing _ => fallback
          | Property (String a v) =>
              {| cls := class_of (decode (String a v)); title := title |}
          | _ => {| cls := "*"; title := title |}
          end
      end
  end.

End ActiveWindow.

(** An event that is not skipped. *)
Definition stops (ev : next) : bool :=
  match ev with
  | Event OtherEvent => false
  | _ => true
  end.

End X11.

(** A window of class [Navigator], instance [firefox]. *)
Definition firefox_display : X11.Display :=
  {| X11.net_active_window := X11.Property [42%Z];
     X11.net_wm_name := fun _ => X11.Property "Mozilla Firefox";
     X11.wm_class := fun _ =>
       X11.Property ("firefox" ++ String X11.NUL ("Navigator" ++ String X11.NUL ""))%string |}.

(** The daemon answers the query with a line of JSON that is no
    object. *)
Definition odd_client : Kanata :=
  connected_client (answering ("[]" ++ newline)).

(** The first [sendall] goes through, the second one fails. *)
Definition breaking_client : Kanata :=
  {| _client := {| reachable := true; sent := []; incoming := [];
                   send_error := fun n => Nat.eqb n 1 |};
     _buffer := "";
     _connected := true |}.

(** The daemon sends bytes that are no UTF-8. *)
Definition garbled_client : Kanata :=
  connected_client [Timeout; Undecodable].

(** * Properties *)

(** ** Text *)

Lemma char_eqb_spec (a b : char) : reflect (a = b) (Char.eqb a b).
Proof. apply N.eqb_spec. Qed.

Lemma char_eqb_refl (a : char) : Char.eqb a a = true.
Proof. apply N.eqb_refl. Qed.

Lemma char_eqb_sym (a b : char) : Char.eqb a b = Char.eqb b a.
Proof. apply N.eqb_sym. Qed.

Lemma string_eqb_refl (s : string) : String.eqb s s = true.
Proof.
  induction s as [|c s IH]; simpl; [reflexivity|].
  now rewrite char_eqb_refl, IH.
Qed.

Lemma string_eqb_eq (s t : string) : String.eqb s t = true <-> s = t.
Proof.
  split; [|intros ->; apply string_eqb_refl].
  revert t. induction s as [|a s IH]; intros [|b t]; simpl; try discriminate.
  - reflexivity.
  - intros H. apply andb_true_iff in H. destruct H as [Hc Hs].
    apply N.eqb_eq in Hc. apply IH in Hs. now subst.
Qed.

Lemma string_eqb_spec (s t : string) : reflect (s = t) (String.eqb s t).
Proof.
  destruct (String.eqb s t) eqn:E; constructor.
  - now apply string_eqb_eq.
  - intros H. apply string_eqb_eq in H. congruence.
Qed.

(** ** Strings *)

Lemma split_not_nil (c : char) (s : string) : split c s <> [].
Proof.
  destruct s as [|a s]; simpl; [discriminate|].
  destruct (Char.eqb a c); [discriminate|].
  destruct (split c s); discriminate.
Qed.

(** The last piece of a split holds no separator. *)
Lemma last_split_clean (c : char) (s : string) :
  has_char c (last (split c s) "") = false.
Proof.
  induction s as [|a s IH]; simpl; [reflexivity|].
  pose proof (split_not_nil c s) as Hne.
  destruct (Char.eqb a c) eqn:E.
  - destruct (split c s) as [|p ps]; [contradiction|exact IH].
  - destruct (split c s) as [|p ps]; [contradiction|].
    destruct ps as [|p' ps]; simpl in *; [|exact IH].
    now rewrite E, IH.
Qed.

(** ** The client's buffer *)

Lemma recv_line_timeout (inc : list recv_result) :
  forall buf inc' buf',
    recv_line inc buf = Ok (true, inc', buf') -> clean buf'.
Proof.
  unfold clean.
  induction inc as [|r inc IH]; intros buf inc' buf' H; simpl in H.
  - destruct (has_char nl buf) eqn:E; inversion H; subst; exact E.
  - destruct (has_char nl buf) eqn:E; [discriminate|].
    destruct r as [[|c chunk]| | |]; try discriminate.
    + eapply IH; eassumption.
    + inversion H; subst; exact E.
Qed.

Lemma flush_buffer_clean (k k' : Kanata) :
  _flush_buffer k = Ok (tt, k') -> clean (_buffer k').
Proof.
  unfold _flush_buffer, clean.
  destruct (drain (incoming (_client k)) (_buffer k)) as [[inc buf]| |];
    try discriminate.
  cbn [bind]. intros H; inversion H; subst; simpl.
  destruct (has_char nl buf) eqn:E; [apply last_split_clean|exact E].
Qed.

Lemma exchange_clean (cmd : json) (k k' : Kanata) (r : option string) :
  exchange cmd k = Ok (r, k') -> clean (_buffer k').
Proof.
  unfold exchange.
  destruct (sendall cmd (_client k)) as [sock| |]; try discriminate.
  cbn [bind].
  destruct (recv_line _ _) as [[[t inc] buf]| |] eqn:E; try discriminate.
  cbn [bind].
  destruct t; intros H; inversion H; subst; simpl.
  - eapply recv_line_timeout; eassumption.
  - apply last_split_clean.
Qed.

Lemma transmit_clean (cmd : json) (k k' : Kanata) (r : option string) :
  transmit cmd k = Ok (r, k') -> clean (_buffer k').
Proof.
  unfold transmit, mbind.
  destruct (_flush_buffer k) as [[[] k1]| |]; try discriminate.
  apply exchange_clean.
Qed.

Lemma split_clean (c : char) (s : string) :
  has_char c s = false -> split c s = [s].
Proof.
  induction s as [|a s IH]; simpl; [reflexivity|].
  intros H. apply orb_false_iff in H. destruct H as [Ha Hs].
  now rewrite Ha, (IH Hs).
Qed.

(** What [_flush_buffer] keeps is what follows the last newline of the
    old buffer and the bytes it has read: an unfinished line is not
    lost. *)
Lemma flush_buffer_keeps_tail (k : Kanata) (inc : list recv_result)
  (buf : string) :
  drain (incoming (_client k)) (_buffer k) = Ok (inc, buf) ->
  exists k',
    _flush_buffer k = Ok (tt, k')
    /\ _buffer k' = last (split nl buf) ""
    /\ incoming (_client k') = inc.
Proof.
  intros H. unfold _flush_buffer. rewrite H. cbn [bind].
  eexists. split; [reflexivity|]. simpl. split; [|reflexivity].
  destruct (has_char nl buf) eqn:E; [reflexivity|].
  now rewrite (split_clean _ _ E).
Qed.

(** Without faults the two [recv] loops return, and what they leave to
    come is without faults. *)
Lemma drain_faultless (inc : list recv_result) :
  forallb sound inc = true ->
  forall buf, exists inc' buf',
      drain inc buf = Ok (inc', buf') /\ forallb sound inc' = true.
Proof.
  induction inc as [|r inc IH]; intros H buf; simpl.
  - now exists [], buf.
  - simpl in H. apply andb_true_iff in H. destruct H as [Hr Hi].
    destruct r as [[|c chunk]| | |]; try discriminate.
    + now exists inc, buf.
    + apply (IH Hi).
    + now exists inc, buf.
Qed.

Lemma recv_line_faultless (inc : list recv_result) :
  forallb sound inc = true ->
  forall buf, exists t inc' buf',
      recv_line inc buf = Ok (t, inc', buf') /\ forallb sound inc' = true.
Proof.
  induction inc as [|r inc IH]; intros H buf; simpl.
  - destruct (has_char nl buf); [now exists false, [], buf|now exists true, [], buf].
  - destruct (has_char nl buf); [now exists false, (r :: inc), buf|].
    simpl in H. apply andb_true_iff in H. destruct H as [Hr Hi].
    destruct r as [[|c chunk]| | |]; try discriminate.
    + now exists false, inc, buf.
    + apply (IH Hi).
    + now exists true, inc, buf.
Qed.

Lemma flush_buffer_total (k : Kanata) :
  faultless (_client k) ->
  exists k', _flush_buffer k = Ok (tt, k')
             /\ faultless (_client k')
             /\ sent (_client k') = sent (_client k)
             /\ _connected k' = _connected k.
Proof.
  intros [Hi Hs]. unfold _flush_buffer.
  destruct (drain_faultless _ Hi (_buffer k)) as (inc & buf & -> & Hinc).
  cbn [bind]. eexists. split; [reflexivity|]. simpl.
  split; [|split; reflexivity]. split; assumption.
Qed.

Lemma exchange_total (cmd : json) (k : Kanata) :
  faultless (_client k) ->
  exists r k', exchange cmd k = Ok (r, k') /\ faultless (_client k').
Proof.
  intros [Hi Hs]. unfold exchange, sendall. rewrite Hs. cbn [bind incoming].
  destruct (recv_line_faultless _ Hi (_buffer k)) as (t & inc & buf & -> & Hinc).
  cbn [bind].
  destruct t; eexists; eexists; (split; [reflexivity|]); split; assumption.
Qed.

Lemma transmit_total (cmd : json) (k : Kanata) :
  faultless (_client k) ->
  exists r k', transmit cmd k = Ok (r, k') /\ faultless (_client k').
Proof.
  intros H. unfold transmit, mbind.
  destruct (flush_buffer_total _ H) as (k1 & -> & H1 & _).
  apply (exchange_total _ _ H1).
Qed.

Lemma flush_buffer_sent (k k' : Kanata) :
  _flush_buffer k = Ok (tt, k') ->
  sent (_client k') = sent (_client k)
  /\ _connected k' = _connected k
  /\ send_error (_client k') = send_error (_client k).
Proof.
  unfold _flush_buffer.
  destruct (drain _ _) as [[inc buf]| |]; try discriminate.
  cbn [bind]. intros H; inversion H; subst; simpl. auto.
Qed.

Lemma exchange_sent (cmd : json) (k k' : Kanata) (r : option string) :
  exchange cmd k = Ok (r, k') ->
  sent (_client k') = sent (_client k) ++ [cmd] /\ _connected k' = _connected k.
Proof.
  unfold exchange, sendall.
  destruct (send_error (_client k) (length (sent (_client k))));
    [discriminate|].
  cbn [bind].
  destruct (recv_line _ _) as [[[t inc] buf]| |]; try discriminate.
  cbn [bind].
  destruct t; intros H; inversion H; subst; simpl; auto.
Qed.

Lemma transmit_sent (cmd : json) (k k' : Kanata) (r : option string) :
  transmit cmd k = Ok (r, k') ->
  sent (_client k') = sent (_client k) ++ [cmd] /\ _connected k' = _connected k.
Proof.
  unfold transmit, mbind.
  destruct (_flush_buffer k) as [[[] k1]| |] eqn:E; try discriminate.
  apply flush_buffer_sent in E. destruct E as (E1 & E2 & _).
  intros H. apply exchange_sent in H. destruct H as [H1 H2].
  split; congruence.
Qed.

Section ClientFacts.

Variable json_loads : string -> loads_result.

Lemma send_clean (cmd : json) (k k' : Kanata) (r : option string) :
  send json_loads cmd k = Ok (r, k') -> clean (_buffer k').
Proof.
  unfold send, mbind.
  destruct (_connected k).
  - simpl. apply transmit_clean.
  - destruct (_connect json_loads k) as [[[] k1]| |]; try discriminate.
    apply transmit_clean.
Qed.

Lemma send_connected (cmd : json) (k : Kanata) :
  _connected k = true -> send json_loads cmd k = transmit cmd k.
Proof.
  intros H. unfold send, mbind, ret. now rewrite H.
Qed.

Lemma on_socket_error_ok {A : Type} (o : outcome A) (a : A) :
  on_socket_error o = Ok a -> o = Ok a.
Proof.
  destruct o as [x|d|e]; simpl; try discriminate; [trivial|].
  destruct e; discriminate.
Qed.

Lemma connect_sent (k k' : Kanata) :
  _connect json_loads k = Ok (tt, k') ->
  sent (_client k') = sent (_client k) ++ [layer_name_query]
  /\ _connected k' = true.
Proof.
  unfold _connect.
  destruct (reachable (_client k)); [|discriminate].
  intros H. apply on_socket_error_ok in H. revert H.
  unfold mbind, lift, ret.
  destruct (transmit _ _) as [[r k1]| |] eqn:E; try discriminate.
  apply transmit_sent in E. simpl in E.
  destruct (current_layer_name_in json_loads r); try discriminate.
  intros H; inversion H; subst. exact E.
Qed.

(** What a [send] that returns has put on the wire: the command,
    after the query of [_connect] when the client was not connected. *)
Lemma send_sent (cmd : json) (k k' : Kanata) (r : option string) :
  send json_loads cmd k = Ok (r, k') ->
  _connected k' = true
  /\ (sent (_client k') = sent (_client k) ++ [cmd]
      \/ sent (_client k') = sent (_client k) ++ [layer_name_query; cmd]).
Proof.
  unfold send, mbind.
  destruct (_connected k) eqn:Ec.
  - simpl. intros H. apply transmit_sent in H. destruct H as [H1 H2].
    split; [congruence|now left].
  - destruct (_connect json_loads k) as [[[] k1]| |] eqn:E; try discriminate.
    apply connect_sent in E. destruct E as [E1 E2].
    intros H. apply transmit_sent in H. destruct H as [H1 H2].
    split; [congruence|right].
    rewrite H1, E1, <- app_assoc. reflexivity.
Qed.

Lemma get_current_layer_name_sent (k k' : Kanata) (name : json) :
  get_current_layer_name json_loads k = Ok (name, k') ->
  _connected k' = true
  /\ exists n, sent (_client k') = sent (_client k) ++ repeat layer_name_query (S n).
Proof.
  unfold get_current_layer_name, mbind, lift.
  destruct (send _ _ _) as [[r k1]| |] eqn:E; try discriminate.
  apply send_sent in E. destruct E as [Ec Es].
  destruct (current_layer_name_in json_loads r); try discriminate.
  intros H; inversion H; subst. split; [exact Ec|].
  destruct Es as [Es|Es]; [exists 0|exists 1]; exact Es.
Qed.

Lemma change_layer_requests_app (l1 l2 : list json) :
  change_layer_requests (l1 ++ l2)
  = change_layer_requests l1 + change_layer_requests l2.
Proof.
  unfold change_layer_requests. now rewrite filter_app, length_app.
Qed.

Lemma change_layer_requests_queries (n : nat) :
  change_layer_requests (repeat layer_name_query n) = 0.
Proof.
  induction n as [|n IH]; [reflexivity|exact IH].
Qed.

(** [change_layer] when the daemon's answer names the layer. *)
Lemma change_layer_same (layer : string) (k k1 : Kanata) :
  get_current_layer_name json_loads k = Ok (JString layer, k1) ->
  change_layer json_loads layer k = Ok (false, k1).
Proof.
  intros H. unfold change_layer, mbind. rewrite H. simpl.
  now rewrite string_eqb_refl.
Qed.


(** The two cases are the only ones. *)
Lemma change_layer_inv (layer : string) (k k' : Kanata) (b : bool) :
  change_layer json_loads layer k = Ok (b, k') ->
  exists name k1,
    get_current_layer_name json_loads k = Ok (name, k1)
    /\ str_eq_json layer name = negb b
    /\ (if b then sent (_client k') = sent (_client k1) ++ [change_layer_request layer]
        else k' = k1).
Proof.
  unfold change_layer, mbind.
  destruct (get_current_layer_name json_loads k) as [[name k1]| |] eqn:E;
    try discriminate.
  destruct (str_eq_json layer name) eqn:En.
  - unfold ret. intros H; inversion H; subst. exists name, k'. auto.
  - pose proof E as Hc. apply get_current_layer_name_sent in Hc.
    destruct Hc as [Hc _]. rewrite (send_connected _ _ Hc).
    destruct (transmit _ k1) as [[r k2]| |] eqn:Et; try discriminate.
    apply transmit_sent in Et. destruct Et as [Es _].
    unfold lift, ret.
    destruct (_parse_json_response json_loads r); try discriminate.
    intros H; inversion H; subst. exists name, k1. auto.
Qed.

(** C5.  After [_flush_buffer] and after a [send] that returns, the
    buffer of the client holds no newline: what it keeps is at most
    one unfinished line, and every finished line that was received
    has been returned or dropped.  [_flush_buffer] returns whenever no
    [recv] meets a fault, and nothing else keeps it from returning. *)
Theorem buffer_discipline :
  (forall k k', _flush_buffer k = Ok (tt, k') -> clean (_buffer k'))
  /\ (forall k,
         forallb sound (incoming (_client k)) = true ->
         exists k', _flush_buffer k = Ok (tt, k') /\ clean (_buffer k'))
  /\ (forall cmd k r k',
         send json_loads cmd k = Ok (r, k') -> clean (_buffer k')).
Proof.
  split; [|split].
  - apply flush_buffer_clean.
  - intros k Hi. unfold _flush_buffer.
    destruct (drain_faultless _ Hi (_buffer k)) as (inc & buf & E & _).
    destruct (flush_buffer_keeps_tail _ _ _ E) as (k' & Hk & _).
    exists k'. split; [exact Hk|]. now apply flush_buffer_clean with k.
  - intros cmd k r k'. apply send_clean.
Qed.

(** C1, as the code has it.  [change_layer] always asks the daemon
    for the name of the current layer first.  When the answer names
    the layer asked for, it returns [False] and no [ChangeLayer]
    request goes out, only the query.  And when a call has switched
    and the daemon then answers the query of a second, equal call
    with that layer, the second call returns [False] and the two
    calls have sent one [ChangeLayer] request. *)
Theorem change_layer_idempotent (layer : string) (k : Kanata) :
  (forall k1,
      get_current_layer_name json_loads k = Ok (JString layer, k1) ->
      change_layer json_loads layer k = Ok (false, k1)
      /\ change_layer_requests (sent (_client k1))
         = change_layer_requests (sent (_client k))
      /\ exists n, sent (_client k1)
                   = sent (_client k) ++ repeat layer_name_query (S n))
  /\ (forall k1 k2,
         change_layer json_loads layer k = Ok (true, k1) ->
         get_current_layer_name json_loads k1 = Ok (JString layer, k2) ->
         change_layer json_loads layer k1 = Ok (false, k2)
         /\ change_layer_requests (sent (_client k2))
            = S (change_layer_requests (sent (_client k)))).
Proof.
  split.
  - intros k1 H. split; [now apply change_layer_same|].
    apply get_current_layer_name_sent in H. destruct H as [_ [n Hn]].
    split; [|now exists n].
    rewrite Hn, change_layer_requests_app, change_layer_requests_queries.
    apply Nat.add_0_r.
  - intros k1 k2 H1 H2. split; [now apply change_layer_same|].
    apply change_layer_inv in H1. destruct H1 as (name & k0 & E0 & _ & Hs).
    apply get_current_layer_name_sent in E0. destruct E0 as [_ [n Hn]].
    apply get_current_layer_name_sent in H2. destruct H2 as [_ [m Hm]].
    rewrite Hm, Hs, Hn.
    rewrite !change_layer_requests_app, !change_layer_requests_queries.
    change (change_layer_requests [change_layer_request layer]) with 1.
    lia.
Qed.

(** With a [json.loads] that raises nothing else, a response is always
    read. *)
Lemma parse_tame (response : option string) :
  tame json_loads ->
  exists v, _parse_json_response json_loads response = Ok v.
Proof.
  intros Ht. unfold _parse_json_response.
  destruct response as [[|c line]|]; eauto.
  destruct (json_loads (String c line)) eqn:El; eauto.
  now contradiction (Ht _ _ El).
Qed.

(** On a connected client and a connection without faults [send]
    returns. *)
Lemma send_total (cmd : json) (k : Kanata) :
  _connected k = true ->
  faultless (_client k) ->
  exists r k',
    send json_loads cmd k = Ok (r, k')
    /\ sent (_client k') = sent (_client k) ++ [cmd]
    /\ _connected k' = true
    /\ faultless (_client k').
Proof.
  intros Hc Hf. rewrite (send_connected _ _ Hc).
  destruct (transmit_total cmd k Hf) as (r & k' & E & Hf').
  exists r, k'. split; [exact E|].
  apply transmit_sent in E. destruct E as [E1 E2].
  repeat split; [exact E1|congruence|apply Hf'|apply Hf'].
Qed.

Lemma act_on_fake_key_fires (name action : string) (k : Kanata) :
  tame json_loads ->
  _connected k = true ->
  faultless (_client k) ->
  utils.is_blank name = false ->
  utils.str_in (capitalize action) utils.valid_actions = true ->
  exists k',
    act_on_fake_key json_loads (JList [JString name; JString action]) k
    = Ok (tt, k')
    /\ sent (_client k')
       = sent (_client k) ++ [fake_key_request name (capitalize action)]
    /\ _connected k' = true
    /\ faultless (_client k').
Proof.
  intros Ht Hc Hf Hb Ha.
  unfold act_on_fake_key, mbind, lift.
  cbv beta iota zeta delta [utils.validate_fake_key utils.unpack2 bind].
  rewrite Hb, Ha. cbv beta iota delta [negb].
  destruct (send_total
              (request "ActOnFakeKey"
                 [("name", JString name); ("action", JString (capitalize action))])
              k Hc Hf) as (r & k' & -> & Hs & Hc' & Hf').
  destruct (parse_tame r Ht) as [v ->].
  exists k'. split; [reflexivity|]. split; [exact Hs|]. split; assumption.
Qed.

Lemma set_mouse_fires (x y : json) (k : Kanata) :
  tame json_loads ->
  _connected k = true ->
  faultless (_client k) ->
  exists k',
    set_mouse json_loads (JList [x; y]) k = Ok (tt, k')
    /\ sent (_client k') = sent (_client k) ++ [set_mouse_request x y]
    /\ _connected k' = true
    /\ faultless (_client k').
Proof.
  intros Ht Hc Hf.
  unfold set_mouse, mbind, lift. cbn [utils.unpack2].
  destruct (send_total (request "SetMouse" [("x", x); ("y", y)]) k Hc Hf)
    as (r & k' & -> & Hs & Hc' & Hf').
  destruct (parse_tame r Ht) as [v ->].
  exists k'. split; [reflexivity|]. split; [exact Hs|]. split; assumption.
Qed.


End ClientFacts.

(** ** Rule lookup and the focus handler *)

Section EngineFacts.

Variable json_loads : string -> loads_result.
Variable re_match : string -> string -> outcome bool.

Lemma detect_rule_first (pre post : list json) (rule : json) (win : WinInfo) :
  Forall (no_match re_match win) pre ->
  rule_matches re_match rule win = Ok true ->
  detect_rule re_match (pre ++ rule :: post) win = Ok (Some rule).
Proof.
  intros Hpre Hrule.
  induction Hpre as [|r pre Hr _ IH]; simpl.
  - now rewrite Hrule.
  - unfold no_match in Hr. now rewrite Hr.
Qed.

Lemma detect_rule_none (rules : list json) (win : WinInfo) :
  Forall (no_match re_match win) rules ->
  detect_rule re_match rules win = Ok None.
Proof.
  intros H. induction H as [|r rules Hr _ IH]; simpl; [reflexivity|].
  unfold no_match in Hr. now rewrite Hr.
Qed.

Lemma detect_rule_some_inv (rules : list json) (win : WinInfo) (rule : json) :
  detect_rule re_match rules win = Ok (Some rule) ->
  exists pre post,
    rules = pre ++ rule :: post
    /\ Forall (no_match re_match win) pre
    /\ rule_matches re_match rule win = Ok true.
Proof.
  induction rules as [|r rules IH]; simpl; [discriminate|].
  destruct (rule_matches re_match r win) as [[|]| |] eqn:E; try discriminate.
  - intros H; inversion H; subst. exists [], rules. auto.
  - intros H. destruct (IH H) as (pre & post & -> & Hpre & Hm).
    exists (r :: pre), post. repeat split; auto.
Qed.

Lemma detect_rule_none_inv (rules : list json) (win : WinInfo) :
  detect_rule re_match rules win = Ok None ->
  Forall (no_match re_match win) rules.
Proof.
  induction rules as [|r rules IH]; simpl; [constructor|].
  destruct (rule_matches re_match r win) as [[|]| |] eqn:E; try discriminate.
  intros H. constructor; auto.
Qed.

(** C2, as the code has it.  [detect_rule] scans the rules in the order
    of the file and the first one that matches wins, whatever the rules
    after it are: when the rules before a matching rule have all been
    found not to match, that rule is returned; when all rules have been
    found not to match, [None] is.  Conversely a rule that is returned
    matches and no rule before it does. *)
Theorem detect_rule_first_match (win : WinInfo) :
  (forall pre rule post,
      Forall (fun r => rule_matches re_match r win = Ok false) pre ->
      rule_matches re_match rule win = Ok true ->
      detect_rule re_match (pre ++ rule :: post) win = Ok (Some rule))
  /\ (forall rules,
         Forall (fun r => rule_matches re_match r win = Ok false) rules ->
         detect_rule re_match rules win = Ok None)
  /\ (forall rules rule,
         detect_rule re_match rules win = Ok (Some rule) ->
         exists pre post,
           rules = pre ++ rule :: post
           /\ Forall (fun r => rule_matches re_match r win = Ok false) pre
           /\ rule_matches re_match rule win = Ok true)
  /\ (forall rules,
         detect_rule re_match rules win = Ok None ->
         Forall (fun r => rule_matches re_match r win = Ok false) rules).
Proof.
  repeat split.
  - intros pre rule post. apply detect_rule_first.
  - intros rules. apply detect_rule_none.
  - intros rules rule. apply detect_rule_some_inv.
  - intros rules. apply detect_rule_none_inv.
Qed.

(** *** The handler, branch by branch *)

Lemma on_focus_event_same (rules : list json) (win : WinInfo) (st : Listener) :
  is_last_win win st = true ->
  on_focus_event json_loads re_match rules win st = Ok (tt, st).
Proof.
  unfold is_last_win, on_focus_event. intros H.
  apply andb_true_iff in H. destruct H as [-> ->]. reflexivity.
Qed.

Lemma on_focus_event_new (rules : list json) (win : WinInfo) (st : Listener) :
  is_last_win win st = false ->
  on_focus_event json_loads re_match rules win st
  = match detect_rule re_match rules win with
    | Ok (Some rule) =>
        if truthy rule then dispatch json_loads rule win (noted win st)
        else Ok (tt, noted win st)
    | Ok None => Ok (tt, noted win st)
    | Fatal d => Fatal d
    | Raise e => Raise e
    end.
Proof.
  unfold is_last_win, on_focus_event. intros H.
  rewrite <- negb_andb, H. simpl.
  unfold mbind, log_info, lift. fold (noted win st).
  destruct (detect_rule re_match rules win) as [[rule|]| |]; try reflexivity.
  unfold when. now destruct (truthy rule).
Qed.

Lemma dispatch_unfold (rule : json) (win : WinInfo) (st : Listener) :
  dispatch json_loads rule win st
  = match py_get rule "layer" JNull with
    | Ok rule_layer =>
        if negb (truthy rule_layer) then Ok (tt, remembered win st)
        else
          match rule_layer with
          | JString layer =>
              match change_layer json_loads layer (kanata st) with
              | Ok (ok, k) =>
                  let st' := {| kanata := k;
                                last_win_title := Some (title win);
                                last_win_class := Some (cls win);
                                spawned := spawned st;
                                logged := logged st |} in
                  if ok then side_effects json_loads rule st' else Ok (tt, st')
              | Fatal d => Fatal d
              | Raise e => Raise e
              end
          | _ => Raise NotModelled
          end
    | Fatal d => Fatal d
    | Raise e => Raise e
    end.
Proof.
  unfold dispatch, mbind, set_last_win, lift. fold (remembered win st).
  destruct (py_get rule "layer" JNull) as [v| |]; try reflexivity.
  destruct (negb (truthy v)); [reflexivity|].
  destruct v; try reflexivity.
  unfold on_kanata, remembered; simpl.
  destruct (change_layer json_loads s (kanata st)) as [[[|] k]| |]; reflexivity.
Qed.

Lemma on_kanata_frame {A : Type} (m : M Kanata A) (st st' : Listener) (a : A) :
  on_kanata m st = Ok (a, st') -> same_but_kanata st st'.
Proof.
  unfold on_kanata, same_but_kanata.
  destruct (m (kanata st)) as [[a' k]| |]; try discriminate.
  intros H; inversion H; subst; simpl. auto.
Qed.

Lemma when_on_kanata_frame (b : bool) (m : M Kanata unit) (st st' : Listener) :
  when b (on_kanata m) st = Ok (tt, st') -> same_but_kanata st st'.
Proof.
  destruct b; simpl.
  - apply on_kanata_frame.
  - unfold ret, same_but_kanata. intros H; inversion H; subst. auto.
Qed.

Lemma when_run_cmd_bg_frame (b : bool) (cmd : json) (st : Listener) :
  exists st',
    when b (run_cmd_bg cmd) st = Ok (tt, st')
    /\ kanata st' = kanata st
    /\ last_win_title st' = last_win_title st
    /\ last_win_class st' = last_win_class st.
Proof.
  destruct b; simpl; eexists; (split; [reflexivity|]); simpl; auto.
Qed.

(** The side effects leave the remembered window alone. *)
Lemma side_effects_cache (rule : json) (st st' : Listener) :
  side_effects json_loads rule st = Ok (tt, st') ->
  last_win_title st' = last_win_title st
  /\ last_win_class st' = last_win_class st.
Proof.
  unfold side_effects, mbind, lift.
  destruct (py_get rule "cmd" JNull) as [c| |]; try discriminate.
  destruct (py_get rule "fake_key" JNull) as [f| |]; try discriminate.
  destruct (py_get rule "set_mouse" JNull) as [m| |]; try discriminate.
  destruct (when_run_cmd_bg_frame (truthy c) c st) as (s1 & -> & _ & Ht1 & Hc1).
  destruct (when (truthy f) _ s1) as [[[] s2]| |] eqn:E2; try discriminate.
  apply when_on_kanata_frame in E2. destruct E2 as (Ht2 & Hc2 & _).
  intros E3. apply when_on_kanata_frame in E3. destruct E3 as (Ht3 & Hc3 & _).
  split; congruence.
Qed.

(** Once a matched rule has been taken up, the window is remembered. *)
Lemma dispatch_remembers (rule : json) (win : WinInfo) (st st' : Listener) :
  dispatch json_loads rule win st = Ok (tt, st') ->
  is_last_win win st' = true.
Proof.
  rewrite dispatch_unfold.
  assert (Hr : forall s, last_win_title s = Some (title win) ->
                         last_win_class s = Some (cls win) ->
                         is_last_win win s = true).
  { intros s Ht Hc. unfold is_last_win. rewrite Ht, Hc. simpl.
    now rewrite !string_eqb_refl. }
  destruct (py_get rule "layer" JNull) as [v| |]; try discriminate.
  destruct (negb (truthy v)).
  - intros H; inversion H; subst. now apply Hr.
  - destruct v; try discriminate.
    destruct (change_layer json_loads s (kanata st)) as [[[|] k]| |];
      try discriminate; simpl.
    + intros H. apply side_effects_cache in H. simpl in H.
      destruct H as [Ht Hc]. now apply Hr.
    + intros H; inversion H; subst. now apply Hr.
Qed.

Lemma is_last_win_noted (w w' : WinInfo) (st : Listener) :
  is_last_win w (noted w' st) = is_last_win w st.
Proof. reflexivity. Qed.

(** C4, as the code has it.  When the window is not the remembered one
    and the rule found for it has no layer, the handler sends nothing
    to the daemon and starts no command, fake key or mouse move; but it
    does remember the window as the last one seen. *)
Theorem rule_without_layer (rules : list json) (win : WinInfo) (st : Listener)
  (rule rule_layer : json) :
  is_last_win win st = false ->
  detect_rule re_match rules win = Ok (Some rule) ->
  truthy rule = true ->
  py_get rule "layer" JNull = Ok rule_layer ->
  truthy rule_layer = false ->
  exists st',
    on_focus_event json_loads re_match rules win st = Ok (tt, st')
    /\ kanata st' = kanata st
    /\ spawned st' = spawned st
    /\ last_win_title st' = Some (title win)
    /\ last_win_class st' = Some (cls win).
Proof.
  intros Hnew Hrule Ht Hl Hf.
  exists (remembered win (noted win st)).
  rewrite (on_focus_event_new _ _ _ Hnew), Hrule, Ht, dispatch_unfold, Hl, Hf.
  simpl. auto.
Qed.

(** C8.  A notification for the window the handler remembers, the last
    one it took up a rule for, is ignored: the state is left as it is,
    so no lookup is reported, nothing is sent and nothing is started.
    And of two notifications in a row for one window, the second never
    takes up a rule: it leaves the client, the started commands and the
    remembered window as the first one left them. *)
Theorem duplicate_focus_ignored (rules : list json) (win : WinInfo) :
  (forall st,
      is_last_win win st = true ->
      on_focus_event json_loads re_match rules win st = Ok (tt, st))
  /\ (forall st st1,
         on_focus_event json_loads re_match rules win st = Ok (tt, st1) ->
         ~ takes_up re_match rules win st1
         /\ exists st2,
             on_focus_event json_loads re_match rules win st1 = Ok (tt, st2)
             /\ kanata st2 = kanata st1
             /\ spawned st2 = spawned st1
             /\ last_win_title st2 = last_win_title st1
             /\ last_win_class st2 = last_win_class st1).
Proof.
  split; [intros st; apply on_focus_event_same|].
  intros st st1 H1.
  destruct (is_last_win win st) eqn:Hst.
  - rewrite (on_focus_event_same _ _ _ Hst) in H1. inversion H1; subst st1.
    split.
    + intros [Hn _]. congruence.
    + exists st. rewrite (on_focus_event_same _ _ _ Hst). auto.
  - rewrite (on_focus_event_new _ _ _ Hst) in H1.
    destruct (detect_rule re_match rules win) as [[rule|]| |] eqn:Hd;
      try discriminate.
    + destruct (truthy rule) eqn:Ht.
      * apply dispatch_remembers in H1.
        split.
        -- intros [Hn _]. congruence.
        -- exists st1. rewrite (on_focus_event_same _ _ _ H1). auto.
      * inversion H1; subst st1.
        split.
        -- intros (_ & r & Hr & Htr). congruence.
        -- exists (noted win (noted win st)).
           rewrite on_focus_event_new, Hd, Ht by (now rewrite is_last_win_noted).
           simpl. auto.
    + inversion H1; subst st1.
      split.
      * intros (_ & r & Hr & _). congruence.
      * exists (noted win (noted win st)).
        rewrite on_focus_event_new, Hd by (now rewrite is_last_win_noted).
        simpl. auto.
Qed.





End EngineFacts.

(** ** Validation *)

Lemma validate_rules_app (layers : json) (pre rest : list json) :
  forall n,
    validate_rules layers n (pre ++ rest)
    = match validate_rules layers n pre with
      | Ok _ => validate_rules layers (n + length pre) rest
      | Fatal d => Fatal d
      | Raise e => Raise e
      end.
Proof.
  induction pre as [|r pre IH]; intros n; simpl.
  - now rewrite Nat.add_0_r.
  - destruct (validate_rule layers n r) as [[]| |]; simpl; try reflexivity.
    rewrite IH. now rewrite Nat.add_succ_r.
Qed.

(** The check of the four text keys on a dict either passes, and then
    every one of them holds an accepted value, or stops at one of them
    with the number of the rule. *)
Lemma check_strings_dict (d : list (string * json)) (n : nat) (keys : list string) :
  (check_strings (JObject d) n keys = Ok tt
   /\ forall key v, In key keys -> dict_get d key = Some v -> text_or_disabled v = true)
  \/ exists key, In key keys
                 /\ check_strings (JObject d) n keys = Fatal (NotNonEmptyString key n).
Proof.
  induction keys as [|key keys IH]; simpl.
  - left. split; [reflexivity|]. intros key v [].
  - destruct (dict_get d key) as [v|] eqn:Ev.
    + assert (Hbad : text_or_disabled v = false ->
                     match v with
                     | JBool false | JNull => check_strings (JObject d) n keys
                     | JString s =>
                         if utils.is_blank s then Fatal (NotNonEmptyString key n)
                         else check_strings (JObject d) n keys
                     | _ => Fatal (NotNonEmptyString key n)
                     end = Fatal (NotNonEmptyString key n)).
      { destruct v as [|[|]| | |s| |]; simpl; try discriminate; try reflexivity.
        destruct (utils.is_blank s); [reflexivity|discriminate]. }
      destruct (text_or_disabled v) eqn:Et.
      * assert (Hgo : match v with
                      | JBool false | JNull => check_strings (JObject d) n keys
                      | JString s =>
                          if utils.is_blank s then Fatal (NotNonEmptyString key n)
                          else check_strings (JObject d) n keys
                      | _ => Fatal (NotNonEmptyString key n)
                      end = check_strings (JObject d) n keys).
        { destruct v as [|[|]| | |s| |]; simpl in Et; try discriminate; try reflexivity.
          destruct (utils.is_blank s); [discriminate|reflexivity]. }
        rewrite Hgo.
        destruct IH as [[IH1 IH2]|(key' & Hin & IH)].
        -- left. split; [exact IH1|].
           intros key0 v0 [<-|Hin] Hv0; [congruence|eauto].
        -- right. exists key'. auto.
      * right. exists key. split; [now left|now apply Hbad].
    + destruct IH as [[IH1 IH2]|(key' & Hin & IH)].
      * left. split; [exact IH1|].
        intros key0 v0 [<-|Hin] Hv0; [congruence|eauto].
      * right. exists key'. auto.
Qed.

(** [validate_rule] on a dict, check by check. *)
Lemma validate_rule_dict (layers : json) (n : nat) (d : list (string * json)) :
  validate_rule layers n (JObject d)
  = match unexpected_rule_keys (JObject d) with
    | _ :: _ as keys => Fatal (UnexpectedKeys n keys)
    | [] =>
        match check_strings (JObject d) n text_keys with
        | Ok _ =>
            match d with
            | [] => Fatal (NotNonEmptyObject n)
            | _ :: _ =>
                match check_fake_key n (value_of d "fake_key") with
                | Ok _ =>
                    match check_set_mouse n (value_of d "set_mouse") with
                    | Ok _ => check_layer layers n (value_of d "layer")
                    | Fatal diag => Fatal diag
                    | Raise e => Raise e
                    end
                | Fatal diag => Fatal diag
                | Raise e => Raise e
                end
            end
        | Fatal diag => Fatal diag
        | Raise e => Raise e
        end
    end.
Proof.
  unfold validate_rule, py_get, bind, value_of, text_keys.
  destruct (unexpected_rule_keys (JObject d)); [|reflexivity].
  destruct (check_strings _ _ _) as [[]| |]; try reflexivity.
  destruct d; reflexivity.
Qed.

(** A dict that fails one of the first three checks is refused with
    its number. *)
Lemma validate_rule_schema (layers : json) (n : nat) (d : list (string * json)) :
  unexpected_rule_keys (JObject d) <> []
  \/ d = []
  \/ (exists key v, In key text_keys /\ dict_get d key = Some v
                    /\ text_or_disabled v = false) ->
  exists diag,
    validate_rule layers n (JObject d) = Fatal diag /\ rule_no_of diag = Some n.
Proof.
  intros H. rewrite validate_rule_dict.
  destruct (unexpected_rule_keys (JObject d)) as [|k ks] eqn:Eu.
  - destruct (check_strings_dict d n text_keys) as [[Hc Hall]|(key & _ & Hc)];
      rewrite Hc.
    + destruct H as [H|[->|(key & v & Hin & Hv & Hbad)]].
      * contradiction.
      * eexists; split; reflexivity.
      * rewrite (Hall _ _ Hin Hv) in Hbad. discriminate.
    + eexists; split; reflexivity.
  - eexists; split; reflexivity.
Qed.

(** A dict is either refused with its number by one of the first three
    checks, or it comes to the checks of the fake key, the mouse
    position and the layer. *)
Lemma validate_rule_stages (layers : json) (n : nat) (d : list (string * json)) :
  (exists diag, validate_rule layers n (JObject d) = Fatal diag
                /\ rule_no_of diag = Some n)
  \/ validate_rule layers n (JObject d)
     = match check_fake_key n (value_of d "fake_key") with
       | Ok _ =>
           match check_set_mouse n (value_of d "set_mouse") with
           | Ok _ => check_layer layers n (value_of d "layer")
           | Fatal diag => Fatal diag
           | Raise e => Raise e
           end
       | Fatal diag => Fatal diag
       | Raise e => Raise e
       end.
Proof.
  rewrite validate_rule_dict.
  destruct (unexpected_rule_keys (JObject d)) as [|key keys].
  - destruct (check_strings_dict d n text_keys) as [[Hc _]|(key & _ & Hc)];
      rewrite Hc.
    + destruct d as [|kv d]; [left; eexists; split; reflexivity|now right].
    + left; eexists; split; reflexivity.
  - left; eexists; split; reflexivity.
Qed.

Lemma check_fake_key_not_strings (n : nat) (fk : json) :
  truthy fk = true ->
  is_list fk = false \/ all_of is_str fk = false ->
  check_fake_key n fk = Fatal (FakeKeyNotStrings n).
Proof.
  intros Ht H. unfold check_fake_key. rewrite Ht.
  destruct H as [-> | ->]; simpl; [reflexivity|].
  now rewrite orb_true_r.
Qed.

Lemma check_fake_key_action (n : nat) (name action : string) :
  utils.is_blank name = false ->
  utils.str_in (capitalize action) utils.valid_actions = false ->
  check_fake_key (S n) (JList [JString name; JString action])
  = Fatal (InvalidActionInRule (S n) (capitalize action)).
Proof.
  intros Hb Ha.
  cbv beta iota zeta delta [check_fake_key truthy is_list all_of forallb is_str
                       negb orb andb utils.validate_fake_key utils.unpack2 bind].
  now rewrite Hb, Ha.
Qed.

Lemma check_fake_key_passes (n : nat) (fk : json) :
  fake_key_passes fk -> check_fake_key n fk = Ok tt.
Proof.
  intros [Hf|(name & action & -> & Hb & Ha)]; unfold check_fake_key.
  - now rewrite Hf.
  - cbv beta iota zeta delta [truthy is_list all_of forallb is_str
                         negb orb andb utils.validate_fake_key utils.unpack2 bind].
    now rewrite Hb, Ha.
Qed.

Lemma check_set_mouse_not_integers (n : nat) (sm : json) :
  truthy sm = true ->
  is_list sm = false \/ all_of is_int sm = false ->
  check_set_mouse n sm = Fatal (SetMouseNotIntegers n).
Proof.
  intros Ht H. unfold check_set_mouse. rewrite Ht.
  destruct H as [-> | ->]; simpl; [reflexivity|].
  now rewrite orb_true_r.
Qed.

Section ValidationFacts.

Variable json_loads : string -> loads_result.

(** The first rule that is refused settles what [_validate] does. *)
Lemma validate_first_refused (k k' : Kanata) (layers : json)
  (pre post : list json) (rule : json) (diag : diagnostic) :
  get_layer_names json_loads k = Ok (layers, k') ->
  validate_rules layers 1 pre = Ok tt ->
  validate_rule layers (S (length pre)) rule = Fatal diag ->
  _validate json_loads (JList (pre ++ rule :: post)) k = Fatal diag.
Proof.
  intros Hl Hpre Hr. unfold _validate, mbind, lift. rewrite Hl.
  rewrite validate_rules_app, Hpre. simpl. now rewrite Hr.
Qed.

(** C6, as the code has it.  The rules are checked in order.  The first
    rule that is not passed ends the process; when it is a JSON object
    that holds a key outside the six allowed ones, or is empty, or
    holds under [class], [title], [layer] or [cmd] something that is
    neither [false], [null] nor a string that is not blank, the
    message carries its number, counted from one. *)
Theorem schema_violation_fatal (k k' : Kanata) (layers : json)
  (pre post : list json) (d : list (string * json)) :
  get_layer_names json_loads k = Ok (layers, k') ->
  validate_rules layers 1 pre = Ok tt ->
  unexpected_rule_keys (JObject d) <> []
  \/ d = []
  \/ (exists key v, In key text_keys /\ dict_get d key = Some v
                    /\ text_or_disabled v = false) ->
  exists diag,
    _validate json_loads (JList (pre ++ JObject d :: post)) k = Fatal diag
    /\ rule_no_of diag = Some (S (length pre)).
Proof.
  intros Hl Hpre Hbad.
  destruct (validate_rule_schema layers (S (length pre)) d Hbad) as (diag & Hr & Hn).
  exists diag. split; [|exact Hn].
  eapply validate_first_refused; eassumption.
Qed.

(** C7, as the code has it.  In the first rule that is not passed, a
    JSON object: a fake key that counts as true and is not a list of
    strings, a fake key of a name that is not blank and an action that
    is none of [Press], [Release], [Tap], [Toggle] once capitalized,
    and, the fake key being passed, a mouse position that counts as
    true and is not a list of integers (a boolean being one), each end
    the process with a message that carries the number of the rule. *)
Theorem fake_key_set_mouse_fatal (k k' : Kanata) (layers : json)
  (pre post : list json) (d : list (string * json)) :
  get_layer_names json_loads k = Ok (layers, k') ->
  validate_rules layers 1 pre = Ok tt ->
  (truthy (value_of d "fake_key") = true
   /\ (is_list (value_of d "fake_key") = false
       \/ all_of is_str (value_of d "fake_key") = false))
  \/ (exists name action,
         value_of d "fake_key" = JList [JString name; JString action]
         /\ utils.is_blank name = false
         /\ utils.str_in (capitalize action) utils.valid_actions = false)
  \/ (fake_key_passes (value_of d "fake_key")
      /\ truthy (value_of d "set_mouse") = true
      /\ (is_list (value_of d "set_mouse") = false
          \/ all_of is_int (value_of d "set_mouse") = false)) ->
  exists diag,
    _validate json_loads (JList (pre ++ JObject d :: post)) k = Fatal diag
    /\ rule_no_of diag = Some (S (length pre)).
Proof.
  intros Hl Hpre Hbad.
  assert (H : exists diag,
             validate_rule layers (S (length pre)) (JObject d) = Fatal diag
             /\ rule_no_of diag = Some (S (length pre))).
  { destruct (validate_rule_stages layers (S (length pre)) d) as [H|H];
      [exact H|].
    rewrite H.
    destruct Hbad as [[Ht Hs]|[(name & action & Hfk & Hb & Ha)|(Hp & Ht & Hs)]].
    - rewrite (check_fake_key_not_strings _ _ Ht Hs).
      eexists; split; reflexivity.
    - rewrite Hfk, (check_fake_key_action _ _ _ Hb Ha).
      eexists; split; reflexivity.
    - rewrite (check_fake_key_passes _ _ Hp).
      rewrite (check_set_mouse_not_integers _ _ Ht Hs).
      eexists; split; reflexivity. }
  destruct H as (diag & Hr & Hn).
  exists diag. split; [|exact Hn].
  eapply validate_first_refused; eassumption.
Qed.

End ValidationFacts.

(** ** Patterns *)

Lemma parse_plain_char (c : char) (p : string) (stack : list re.frame)
  (cur : re.frame) :
  is_meta c = false ->
  re.parse_from (String c p) stack cur
  = re.parse_from p stack (re.push (re.Char c, re.Plain) cur).
Proof.
  intros H. destruct c as [|q]; [reflexivity|].
  do 7 (try destruct q as [q|q|]); try reflexivity;
    vm_compute in H; discriminate H.
Qed.

Lemma parse_plain (s p : string) :
  plain s = true ->
  forall stack cur,
    re.parse_from (s ++ p) stack cur = re.parse_from p stack (pushes s cur).
Proof.
  induction s as [|c s IH]; intros H stack cur; [reflexivity|].
  simpl in H. apply andb_true_iff in H. destruct H as [Hc Hs].
  apply negb_true_iff in Hc.
  change (re.parse_from (String c (s ++ p)%string) stack cur
          = re.parse_from p stack (pushes s (re.push (re.Char c, re.Plain) cur))).
  rewrite (parse_plain_char _ _ _ _ Hc). now apply IH.
Qed.

Lemma seq_of_pushes (s : string) :
  forall cur acc,
    fold_left (fun a it => re.Seq (fst it) a) (re.items (pushes s cur)) acc
    = fold_left (fun a it => re.Seq (fst it) a) (re.items cur) (lits s acc).
Proof.
  induction s as [|c s IH]; intros cur acc; simpl; [reflexivity|].
  now rewrite IH.
Qed.

Lemma pushes_branches (s : string) :
  forall cur, re.branches (pushes s cur) = re.branches cur.
Proof.
  induction s as [|c s IH]; intros cur; simpl; [reflexivity|].
  now rewrite IH.
Qed.

(** What [.*s.*] is read as, for a plain [s]. *)
Lemma parse_wrapped (s : string) :
  plain s = true ->
  re.parse (".*" ++ s ++ ".*")
  = re.Parsed (re.Seq (re.Star re.AnyChar)
                 (lits s (re.Seq (re.Star re.AnyChar) re.Empty))).
Proof.
  intros H. unfold re.parse.
  change (".*" ++ s ++ ".*")%string with (String "." (String "*" (s ++ ".*")%string)).
  cbn [re.parse_from re.push re.items re.branches re.empty_frame].
  rewrite (parse_plain _ _ H).
  cbn [re.parse_from re.push re.items re.branches].
  unfold re.close, re.seq_of. cbn [re.items re.branches fold_left fst].
  rewrite pushes_branches. cbn [re.branches fold_left].
  rewrite seq_of_pushes. reflexivity.
Qed.

(** ** Matching *)

Lemma get_length (s : string) :
  forall i, String.get i s = None <-> String.length s <= i.
Proof.
  induction s as [|a s IH]; intros i; simpl.
  - split; [lia|reflexivity].
  - destruct i as [|i]; simpl.
    + split; [discriminate|lia].
    + rewrite IH. lia.
Qed.

Lemma get_clean (c : char) (s : string) :
  has_char c s = false ->
  forall i a, String.get i s = Some a -> Char.eqb a c = false.
Proof.
  induction s as [|b s IH]; intros H i a; simpl; [discriminate|].
  simpl in H. apply orb_false_iff in H. destruct H as [Hb Hs].
  destruct i as [|i]; simpl.
  - intros E; inversion E; subst. exact Hb.
  - now apply IH.
Qed.

Lemma closure_nil (n : nat) (step : nat -> list nat) :
  re.closure n step [] = [].
Proof.
  induction n as [|n IH]; simpl; [reflexivity|exact IH].
Qed.

Lemma closure_front (n : nat) (step : nat -> list nat) (front : list nat) :
  exists rest, re.closure n step front = front ++ rest.
Proof.
  destruct n; simpl; [exists []; now rewrite app_nil_r|eauto].
Qed.

Lemma nonempty_flat_map {A B : Type} (f : A -> list B) (l : list A) :
  nonempty (flat_map f l) = existsb (fun x => nonempty (f x)) l.
Proof.
  induction l as [|x l IH]; simpl; [reflexivity|].
  destruct (f x); simpl; [exact IH|reflexivity].
Qed.

(** On a subject of one line, [.] steps over any character. *)
Lemma ends_any (s : string) (i : nat) :
  has_char nl s = false ->
  re.ends re.AnyChar s i = if i <? String.length s then [S i] else [].
Proof.
  intros H. simpl.
  destruct (String.get i s) as [a|] eqn:E.
  - rewrite (get_clean _ _ H _ _ E).
    destruct (Nat.ltb_spec i (String.length s)) as [Hlt|Hge]; [reflexivity|].
    apply get_length in Hge. congruence.
  - apply get_length in E.
    destruct (Nat.ltb_spec i (String.length s)); [lia|reflexivity].
Qed.

(** So [.*] reaches every position from its start to the end. *)
Lemma closure_any (s : string) :
  has_char nl s = false ->
  forall n a i,
    a <= String.length s ->
    In i (re.closure n (re.ends re.AnyChar s) [a])
    <-> a <= i /\ i <= a + n /\ i <= String.length s.
Proof.
  intros H. induction n as [|n IH]; intros a i Ha.
  - simpl. split; [intros [<-|[]]; lia|intros (H1 & H2 & _); left; lia].
  - cbn [re.closure flat_map]. rewrite app_nil_r, (ends_any _ _ H).
    destruct (Nat.ltb_spec a (String.length s)) as [Hlt|Hge].
    + simpl. rewrite IH by lia.
      split; [intros [<-|Hi]; lia|intros Hi].
      destruct (Nat.eq_dec a i); [now left|right; lia].
    + rewrite closure_nil. simpl.
      split; [intros [<-|[]]; lia|intros Hi; left; lia].
Qed.

Lemma ends_lits (t : string) (r : re.regex) (s : string) :
  forall i,
    re.ends (lits t r) s i
    = if prefix_at t s i then re.ends r s (i + String.length t) else [].
Proof.
  induction t as [|c t IH]; intros i.
  - simpl. now rewrite Nat.add_0_r.
  - cbn [lits re.ends prefix_at String.length].
    destruct (String.get i s) as [a|]; [|reflexivity].
    destruct (Char.eqb a c); [|reflexivity].
    cbn [flat_map andb]. rewrite app_nil_r, IH.
    now rewrite Nat.add_succ_r.
Qed.

Lemma ends_any_star (s : string) (j : nat) :
  nonempty (re.ends (re.Seq (re.Star re.AnyChar) re.Empty) s j) = true.
Proof.
  change (nonempty (flat_map (re.ends re.Empty s)
                      (re.closure (String.length s) (re.ends re.AnyChar s) [j]))
          = true).
  destruct (closure_front (String.length s) (re.ends re.AnyChar s) [j])
    as [rest ->].
  reflexivity.
Qed.

Lemma prefix_at_shift (t : string) (a : char) (s : string) :
  forall i, prefix_at t (String a s) (S i) = prefix_at t s i.
Proof.
  induction t as [|c t IH]; intros i; simpl; [reflexivity|].
  destruct (String.get i s); [|reflexivity].
  now rewrite IH.
Qed.

Lemma prefix_at_start (t : string) :
  forall s, prefix_at t s 0 = is_prefix t s.
Proof.
  induction t as [|c t IH]; intros s; simpl; [reflexivity|].
  destruct s as [|a s]; simpl; [reflexivity|].
  now rewrite prefix_at_shift, IH, char_eqb_sym.
Qed.

Lemma contains_prefix_at (t s : string) :
  contains t s = true
  <-> exists i, i <= String.length s /\ prefix_at t s i = true.
Proof.
  induction s as [|a s IH].
  - simpl. rewrite orb_false_r, <- prefix_at_start.
    split.
    + intros H. exists 0. auto.
    + intros (i & Hi & H). now replace i with 0 in H by lia.
  - cbn [contains String.length]. rewrite orb_true_iff, IH, <- prefix_at_start.
    split.
    + intros [H|(i & Hi & H)].
      * exists 0. split; [lia|exact H].
      * exists (S i). split; [lia|]. now rewrite prefix_at_shift.
    + intros (i & Hi & H). destruct i as [|i]; [now left|right].
      exists i. split; [lia|]. now rewrite prefix_at_shift in H.
Qed.

(** A plain text between two [.*] is looked for anywhere in a subject
    of one line. *)
Lemma match_wrapped (t s : string) :
  plain t = true ->
  has_char nl s = false ->
  re.match_ (".*" ++ t ++ ".*") s = Ok (contains t s).
Proof.
  intros Hp Hs. unfold re.match_. rewrite (parse_wrapped _ Hp). f_equal.
  change (nonempty (re.ends (re.Seq (re.Star re.AnyChar)
                               (lits t (re.Seq (re.Star re.AnyChar) re.Empty))) s 0)
          = contains t s).
  change (nonempty (flat_map
                      (re.ends (lits t (re.Seq (re.Star re.AnyChar) re.Empty)) s)
                      (re.closure (String.length s) (re.ends re.AnyChar s) [0]))
          = contains t s).
  rewrite nonempty_flat_map.
  apply eq_true_iff_eq.
  rewrite existsb_exists, contains_prefix_at.
  split.
  - intros (i & Hin & Hi).
    apply (closure_any _ Hs) in Hin; [|lia].
    rewrite ends_lits in Hi.
    exists i. split; [lia|].
    destruct (prefix_at t s i); [reflexivity|discriminate].
  - intros (i & Hi & Hpre). exists i. split.
    + apply (closure_any _ Hs); lia.
    + rewrite ends_lits, Hpre. apply ends_any_star.
Qed.

(** [.*] alone matches every subject. *)
Lemma match_any (s : string) : re.match_ ".*" s = Ok true.
Proof.
  unfold re.match_.
  change (re.parse ".*") with (re.Parsed (re.Seq (re.Star re.AnyChar) re.Empty)).
  cbv beta iota. f_equal. apply ends_any_star.
Qed.

(** ** What a class or a title means *)

Lemma plain_not_star (s : string) : plain s = true -> String.eqb s "*" = false.
Proof.
  intros H. destruct (string_eqb_spec s "*") as [->|]; [discriminate|reflexivity].
Qed.

(** The pattern made from a literal field and what it matches. *)
Lemma literal_field_pattern (d : list (string * json)) (key subject : string) :
  literal_field d key subject ->
  exists v p,
    py_get (JObject d) key (JString "*") = Ok v
    /\ to_pattern v = Ok p
    /\ re.match_ p subject = Ok (holds (wanted d key) subject).
Proof.
  unfold literal_field, wanted, py_get.
  destruct (dict_get d key) as [[| | | |s| |]|]; try contradiction.
  - intros [->|[Hp Hs]].
    + exists (JString "*"), ".*". repeat split. apply match_any.
    + exists (JString s), (".*" ++ s ++ ".*")%string.
      unfold to_pattern. rewrite (plain_not_star _ Hp).
      repeat split. now apply match_wrapped.
  - intros _. exists (JString "*"), ".*". repeat split. apply match_any.
Qed.

(** C3, as the code has it.  A class or a title that is missing or
    ["*"] matches every window.  One that is a text without any of the
    characters the pattern language takes for itself matches exactly
    the windows, of one line, that hold this text somewhere, letter
    case counting. *)
Theorem literal_rule_matches (d : list (string * json)) (win : WinInfo) :
  literal_field d "class" (cls win) ->
  literal_field d "title" (title win) ->
  rule_matches re.match_ (JObject d) win
  = Ok (holds (wanted d "class") (cls win)
        && holds (wanted d "title") (title win)).
Proof.
  intros Hc Ht.
  destruct (literal_field_pattern _ _ _ Hc) as (vc & pc & Hvc & Hpc & Hmc).
  destruct (literal_field_pattern _ _ _ Ht) as (vt & pt & Hvt & Hpt & Hmt).
  unfold rule_matches. rewrite Hvc. cbn [bind]. rewrite Hpc. cbn [bind].
  rewrite Hvt. cbn [bind]. rewrite Hpt. cbn [bind]. rewrite Hmc. cbn [bind].
  destruct (holds (wanted d "class") (cls win)); [exact Hmt|reflexivity].
Qed.

(** C9.  A class or title other than ["*"] is put between two [.*] and
    read as a regular expression: a [.] in it stands for any
    character, so [a.c] matches a class [abc] that does not hold it.
    The rule of class [(] passes [_validate], and with it as the first
    rule every lookup, for whatever window, ends in the error of
    [re], which the focus handler lets through. *)
Theorem rule_text_is_regex :
  (forall s, s <> "*" -> to_pattern (JString s) = Ok (".*" ++ s ++ ".*")%string)
  /\ (forall t,
         rule_matches re.match_ (JObject [("class", JString "a.c")])
           {| cls := "abc"; title := t |} = Ok true
         /\ contains "a.c" "abc" = false)
  /\ (forall json_loads k layers k',
         get_layer_names json_loads k = Ok (layers, k') ->
         _validate json_loads (JList [JObject [("class", JString "(")]]) k
         = Ok (tt, k'))
  /\ (forall rest win,
         detect_rule re.match_ (JObject [("class", JString "(")] :: rest) win
         = Raise re_error)
  /\ (forall json_loads rest win st,
         is_last_win win st = false ->
         on_focus_event json_loads re.match_
           (JObject [("class", JString "(")] :: rest) win st
         = Raise re_error).
Proof.
  repeat split.
  - intros s Hs. unfold to_pattern.
    destruct (string_eqb_spec s "*"); [contradiction|reflexivity].
  - unfold rule_matches. cbn [py_get dict_get String.eqb Char.eqb Bool.eqb
                                to_pattern bind cls title].
    change (re.match_ ".*a.c.*" "abc") with (Ok (A := bool) true).
    cbn [bind]. apply match_any.
  - intros json_loads k layers k' H.
    unfold _validate, mbind, lift. rewrite H. reflexivity.
  - intros json_loads rest win st H.
    rewrite (on_focus_event_new _ _ _ _ _ H). reflexivity.
Qed.

(** * The properties on sample inputs *)

(** ** The repository's tests *)

(** [tests/test_utils.py] *)
Example test_is_blank :
  utils.is_blank "" = true
  /\ utils.is_blank "   " = true
  /\ utils.is_blank "a" = false
  /\ utils.is_blank "  b  " = false.
Proof.
  repeat split.
Qed.

Example test_invalid_fake_key :
  utils.validate_fake_key (JList [JString ""; JString "press"]) None
  = Fatal BlankFakeKeyName
  /\ utils.validate_fake_key (JList [JString "Jump"; JString "hold"]) None
     = Fatal (InvalidAction "Hold")
  /\ utils.validate_fake_key (JList [JString "Shoot"; JString "smash"]) (Some 3)
     = Fatal (InvalidActionInRule 3 "Smash").
Proof.
  repeat split.
Qed.

(** [tests/test_config.py]: each expected rule matches its window, the
    anchored class and the escaped bracket among them. *)
Example test_detect_rule_matches :
  Forall (fun wr => rule_matches re.match_ (snd wr) (fst wr) = Ok true)
    tested_matches.
Proof.
  repeat constructor.
Qed.

(** ** The client *)

Lemma buffer_discipline_witness :
  clean (_buffer (state_after (_flush_buffer stale_client) stale_client))
  /\ (exists k', _flush_buffer stale_client = Ok (tt, k') /\ clean (_buffer k'))
  /\ clean (_buffer (state_after
                       (send json_text.loads layer_name_query stale_client)
                       stale_client)).
Proof.
  split; [|split].
  - eapply (proj1 (buffer_discipline json_text.loads) stale_client).
    lazy. reflexivity.
  - apply (proj1 (proj2 (buffer_discipline json_text.loads)) stale_client).
    reflexivity.
  - eapply (proj2 (proj2 (buffer_discipline json_text.loads))
              layer_name_query stale_client).
    lazy. reflexivity.
Defined.

(** One [ChangeLayer] request for two calls, when the daemon answers. *)
Lemma change_layer_idempotent_witness :
  (let k1 := state_after (get_current_layer_name json_text.loads base_client)
               base_client in
   change_layer json_text.loads "base" base_client = Ok (false, k1)
   /\ change_layer_requests (sent (_client k1)) = 0)
  /\ (let k1 := state_after (change_layer json_text.loads "media" switching_client)
                  switching_client in
      let k2 := state_after (get_current_layer_name json_text.loads k1) k1 in
      change_layer json_text.loads "media" k1 = Ok (false, k2)
      /\ change_layer_requests (sent (_client k2)) = 1).
Proof.
  split.
  - intros k1.
    destruct (proj1 (change_layer_idempotent json_text.loads "base" base_client) k1)
      as (H1 & H2 & _); [vm_compute; reflexivity|].
    split; [exact H1|exact H2].
  - intros k1 k2.
    apply (proj2 (change_layer_idempotent json_text.loads "media" switching_client)
             k1 k2); vm_compute; reflexivity.
Defined.

(** Counterexample to C1 as it is worded: with the current layer [base],
    [change_layer "base"] returns [False] but has sent its query; and
    with a daemon that stays silent two calls in a row both return
    [True] and send two [ChangeLayer] requests. *)
Lemma change_layer_asks_first :
  (exists k',
      change_layer json_text.loads "base" base_client = Ok (false, k')
      /\ sent (_client k') = [layer_name_query]
      /\ sent (_client base_client) = [])
  /\ (exists k1 k2,
         change_layer json_text.loads "media" silent_client = Ok (true, k1)
         /\ change_layer json_text.loads "media" k1 = Ok (true, k2)
         /\ change_layer_requests (sent (_client k2)) = 2).
Proof.
  split.
  - eexists. split; [lazy; reflexivity|]. split; reflexivity.
  - eexists. eexists. split; [lazy; reflexivity|].
    split; [lazy; reflexivity|reflexivity].
Qed.

(** ** Rule lookup *)

Lemma detect_rule_first_match_witness :
  detect_rule re.match_ [rule_a; rule_a_b] (window "a" "b") = Ok (Some rule_a)
  /\ detect_rule re.match_ [rule_of_class "x"; rule_a_b] (window "a" "b")
     = Ok (Some rule_a_b)
  /\ detect_rule re.match_ [rule_of_class "x"; rule_a_b] (window "a" "c") = Ok None.
Proof.
  pose proof (detect_rule_first_match re.match_ (window "a" "b")) as (H1 & _ & _ & _).
  pose proof (detect_rule_first_match re.match_ (window "a" "c")) as (_ & H2 & _ & _).
  split; [|split].
  - apply (H1 [] rule_a [rule_a_b]); [constructor|vm_compute; reflexivity].
  - apply (H1 [rule_of_class "x"] rule_a_b []); [|vm_compute; reflexivity].
    repeat constructor.
  - apply (H2 [rule_of_class "x"; rule_a_b]).
    repeat constructor.
Defined.

(** Counterexample to C2 as it is worded: the second of
    these two rules matches the window and the first does not, yet the
    lookup ends in the error of [re]; and with the first rule alone no
    rule matches and the answer is not [None]. *)
Lemma detect_rule_bad_pattern :
  rule_matches re.match_ rule_a (window "a" "b") = Ok true
  /\ rule_matches re.match_ rule_paren (window "a" "b") <> Ok true
  /\ detect_rule re.match_ [rule_paren; rule_a] (window "a" "b") = Raise re_error
  /\ detect_rule re.match_ [rule_paren] (window "a" "b") <> Ok None.
Proof.
  split; [vm_compute; reflexivity|].
  split; [vm_compute; discriminate|].
  split; [vm_compute; reflexivity|vm_compute; discriminate].
Qed.

Lemma literal_rule_matches_witness :
  rule_matches re.match_ rule_readme (window "any" "my-README-file") = Ok true
  /\ rule_matches re.match_ rule_readme (window "any" "my-Readme-file") = Ok false
  /\ rule_matches re.match_ (JObject [("layer", JString "base")])
       (window "any" ("two" ++ newline ++ "lines")) = Ok true.
Proof.
  split; [|split].
  - apply (literal_rule_matches
             [("title", JString "README"); ("layer", JString "docs")]
             (window "any" "my-README-file")).
    + exact I.
    + right. split; reflexivity.
  - apply (literal_rule_matches
             [("title", JString "README"); ("layer", JString "docs")]
             (window "any" "my-Readme-file")).
    + exact I.
    + right. split; reflexivity.
  - apply (literal_rule_matches [("layer", JString "base")]
             (window "any" ("two" ++ newline ++ "lines"))); exact I.
Defined.

(** Counterexample to C3 as it is worded: the class [a.c] matches the window
    class [abc], which does not hold it; and the title [README] does
    not match a title that holds it on its second line. *)
Lemma pattern_is_not_literal :
  (rule_matches re.match_ (rule_of_class "a.c") (window "abc" "t") = Ok true
   /\ contains "a.c" "abc" = false)
  /\ (rule_matches re.match_ rule_readme
        (window "x" ("notes" ++ newline ++ "README")) = Ok false
      /\ contains "README" ("notes" ++ newline ++ "README") = true).
Proof.
  repeat split; vm_compute; reflexivity.
Qed.

(** ** The focus handler *)

Lemma rule_without_layer_witness :
  exists st',
    on_focus_event json_text.loads re.match_ [rule_no_layer] (window "a" "t")
      (listen_init silent_client) = Ok (tt, st')
    /\ kanata st' = silent_client
    /\ spawned st' = []
    /\ last_win_title st' = Some "t"
    /\ last_win_class st' = Some "a".
Proof.
  apply (rule_without_layer json_text.loads re.match_ [rule_no_layer]
           (window "a" "t") (listen_init silent_client) rule_no_layer JNull);
    vm_compute; reflexivity.
Defined.

(** Counterexample to C4 as it is worded: no window is remembered, the window
    matches a rule without layer, and after the handler has run the
    window is the remembered one. *)
Lemma rule_without_layer_updates_cache :
  last_win_class (listen_init silent_client) = None
  /\ last_win_title (listen_init silent_client) = None
  /\ exists st',
      on_focus_event json_text.loads re.match_ [rule_no_layer] (window "a" "t")
        (listen_init silent_client) = Ok (tt, st')
      /\ last_win_class st' = Some "a"
      /\ last_win_title st' = Some "t".
Proof.
  split; [reflexivity|]. split; [reflexivity|].
  eexists. split; [lazy; reflexivity|]. split; reflexivity.
Qed.

Lemma duplicate_focus_ignored_witness :
  (let st := remembered youtube (listen_init silent_client) in
   on_focus_event json_text.loads re.match_ [rule_media] youtube st = Ok (tt, st))
  /\ (let st1 := state_after
                   (on_focus_event json_text.loads re.match_ [rule_media] youtube
                      (listen_init base_client))
                   (listen_init base_client) in
      ~ takes_up re.match_ [rule_media] youtube st1
      /\ exists st2,
          on_focus_event json_text.loads re.match_ [rule_media] youtube st1
          = Ok (tt, st2)
          /\ kanata st2 = kanata st1
          /\ spawned st2 = spawned st1
          /\ last_win_title st2 = last_win_title st1
          /\ last_win_class st2 = last_win_class st1).
Proof.
  split.
  - intros st.
    apply (proj1 (duplicate_focus_ignored json_text.loads re.match_ [rule_media]
                    youtube) st).
    vm_compute. reflexivity.
  - intros st1.
    apply (proj2 (duplicate_focus_ignored json_text.loads re.match_ [rule_media]
                    youtube) (listen_init base_client) st1).
    vm_compute. reflexivity.
Defined.

Lemma json_text_loads_tame : tame json_text.loads.
Proof.
  intros line e. unfold json_text.loads.
  destruct (json_text.read_value _ _) as [[v rest]|]; [|discriminate].
  destruct (json_text.skip_ws rest); discriminate.
Qed.

Lemma faultless_connected_client (script : list recv_result) :
  forallb sound script = true -> faultless (_client (connected_client script)).
Proof. intros H. split; [exact H|reflexivity]. Qed.



(** With a daemon that never answers, the handler still starts the
    command of the rule and sends the fake key and the mouse move. *)
Example effects_without_answer :
  exists st',
    on_focus_event json_text.loads re.match_ [rule_media] youtube
      (listen_init silent_client) = Ok (tt, st')
    /\ spawned st' = [JString "notify-send media"]
    /\ sent (_client (kanata st'))
       = [layer_name_query;
          change_layer_request "media";
          request "ActOnFakeKey" [("name", JString "Space"); ("action", JString "Tap")];
          request "SetMouse" [("x", JInt 300); ("y", JInt 400)]].
Proof.
  eexists. split; [lazy; reflexivity|]. split; reflexivity.
Qed.

(** ** Validation *)

Lemma schema_violation_fatal_witness :
  exists diag,
    _validate json_text.loads (JList [rule_ok; JObject rule_blank_class])
      layers_client = Fatal diag
    /\ rule_no_of diag = Some 2.
Proof.
  eapply (schema_violation_fatal json_text.loads layers_client _ _
            [rule_ok] [] rule_blank_class).
  - lazy. reflexivity.
  - vm_compute. reflexivity.
  - right. right. exists "class", (JString " ").
    split; [now left|]. split; reflexivity.
Defined.

(** Counterexample to C6 as it is worded: a class that is [null] is no string,
    is not [false] and is there, and the rule passes.  (A rule that is
    no object at all, here the number 5, does end the process, but in
    [AttributeError] at [rule.get] and not in a message of [fatal].) *)
Lemma null_class_passes :
  (exists k', _validate json_text.loads (JList [rule_null_class]) layers_client
              = Ok (tt, k'))
  /\ _validate json_text.loads (JList [JInt 5]) layers_client
     = Raise AttributeError.
Proof.
  split; [eexists; lazy; reflexivity|vm_compute; reflexivity].
Qed.

Lemma fake_key_set_mouse_fatal_witness :
  (exists diag,
      _validate json_text.loads (JList [rule_ok; JObject rule_hold])
        layers_client = Fatal diag
      /\ rule_no_of diag = Some 2)
  /\ (exists diag,
         _validate json_text.loads (JList [JObject rule_mouse_text])
           layers_client = Fatal diag
         /\ rule_no_of diag = Some 1).
Proof.
  split.
  - eapply (fake_key_set_mouse_fatal json_text.loads layers_client _ _
              [rule_ok] [] rule_hold).
    + lazy. reflexivity.
    + vm_compute. reflexivity.
    + right. left. exists "Space", "hold". repeat split.
  - eapply (fake_key_set_mouse_fatal json_text.loads layers_client _ _
              [] [] rule_mouse_text).
    + lazy. reflexivity.
    + reflexivity.
    + right. right. split; [now left|]. split; [reflexivity|now left].
Defined.

(** Counterexample to C7 as it is worded: a fake key and a mouse position that
    are [false], or the empty list, are no lists of two, and the rules
    pass. *)
Lemma falsy_effects_pass :
  exists k',
    _validate json_text.loads (JList [rule_effects_off; rule_effects_empty])
      layers_client = Ok (tt, k').
Proof.
  eexists. lazy. reflexivity.
Qed.

(** Lists of another length than two are not looked at as such: a mouse
    position of one integer passes, a fake key of one string ends in
    [ValueError] where it is unpacked, and a blank name is refused
    without the number of the rule. *)
Example list_lengths_unchecked :
  validate_rule JNull 1 (JObject [("class", JString "x"); ("set_mouse", JList [JInt 1])])
  = Ok tt
  /\ validate_rule JNull 1
       (JObject [("class", JString "x"); ("fake_key", JList [JString "Space"])])
     = Raise ValueError
  /\ validate_rule JNull 1
       (JObject [("class", JString "x");
                 ("fake_key", JList [JString " "; JString "hold"])])
     = Fatal BlankFakeKeyName.
Proof.
  repeat split.
Qed.

(** ** Patterns *)

Lemma rule_text_is_regex_witness :
  to_pattern (JString "(") = Ok ".*(.*"
  /\ (exists k', _validate json_text.loads (JList [rule_paren]) layers_client
                 = Ok (tt, k'))
  /\ on_focus_event json_text.loads re.match_ [rule_paren] (window "a" "b")
       (listen_init silent_client) = Raise re_error.
Proof.
  pose proof rule_text_is_regex as (H1 & _ & H3 & _ & H5).
  split; [|split].
  - apply (H1 "("). discriminate.
  - eexists. eapply (H3 json_text.loads layers_client). lazy. reflexivity.
  - apply (H5 json_text.loads [] (window "a" "b") (listen_init silent_client)).
    reflexivity.
Defined.

(** ** The matcher against the reading of regular expressions *)

Lemma closure_iter (step : nat -> list nat) (k : nat) :
  forall n front,
    In k (re.closure n step front)
    <-> exists m a, m <= n /\ In a front /\ iter step m a k.
Proof.
  induction n as [|n IH]; intros front.
  - simpl. split.
    + intros H. exists 0, k. repeat split; [lia|exact H|constructor].
    + intros (m & a & Hm & Ha & Hi).
      assert (m = 0) by lia. subst m. inversion Hi; subst. exact Ha.
  - cbn [re.closure]. rewrite in_app_iff, IH. split.
    + intros [H|(m & b & Hm & Hb & Hi)].
      * exists 0, k. repeat split; [lia|exact H|constructor].
      * apply in_flat_map in Hb. destruct Hb as (a & Ha & Hab).
        exists (S m), a. repeat split; [lia|exact Ha|].
        econstructor; eassumption.
    + intros (m & a & Hm & Ha & Hi).
      inversion Hi; subst.
      * now left.
      * right. exists m0, b. repeat split; [lia| |assumption].
        apply in_flat_map. eauto.
Qed.

(** When a step never goes back nor past [bound], the steps that stay
    in place can be left out, and what is left is short. *)
Lemma iter_shorten (step : nat -> list nat) (bound : nat) :
  (forall a b, a <= bound -> In b (step a) -> a <= b /\ b <= bound) ->
  forall m a k,
    a <= bound ->
    iter step m a k ->
    exists m', m' <= bound - a /\ iter step m' a k.
Proof.
  intros Hstep. induction m as [|m IH]; intros a k Ha Hi.
  - inversion Hi; subst. exists 0. split; [lia|constructor].
  - inversion Hi as [|m0 a0 b k0 Hab Hbk]; subst.
    destruct (Hstep _ _ Ha Hab) as [Hle Hb].
    destruct (IH _ _ Hb Hbk) as (m' & Hm' & Hi').
    destruct (Nat.eq_dec a b) as [<-|Hne].
    + exists m'. auto.
    + exists (S m'). split; [lia|]. econstructor; eassumption.
Qed.

Lemma matches_bounds (s : string) (r : re.regex) (i j : nat) :
  matches s r i j ->
  i <= String.length s ->
  i <= j /\ j <= String.length s.
Proof.
  induction 1 as [i|c i Hg|a i Hg Hn| |i He|r1 r2 i j k _ IH1 _ IH2
                  |r1 r2 i j _ IH|r1 r2 i j _ IH|r i|r i j k _ IH1 _ IH2];
    intros Hi;
    try (assert (~ String.length s <= i)
          by (intros Hle; apply get_length in Hle; congruence));
    try (destruct (IH1 Hi) as [? H2]; destruct (IH2 H2));
    try (destruct (IH Hi));
    lia.
Qed.

Lemma iter_star (s : string) (r : re.regex) (step : nat -> list nat) :
  (forall a b, In b (step a) -> matches s r a b) ->
  forall m a k, iter step m a k -> matches s (re.Star r) a k.
Proof.
  intros Hstep. induction 1 as [a|m a b k Hab _ IH].
  - constructor.
  - econstructor; [apply Hstep; eassumption|exact IH].
Qed.

(** Every position the matcher gives is the end of a match. *)
Theorem ends_sound (s : string) (r : re.regex) :
  forall i j, In j (re.ends r s i) -> matches s r i j.
Proof.
  induction r as [|c| | | |r1 IH1 r2 IH2|r1 IH1 r2 IH2|r IH]; intros i j H.
  - destruct H as [<-|[]]. constructor.
  - cbn [re.ends] in H. destruct (String.get i s) as [a|] eqn:E; [|contradiction].
    destruct (char_eqb_spec a c) as [->|]; [|contradiction].
    destruct H as [<-|[]]. now constructor.
  - cbn [re.ends] in H. destruct (String.get i s) as [a|] eqn:E; [|contradiction].
    destruct (Char.eqb a nl) eqn:En; [contradiction|].
    destruct H as [<-|[]]. econstructor; eassumption.
  - cbn [re.ends] in H. destruct (Nat.eqb_spec i 0) as [->|]; [|contradiction].
    destruct H as [<-|[]]. constructor.
  - cbn [re.ends] in H. destruct (re.at_end s i) eqn:E; [|contradiction].
    destruct H as [<-|[]]. now constructor.
  - cbn [re.ends] in H. apply in_flat_map in H. destruct H as (m & Hm & Hj).
    econstructor; eauto.
  - cbn [re.ends] in H. apply in_app_iff in H. destruct H as [H|H].
    + apply matches_alt_l. auto.
    + apply matches_alt_r. auto.
  - cbn [re.ends] in H. apply closure_iter in H.
    destruct H as (m & a & _ & [<-|[]] & Hi).
    eapply iter_star; [|eassumption]. exact IH.
Qed.

(** And every end of a match that starts inside the subject is given. *)
Theorem ends_complete (s : string) (r : re.regex) (i j : nat) :
  matches s r i j ->
  i <= String.length s ->
  In j (re.ends r s i).
Proof.
  induction 1 as [i|c i Hg|a i Hg Hn| |i He|r1 r2 i j k H1 IH1 _ IH2
                  |r1 r2 i j _ IH|r1 r2 i j _ IH|r i|r i j k H1 IH1 _ IH2];
    intros Hi; cbn [re.ends].
  - now left.
  - rewrite Hg, char_eqb_refl. now left.
  - rewrite Hg, Hn. now left.
  - now left.
  - rewrite He. now left.
  - apply in_flat_map. exists j. split; [auto|].
    apply IH2. now apply (matches_bounds _ _ _ _ H1).
  - apply in_app_iff. left. auto.
  - apply in_app_iff. right. auto.
  - apply closure_iter. exists 0, i. repeat split; [lia|now left|constructor].
  - destruct (matches_bounds _ _ _ _ H1 Hi) as [Hij Hj].
    specialize (IH1 Hi). specialize (IH2 Hj). cbn [re.ends] in IH2.
    apply closure_iter in IH2. destruct IH2 as (m & a & _ & [<-|[]] & Hit).
    assert (Hlong : iter (re.ends r s) (S m) i k) by (econstructor; eassumption).
    apply (iter_shorten _ (String.length s)) in Hlong; [|clear -s r|exact Hi].
    + destruct Hlong as (m' & Hm' & Hit').
      apply closure_iter. exists m', i. repeat split; [lia|now left|exact Hit'].
    + intros a b Ha Hab. apply ends_sound in Hab.
      now apply (matches_bounds _ _ _ _ Hab).
Qed.

(** [re.match_] says whether the expression the pattern is read as
    matches the subject from its start. *)
Theorem match_correct (pattern subject : string) (r : re.regex) :
  re.parse pattern = re.Parsed r ->
  forall b,
    re.match_ pattern subject = Ok b
    <-> (b = true <-> exists j, matches subject r 0 j).
Proof.
  intros Hp b. unfold re.match_. rewrite Hp.
  destruct (re.ends r subject 0) as [|j l] eqn:E.
  - split.
    + intros H; inversion H; subst. split; [discriminate|].
      intros (j & Hj). apply ends_complete in Hj; [|lia].
      rewrite E in Hj. contradiction.
    + intros Hb. destruct b; [|reflexivity].
      destruct (proj1 Hb eq_refl) as (j & Hj).
      apply ends_complete in Hj; [|lia]. rewrite E in Hj. contradiction.
  - assert (Hm : matches subject r 0 j).
    { apply ends_sound. rewrite E. now left. }
    split.
    + intros H; inversion H; subst. split; eauto.
    + intros Hb. f_equal. symmetry. apply Hb. eauto.
Qed.

(** * More of the program *)

(** ** [utils] *)

(** [tests/test_utils.py], [TestValidatePort] *)
Example test_valid_ports :
  validate_port "80" = Address "127.0.0.1" 80
  /\ validate_port "8080" = Address "127.0.0.1" 8080
  /\ validate_port "127.0.0.1:8000" = Address "127.0.0.1" 8000
  /\ validate_port "192.168.1.1:65535" = Address "192.168.1.1" 65535.
Proof.
  repeat split; vm_compute; reflexivity.
Qed.

Example test_invalid_ports :
  Forall (fun p => validate_port p = InvalidPort p) refused_ports.
Proof.
  repeat constructor; vm_compute; reflexivity.
Qed.

Lemma all_space_lstrip (s : string) : all_space (lstrip s) = all_space s.
Proof.
  induction s as [|c s IH]; simpl; [reflexivity|].
  destruct (is_space c) eqn:E; simpl; [exact IH|now rewrite E].
Qed.

Lemma rstrip_empty (s : string) : String.eqb (rstrip s) "" = all_space s.
Proof.
  induction s as [|c s IH]; simpl; [reflexivity|].
  destruct (rstrip s) as [|a r].
  - rewrite <- IH, andb_true_r. now destruct (is_space c).
  - rewrite <- IH, andb_false_r. reflexivity.
Qed.

Lemma is_space_white_space (c : char) :
  is_space c = true <-> In c white_space.
Proof.
  split.
  - unfold is_space.
    rewrite !orb_true_iff, !andb_true_iff, !N.leb_le, !N.eqb_eq.
    intros H.
    assert (E : (c = 9 \/ c = 10 \/ c = 11 \/ c = 12 \/ c = 13 \/ c = 28
                 \/ c = 29 \/ c = 30 \/ c = 31 \/ c = 32 \/ c = 133 \/ c = 160
                 \/ c = 5760 \/ c = 8192 \/ c = 8193 \/ c = 8194 \/ c = 8195
                 \/ c = 8196 \/ c = 8197 \/ c = 8198 \/ c = 8199 \/ c = 8200
                 \/ c = 8201 \/ c = 8202 \/ c = 8232 \/ c = 8233 \/ c = 8239
                 \/ c = 8287 \/ c = 12288)%N) by lia.
    unfold white_space. cbn [In]. intuition.
  - unfold white_space. cbn [In].
    intros H. repeat (destruct H as [<-|H]; [reflexivity|]). contradiction.
Qed.

(** X1.  [is_blank] holds exactly of the texts made of white space
    only, the empty text among them; white space is that of Unicode,
    the characters of [white_space]. *)
Theorem is_blank_all_space (s : string) :
  utils.is_blank s = all_space s
  /\ forall c, is_space c = true <-> In c white_space.
Proof.
  split; [|apply is_space_white_space].
  unfold utils.is_blank, strip. now rewrite rstrip_empty, all_space_lstrip.
Qed.

Lemma is_blank_all_space_witness :
  utils.is_blank (String 160%N " ") = all_space (String 160%N " ")
  /\ In 160%N white_space.
Proof.
  destruct (is_blank_all_space (String 160%N " ")) as [H1 H2].
  split; [exact H1|]. apply (proj1 (H2 160%N)). reflexivity.
Defined.

(** White space beyond ASCII: a no-break space, a next line and an em
    space are blank, a zero-width space is not; a class or the name of
    a fake key made of white space is refused as blank. *)
Example blank_beyond_ascii :
  utils.is_blank (String 160%N (String 133%N (String 8195%N ""))) = true
  /\ utils.is_blank (String 8203%N "") = false
  /\ _validate json_text.loads
       (JList [JObject [("class", JString (String 160%N ""))]]) layers_client
     = Fatal (NotNonEmptyString "class" 1)
  /\ utils.validate_fake_key (JList [JString (String 160%N ""); JString "tap"])
       (Some 1)
     = Fatal BlankFakeKeyName.
Proof. repeat split; vm_compute; reflexivity. Qed.

(** Digits beyond ASCII are left out: nothing is said about a port
    written with them. *)
Example digits_beyond_ascii :
  validate_port (String 178%N "") = PortRaises NotModelled
  /\ validate_port "١٢٧.٠.٠.١:٨٠" = PortRaises NotModelled
  /\ String.length "١٢٧.٠.٠.١:٨٠" = 12.
Proof. repeat split; vm_compute; reflexivity. Qed.

Ltac case_of_letters :=
  unfold to_lower, to_upper, is_upper, is_lower;
  repeat match goal with
         | |- context [if ?b then _ else _] => destruct b eqn:?
         end;
  repeat match goal with
         | H : (_ && _)%bool = true |- _ => apply andb_true_iff in H; destruct H
         | H : (_ && _)%bool = false |- _ => apply andb_false_iff in H; destruct H
         | H : (_ <=? _)%N = true |- _ => apply N.leb_le in H
         | H : (_ <=? _)%N = false |- _ => apply N.leb_gt in H
         end;
  try reflexivity; lia.

Lemma to_lower_upper (c : char) : to_lower (to_upper c) = to_lower c.
Proof. case_of_letters. Qed.

Lemma to_upper_lower (c : char) : to_upper (to_lower c) = to_upper c.
Proof. case_of_letters. Qed.

Lemma to_lower_lower (c : char) : to_lower (to_lower c) = to_lower c.
Proof. case_of_letters. Qed.

Lemma lower_lower (s : string) : lower (lower s) = lower s.
Proof.
  induction s as [|c s IH]; simpl; [reflexivity|].
  now rewrite to_lower_lower, IH.
Qed.

Lemma lower_capitalize (s : string) : lower (capitalize s) = lower s.
Proof.
  destruct s as [|c s]; simpl; [reflexivity|].
  now rewrite to_lower_upper, lower_lower.
Qed.

Lemma capitalize_lower (s : string) : capitalize (lower s) = capitalize s.
Proof.
  destruct s as [|c s]; simpl; [reflexivity|].
  now rewrite to_upper_lower, lower_lower.
Qed.

Lemma str_in_In (x : string) (l : list string) :
  utils.str_in x l = true <-> In x l.
Proof.
  unfold utils.str_in. rewrite existsb_exists. split.
  - intros (y & Hy & E). apply string_eqb_eq in E. now subst.
  - intros H. exists x. split; [exact H|apply string_eqb_refl].
Qed.

(** X2.  For a name and an action that are strings,
    [validate_fake_key] returns the name with one of the four actions
    exactly when the name is not blank and the action is that action
    in some letter case; what it returns is the action in its
    canonical case. *)
Theorem fake_key_action_any_case (name action canon : string)
  (rule_no : option nat) :
  utils.validate_fake_key (JList [JString name; JString action]) rule_no
  = Ok (name, canon)
  <-> utils.is_blank name = false
      /\ In canon utils.valid_actions
      /\ lower action = lower canon.
Proof.
  cbv beta iota zeta delta [utils.validate_fake_key utils.unpack2 bind].
  destruct (utils.is_blank name) eqn:Hb.
  - split; [discriminate|]. intros (H & _). discriminate.
  - destruct (utils.str_in (capitalize action) utils.valid_actions) eqn:Hin;
      cbv beta iota delta [negb].
    + split.
      * intros H. inversion H; subst canon. split; [reflexivity|].
        split; [now apply str_in_In|]. symmetry. apply lower_capitalize.
      * intros (_ & Hc & Hl). f_equal. f_equal.
        rewrite <- capitalize_lower, Hl, capitalize_lower.
        destruct Hc as [<-|[<-|[<-|[<-|[]]]]]; reflexivity.
    + split.
      * destruct rule_no as [[|n]|]; discriminate.
      * intros (_ & Hc & Hl). exfalso.
        assert (E : capitalize action = canon).
        { rewrite <- capitalize_lower, Hl, capitalize_lower.
          destruct Hc as [<-|[<-|[<-|[<-|[]]]]]; reflexivity. }
        rewrite E in Hin. apply str_in_In in Hc. congruence.
Qed.

Lemma fake_key_action_any_case_witness :
  utils.validate_fake_key (JList [JString "Space"; JString "tOGGLE"]) (Some 2)
  = Ok ("Space", "Toggle").
Proof.
  apply (proj2 (fake_key_action_any_case "Space" "tOGGLE" "Toggle" (Some 2))).
  split; [reflexivity|]. split; [|reflexivity].
  right. right. right. now left.
Defined.

Lemma split_one (c : char) (s b : string) : split c s = [b] -> s = b.
Proof.
  revert b. induction s as [|x s IH]; intros b; simpl.
  - intros H; now inversion H.
  - pose proof (split_not_nil c s) as Hne.
    destruct (Char.eqb x c).
    + intros H; inversion H; subst. contradiction.
    + destruct (split c s) as [|q qs]; [contradiction|].
      intros H; inversion H; subst. f_equal. now apply IH.
Qed.


Lemma get_has_char (c : char) (s : string) :
  forall i, String.get i s = Some c -> has_char c s = true.
Proof.
  induction s as [|a s IH]; intros i; simpl; [discriminate|].
  destruct i as [|i].
  - intros H; inversion H; subst. now rewrite char_eqb_refl.
  - intros H. rewrite (IH _ H). apply orb_true_r.
Qed.

(** What the pattern of an address with a port matches holds a colon. *)
Lemma fullmatch_colon (s : string) :
  fullmatch ip_port_pattern s = true -> has_char ":" s = true.
Proof.
  unfold fullmatch. rewrite existsb_exists. intros (j & Hj & _).
  apply ends_sound in Hj. unfold ip_port_pattern in Hj.
  inversion Hj as [| | | | |r1 r2 i0 j0 k0 _ Hrest| | | |]; subst.
  inversion Hrest as [| | | | |r1 r2 i0 j1 k0 Hc _| | | |]; subst.
  inversion Hc; subst. eapply get_has_char; eassumption.
Qed.

Lemma all_digits_no_colon (s : string) :
  all_digits s = true -> has_char ":" s = false.
Proof.
  induction s as [|c s IH]; simpl; [reflexivity|].
  intros H. apply andb_true_iff in H. destruct H as [Hc Hs].
  rewrite (IH Hs), orb_false_r.
  destruct (char_eqb_spec c ":") as [->|]; [discriminate|reflexivity].
Qed.


Lemma all_digits_ascii (s : string) : all_digits s = true -> is_ascii s = true.
Proof.
  induction s as [|c s IH]; simpl; [reflexivity|].
  intros H. apply andb_true_iff in H. destruct H as [Hc Hs].
  rewrite (IH Hs), andb_true_r.
  unfold json_text.is_digit in Hc. apply andb_true_iff in Hc.
  destruct Hc as [_ Hc]. apply Nat.leb_le in Hc. apply N.ltb_lt. lia.
Qed.



(** X4.  A text of the digits 0 to 9, of any length up to the 4300
    digits Python converts, is taken as a port on [127.0.0.1] when its
    value is from 1 to 65535, leading zeros or not, and is refused with
    the message for an invalid port otherwise. *)
Theorem validate_port_number (s : string) :
  ascii_isdigit s = true ->
  String.length s <= 4300 ->
  validate_port s
  = if ((0 <? int_from 0 s) && (int_from 0 s <=? 65535))%Z
    then Address "127.0.0.1" (int_from 0 s)
    else InvalidPort s.
Proof.
  intros Hd Hl.
  assert (Ha : all_digits s = true) by (destruct s; [discriminate|exact Hd]).
  pose proof (all_digits_ascii _ Ha) as Hascii.
  unfold validate_port, _is_valid_port, isdigit, py_int.
  rewrite Hascii. cbn [bind]. rewrite Hd.
  apply Nat.leb_le in Hl. rewrite Hl. cbn [bind].
  destruct ((0 <? int_from 0 s) && (int_from 0 s <=? 65535))%Z; [reflexivity|].
  unfold _is_valid_ip_port. rewrite Hascii. cbn [negb].
  destruct (fullmatch ip_port_pattern s) eqn:Hm; [|reflexivity].
  apply fullmatch_colon in Hm.
  rewrite (all_digits_no_colon _ Ha) in Hm. discriminate.
Qed.

Lemma validate_port_number_witness :
  validate_port "0080" = Address "127.0.0.1" 80
  /\ validate_port "0" = InvalidPort "0".
Proof.
  split.
  - apply (validate_port_number "0080"); [reflexivity|].
    apply Nat.leb_le. reflexivity.
  - apply (validate_port_number "0"); [reflexivity|].
    apply Nat.leb_le. reflexivity.
Defined.

(** ** [Kanata] *)

Lemma has_char_app (c : char) (a b : string) :
  has_char c (a ++ b) = has_char c a || has_char c b.
Proof.
  induction a as [|x a IH]; simpl; [reflexivity|].
  now rewrite IH, orb_assoc.
Qed.

Lemma split_all_clean (c : char) (s : string) :
  Forall (fun piece => has_char c piece = false) (split c s).
Proof.
  induction s as [|a s IH]; simpl.
  - repeat constructor.
  - destruct (Char.eqb a c) eqn:E.
    + constructor; [reflexivity|exact IH].
    + pose proof (split_not_nil c s) as Hne.
      destruct (split c s) as [|q qs]; [contradiction|].
      inversion IH as [|x l Hq Hqs]; subst.
      constructor; [|exact Hqs]. simpl. now rewrite E, Hq.
Qed.

(** Behind a separator the split starts afresh. *)
Lemma split_app_clean (c : char) (a t : string) :
  has_char c a = false ->
  split c (a ++ String c t) = a :: split c t.
Proof.
  induction a as [|x a IH]; simpl.
  - now rewrite char_eqb_refl.
  - intros H. apply orb_false_iff in H. destruct H as [Hx Ha].
    now rewrite Hx, (IH Ha).
Qed.

(** The last piece is the last piece of what follows any separator. *)
Lemma last_split_app (c : char) (s t : string) :
  last (split c (s ++ String c t)) "" = last (split c t) "".
Proof.
  induction s as [|a s IH]; simpl.
  - rewrite char_eqb_refl.
    pose proof (split_not_nil c t). now destruct (split c t).
  - pose proof (split_not_nil c (s ++ String c t)) as Hne.
    destruct (Char.eqb a c) eqn:E.
    + destruct (split c (s ++ String c t)); [contradiction|exact IH].
    + destruct (split c (s ++ String c t)) as [|q qs] eqn:Es; [contradiction|].
      destruct qs as [|q' qs].
      * exfalso. pose proof (split_all_clean c (s ++ String c t)) as Hc.
        rewrite Es in Hc. inversion Hc as [|x l Hq _]; subst.
        apply split_one in Es. rewrite <- Es, has_char_app in Hq.
        simpl in Hq. rewrite char_eqb_refl, orb_true_r in Hq. discriminate.
      * exact IH.
Qed.

Lemma drain_waiting (chunks : list string) (rest : list recv_result) :
  Forall (fun chunk => chunk <> "") chunks ->
  forall buf,
    drain (map Chunk chunks ++ Timeout :: rest) buf
    = Ok (rest, (buf ++ joined chunks)%string).
Proof.
  induction 1 as [|chunk chunks Hc _ IH]; intros buf; simpl.
  - do 2 f_equal.
    induction buf as [|x buf IHb]; simpl; [reflexivity|now rewrite <- IHb].
  - destruct chunk as [|x chunk]; [contradiction|].
    rewrite IH. do 2 f_equal.
    induction buf as [|y buf IHb]; simpl; [reflexivity|]. f_equal. exact IHb.
Qed.

Lemma flushed_buffer (buf : string) :
  (if has_char nl buf then last (split nl buf) "" else buf)
  = last (split nl buf) "".
Proof.
  destruct (has_char nl buf) eqn:E; [reflexivity|].
  now rewrite (split_clean _ _ E).
Qed.

Lemma recv_line_ready (inc : list recv_result) (buf : string) :
  has_char nl buf = true -> recv_line inc buf = Ok (false, inc, buf).
Proof.
  intros H. destruct inc; simpl; now rewrite H.
Qed.

(** [transmit] when stale chunks are waiting, [sendall] goes through
    and the answer comes in one chunk after the request. *)
Lemma transmit_after_stale (cmd : json) (k : Kanata) (stale : list string)
  (reply : string) (rest : list recv_result) :
  Forall (fun chunk => chunk <> "") stale ->
  incoming (_client k) = map Chunk stale ++ Timeout :: Chunk reply :: rest ->
  send_error (_client k) (length (sent (_client k))) = false ->
  has_char nl reply = true ->
  transmit cmd k
  = let frag := last (split nl (_buffer k ++ joined stale)) "" in
    Ok (first_response (removelast (split nl (frag ++ reply))),
        {| _client := {| reachable := reachable (_client k);
                         sent := sent (_client k) ++ [cmd];
                         incoming := rest;
                         send_error := send_error (_client k) |};
           _buffer := last (split nl (frag ++ reply)) "";
           _connected := _connected k |}).
Proof.
  intros Hs Hi He Hr. unfold transmit, mbind, _flush_buffer.
  rewrite Hi, (drain_waiting _ _ Hs). cbn [bind].
  rewrite flushed_buffer.
  set (frag := last (split nl (_buffer k ++ joined stale)) "").
  assert (Hf : has_char nl frag = false) by apply last_split_clean.
  unfold exchange, sendall.
  cbn [_client _buffer _connected with_incoming incoming sent reachable
       send_error].
  rewrite He. cbn [bind incoming].
  destruct reply as [|x reply]; [discriminate|].
  cbn [recv_line]. rewrite Hf.
  rewrite recv_line_ready by (rewrite has_char_app, Hr; apply orb_true_r).
  reflexivity.
Qed.

Section MoreClientFacts.

Variable json_loads : string -> loads_result.

(** X5.  On a connected client, when chunks are waiting, [sendall]
    goes through and the answer to the request then comes as one line,
    [send] returns that line with, in front of it, whatever followed
    the last newline of the old buffer and the waiting chunks, the
    whole stripped, or [None] if that is blank; the buffer is empty
    afterwards.  So an unfinished stale line is not dropped but glued
    to the next answer. *)
Theorem send_after_stale_data (cmd : json) (k : Kanata) (stale : list string)
  (line : string) (rest : list recv_result) :
  _connected k = true ->
  Forall (fun chunk => chunk <> "") stale ->
  incoming (_client k)
  = map Chunk stale ++ Timeout :: Chunk (line ++ newline) :: rest ->
  send_error (_client k) (length (sent (_client k))) = false ->
  has_char nl line = false ->
  let glued := (last (split nl (_buffer k ++ joined stale)) "" ++ line)%string in
  exists k',
    send json_loads cmd k
    = Ok (if utils.is_blank glued then None else Some (strip glued), k')
    /\ _buffer k' = ""
    /\ incoming (_client k') = rest
    /\ sent (_client k') = sent (_client k) ++ [cmd].
Proof.
  intros Hc Hs Hi He Hl glued.
  rewrite (send_connected _ _ _ Hc).
  rewrite (transmit_after_stale cmd k stale (line ++ newline) rest Hs Hi He)
    by (rewrite has_char_app; apply orb_true_r).
  cbv zeta.
  set (frag := last (split nl (_buffer k ++ joined stale)) "") in *.
  assert (Hf : has_char nl (frag ++ line) = false).
  { rewrite has_char_app, Hl. unfold frag. now rewrite last_split_clean. }
  assert (E : split nl (frag ++ line ++ newline) = [(frag ++ line)%string; ""]).
  { replace (frag ++ line ++ newline)%string
      with ((frag ++ line) ++ String nl "")%string.
    - now rewrite (split_app_clean _ _ _ Hf).
    - unfold newline. clear. induction frag as [|x f IH]; simpl; [reflexivity|].
      now rewrite IH. }
  rewrite E. cbn [removelast last first_response].
  fold glued. unfold utils.is_blank.
  eexists. split.
  - destruct (String.eqb (strip glued) ""); reflexivity.
  - simpl. auto.
Qed.

(** X6.  On a connected client, when what is waiting are whole lines
    (the old buffer and the waiting chunks together end in a newline),
    [sendall] goes through and the answer to the request then comes as
    one line that is not blank, [send] drops all of the stale lines and
    returns the answer, stripped. *)
Theorem send_drops_stale_lines (cmd : json) (k : Kanata) (stale : list string)
  (data line : string) (rest : list recv_result) :
  _connected k = true ->
  Forall (fun chunk => chunk <> "") stale ->
  incoming (_client k)
  = map Chunk stale ++ Timeout :: Chunk (line ++ newline) :: rest ->
  send_error (_client k) (length (sent (_client k))) = false ->
  (_buffer k ++ joined stale = data ++ newline)%string ->
  has_char nl line = false ->
  utils.is_blank line = false ->
  exists k',
    send json_loads cmd k = Ok (Some (strip line), k')
    /\ _buffer k' = ""
    /\ sent (_client k') = sent (_client k) ++ [cmd].
Proof.
  intros Hc Hs Hi He Hd Hl Hb.
  rewrite (send_connected _ _ _ Hc).
  rewrite (transmit_after_stale cmd k stale (line ++ newline) rest Hs Hi He)
    by (rewrite has_char_app; apply orb_true_r).
  cbv zeta. unfold newline in *. rewrite Hd, last_split_app.
  cbn [split last String.append].
  rewrite (split_app_clean _ _ _ Hl).
  cbn [split removelast last first_response].
  unfold utils.is_blank in Hb. rewrite Hb. cbn [negb].
  eexists. split; [reflexivity|]. simpl. auto.
Qed.

End MoreClientFacts.

Lemma send_after_stale_data_witness :
  exists k',
    send json_text.loads layer_name_query stale_client
    = Ok (Some ("{" ++ "{" ++ json_text.quoted "CurrentLayerName" ++ ":{"
                ++ json_text.quoted "name" ++ ":" ++ json_text.quoted "base"
                ++ "}}")%string, k')
    /\ _buffer k' = ""
    /\ incoming (_client k') = []
    /\ sent (_client k') = [layer_name_query].
Proof.
  apply (send_after_stale_data json_text.loads layer_name_query stale_client
           [("stale" ++ newline ++ "{")%string]
           ("{" ++ json_text.quoted "CurrentLayerName" ++ ":{"
            ++ json_text.quoted "name" ++ ":" ++ json_text.quoted "base"
            ++ "}}")%string []).
  - reflexivity.
  - repeat constructor. discriminate.
  - reflexivity.
  - reflexivity.
  - reflexivity.
Defined.

Lemma send_drops_stale_lines_witness :
  exists k',
    send json_text.loads layer_name_query resync_client
    = Ok (Some (strip ("{" ++ json_text.quoted "CurrentLayerName" ++ ":{"
                       ++ json_text.quoted "name" ++ ":"
                       ++ json_text.quoted "base" ++ "}}")), k')
    /\ _buffer k' = ""
    /\ sent (_client k') = [layer_name_query].
Proof.
  apply (send_drops_stale_lines json_text.loads layer_name_query resync_client
           [layer_name_reply "old"; layer_name_reply "older"]
           ("{" ++ json_text.quoted "CurrentLayerName" ++ ":{"
            ++ json_text.quoted "name" ++ ":" ++ json_text.quoted "old" ++ "}}"
            ++ newline
            ++ "{" ++ json_text.quoted "CurrentLayerName" ++ ":{"
            ++ json_text.quoted "name" ++ ":" ++ json_text.quoted "older" ++ "}}")
           ("{" ++ json_text.quoted "CurrentLayerName" ++ ":{"
            ++ json_text.quoted "name" ++ ":" ++ json_text.quoted "base" ++ "}}")
           []).
  - reflexivity.
  - repeat constructor; discriminate.
  - reflexivity.
  - reflexivity.
  - reflexivity.
  - reflexivity.
  - reflexivity.
Defined.

(** *** What [send] returns *)

Lemma clean_lstrip (c : char) (s : string) :
  has_char c s = false -> has_char c (lstrip s) = false.
Proof.
  induction s as [|a s IH]; simpl; [reflexivity|].
  intros H. destruct (is_space a); [|exact H].
  apply orb_false_iff in H. now apply IH.
Qed.

Lemma clean_rstrip (c : char) (s : string) :
  has_char c s = false -> has_char c (rstrip s) = false.
Proof.
  induction s as [|a s IH]; simpl; [reflexivity|].
  intros H. apply orb_false_iff in H. destruct H as [Ha Hs].
  specialize (IH Hs).
  destruct (rstrip s) as [|b r].
  - destruct (is_space a); simpl; [reflexivity|now rewrite Ha].
  - simpl. simpl in IH. now rewrite Ha, IH.
Qed.

Lemma lstrip_head (s : string) :
  lstrip s = ""
  \/ exists a r, lstrip s = String a r /\ is_space a = false.
Proof.
  induction s as [|a s IH]; simpl; [now left|].
  destruct (is_space a) eqn:E; [exact IH|right; eauto].
Qed.

Lemma rstrip_idem (s : string) : rstrip (rstrip s) = rstrip s.
Proof.
  induction s as [|a s IH]; simpl; [reflexivity|].
  destruct (rstrip s) as [|b r] eqn:E.
  - destruct (is_space a) eqn:Ea; simpl; [reflexivity|now rewrite Ea].
  - change (match rstrip (String b r) with
            | EmptyString => if is_space a then EmptyString else String a EmptyString
            | String x y => String a (String x y)
            end = String a (String b r)).
    now rewrite IH.
Qed.

Lemma lstrip_rstrip_head (a : char) (r : string) :
  is_space a = false -> lstrip (rstrip (String a r)) = rstrip (String a r).
Proof.
  intros H. cbn [rstrip].
  destruct (rstrip r); rewrite ?H; cbn [lstrip]; now rewrite H.
Qed.

Lemma strip_idem (s : string) : strip (strip s) = strip s.
Proof.
  unfold strip.
  destruct (lstrip_head s) as [E|(a & r & E & Ha)]; rewrite E.
  - reflexivity.
  - rewrite (lstrip_rstrip_head _ _ Ha). apply rstrip_idem.
Qed.

Lemma in_removelast {A : Type} (x : A) (l : list A) :
  In x (removelast l) -> In x l.
Proof.
  induction l as [|a l IH]; simpl; [auto|].
  destruct l as [|b l]; [intros []|].
  intros [->|H]; [now left|right; auto].
Qed.

Lemma first_response_some (lines : list string) (r : string) :
  first_response lines = Some r ->
  exists line, In line lines /\ r = strip line /\ r <> "".
Proof.
  induction lines as [|line lines IH]; simpl; [discriminate|].
  destruct (string_eqb_spec (strip line) "") as [E|E]; simpl.
  - intros H. destruct (IH H) as (l & Hl & Hr). exists l. auto.
  - intros H; inversion H; subst. exists line. auto.
Qed.

Lemma exchange_response_shape (cmd : json) (k k' : Kanata) (r : string) :
  exchange cmd k = Ok (Some r, k') ->
  r <> "" /\ has_char nl r = false /\ strip r = r.
Proof.
  unfold exchange.
  destruct (sendall cmd (_client k)) as [sock| |]; try discriminate.
  cbn [bind].
  destruct (recv_line _ _) as [[[t inc] buf]| |]; try discriminate.
  cbn [bind].
  destruct t; [discriminate|].
  intros H. injection H as Hr _.
  apply first_response_some in Hr. destruct Hr as (line & Hin & -> & Hne).
  split; [exact Hne|]. split; [|apply strip_idem].
  apply in_removelast in Hin.
  pose proof (split_all_clean nl buf) as Hc.
  rewrite Forall_forall in Hc. specialize (Hc _ Hin).
  unfold strip. now apply clean_rstrip, clean_lstrip.
Qed.

Lemma transmit_response_shape (cmd : json) (k k' : Kanata) (r : string) :
  transmit cmd k = Ok (Some r, k') ->
  r <> "" /\ has_char nl r = false /\ strip r = r.
Proof.
  unfold transmit, mbind.
  destruct (_flush_buffer k) as [[[] k1]| |]; try discriminate.
  apply exchange_response_shape.
Qed.

(** How the two [recv] loops, and with them [transmit], can fail: with
    the [OSError] of a [recv] or of [sendall], or with
    [UnicodeDecodeError]; never with a message of [fatal]. *)
Lemma drain_fails (inc : list recv_result) :
  forall buf,
    (forall d, drain inc buf <> Fatal d)
    /\ (forall e, drain inc buf = Raise e -> e = OSError \/ e = UnicodeDecodeError).
Proof.
  induction inc as [|r inc IH]; intros buf; simpl.
  - split; [discriminate|intros e H; discriminate].
  - destruct r as [[|c chunk]| | |];
      try (split; [discriminate|intros e H; discriminate]).
    + apply IH.
    + split; [discriminate|]. intros e H. injection H as <-. now right.
    + split; [discriminate|]. intros e H. injection H as <-. now left.
Qed.

Lemma recv_line_fails (inc : list recv_result) :
  forall buf,
    (forall d, recv_line inc buf <> Fatal d)
    /\ (forall e, recv_line inc buf = Raise e
                  -> e = OSError \/ e = UnicodeDecodeError).
Proof.
  induction inc as [|r inc IH]; intros buf; simpl.
  - destruct (has_char nl buf); split; try discriminate; intros e H; discriminate.
  - destruct (has_char nl buf);
      [split; [discriminate|intros e H; discriminate]|].
    destruct r as [[|c chunk]| | |];
      try (split; [discriminate|intros e H; discriminate]).
    + apply IH.
    + split; [discriminate|]. intros e H. injection H as <-. now right.
    + split; [discriminate|]. intros e H. injection H as <-. now left.
Qed.

Lemma transmit_fails (cmd : json) (k : Kanata) :
  (forall d, transmit cmd k <> Fatal d)
  /\ (forall e, transmit cmd k = Raise e -> e = OSError \/ e = UnicodeDecodeError).
Proof.
  unfold transmit, mbind, _flush_buffer.
  destruct (drain_fails (incoming (_client k)) (_buffer k)) as [Hd1 Hd2].
  destruct (drain (incoming (_client k)) (_buffer k)) as [[inc buf]|d|e].
  - cbn [bind]. unfold exchange, sendall.
    cbn [_client _buffer sent incoming with_incoming send_error].
    destruct (send_error (_client k) (length (sent (_client k)))).
    + cbn [bind]. split; [discriminate|].
      intros e H. injection H as <-. now left.
    + cbn [bind incoming].
      set (buf1 := if has_char nl buf then last (split nl buf) "" else buf).
      destruct (recv_line_fails inc buf1) as [Hr1 Hr2].
      destruct (recv_line inc buf1) as [[[t inc'] buf']|d|e].
      * cbn [bind]. destruct t; split; try discriminate; intros e H; discriminate.
      * now contradiction (Hr1 d).
      * cbn [bind]. split; [discriminate|].
        intros e' H. injection H as <-. now apply Hr2.
  - now contradiction (Hd1 d).
  - cbn [bind]. split; [discriminate|].
    intros e' H. injection H as <-. now apply Hd2.
Qed.

Section ResponseFacts.

Variable json_loads : string -> loads_result.

(** X7.  A response that [send] returns is never empty, holds no
    newline and has no white space at either end: it is one line,
    stripped. *)
Theorem send_response_shape (cmd : json) (k k' : Kanata) (r : string) :
  send json_loads cmd k = Ok (Some r, k') ->
  r <> "" /\ has_char nl r = false /\ strip r = r.
Proof.
  unfold send, mbind.
  destruct (_connected k).
  - simpl. apply transmit_response_shape.
  - destruct (_connect json_loads k) as [[[] k1]| |]; try discriminate.
    apply transmit_response_shape.
Qed.

(** X8.  On a connected client [send] never ends in a message of
    [fatal], and the only exceptions that leave it are the [OSError]
    of a [recv] or a [sendall] that fails and the [UnicodeDecodeError]
    of bytes that are no UTF-8.  On a connection without such faults
    it returns, whatever text comes or fails to come from the daemon:
    it gives a response or [None], has put its command and nothing else
    on the wire, and leaves the client connected and the buffer without
    a newline. *)
Theorem send_connected_returns (cmd : json) (k : Kanata) :
  _connected k = true ->
  (forall d, send json_loads cmd k <> Fatal d)
  /\ (forall e, send json_loads cmd k = Raise e ->
                e = OSError \/ e = UnicodeDecodeError)
  /\ (faultless (_client k) ->
      exists r k',
        send json_loads cmd k = Ok (r, k')
        /\ sent (_client k') = sent (_client k) ++ [cmd]
        /\ _connected k' = true
        /\ clean (_buffer k')).
Proof.
  intros Hc. rewrite (send_connected _ _ _ Hc).
  destruct (transmit_fails cmd k) as [H1 H2].
  split; [exact H1|]. split; [exact H2|].
  intros Hf.
  destruct (transmit_total cmd k Hf) as (r & k' & E & _).
  exists r, k'. split; [exact E|].
  pose proof (transmit_clean _ _ _ _ E) as Hb.
  apply transmit_sent in E. destruct E as [E1 E2].
  repeat split; [exact E1|congruence|exact Hb].
Qed.

(** What reading the name out of a response can end in. *)
Lemma current_layer_name_in_fails (response : option string) :
  (forall d, current_layer_name_in json_loads response <> Fatal d)
  /\ (forall e, current_layer_name_in json_loads response = Raise e ->
                e = AttributeError
                \/ exists line, json_loads line = LoadsRaises e).
Proof.
  unfold current_layer_name_in, _parse_json_response.
  destruct response as [[|c line]|]; cbn [bind py_get dict_get];
    try (split; [discriminate|intros e H; discriminate]).
  destruct (json_loads (String c line)) as [v| |e0] eqn:Ev; cbn [bind].
  - destruct v as [| | | | | |d]; cbn [py_get bind];
      try (split; [discriminate|intros e H; injection H as <-; now left]).
    destruct (match dict_get d "CurrentLayerName" with
              | Some x => x
              | None => JObject []
              end) as [| | | | | |inner]; cbn [py_get];
      split; try discriminate; intros e H; try discriminate;
      injection H as <-; now left.
  - cbn [py_get dict_get bind]. split; [discriminate|intros e H; discriminate].
  - split; [discriminate|]. intros e H. injection H as <-. right. eauto.
Qed.

(** X9.  The first [send] of a client connects it.  When the daemon
    cannot be reached the process ends with the message on the
    connection, and this is the only message of [fatal] a first [send]
    ends in.  When it returns, the query for the name of the current
    layer went out before the command.  The exceptions that can leave
    it are [AttributeError], from an answer to that query that is JSON
    of the wrong shape, what [json.loads] raised on that answer,
    [UnicodeDecodeError], and the [OSError] of the command's own
    exchange. *)
Theorem send_first_connects (cmd : json) (k : Kanata) :
  _connected k = false ->
  (reachable (_client k) = false -> send json_loads cmd k = Fatal ConnectionError)
  /\ (forall r k',
         send json_loads cmd k = Ok (r, k') ->
         sent (_client k') = sent (_client k) ++ [layer_name_query; cmd]
         /\ _connected k' = true)
  /\ (forall d, send json_loads cmd k = Fatal d -> d = ConnectionError)
  /\ (forall e, send json_loads cmd k = Raise e ->
                reachable (_client k) = true
                /\ (e = AttributeError \/ e = UnicodeDecodeError \/ e = OSError
                    \/ exists line, json_loads line = LoadsRaises e)).
Proof.
  intros Hc. unfold send, mbind. rewrite Hc. unfold _connect.
  destruct (reachable (_client k)) eqn:Hr.
  2:{ split; [reflexivity|]. split; [discriminate|]. split; [|discriminate].
      intros d H. now injection H as <-. }
  set (k0 := {| _client := _client k; _buffer := _buffer k; _connected := true |}).
  change (request "RequestCurrentLayerName" []) with layer_name_query.
  unfold mbind, lift, ret.
  destruct (transmit_fails layer_name_query k0) as [Hq1 Hq2].
  destruct (transmit layer_name_query k0) as [[r0 k1]|d|e] eqn:E1.
  - pose proof (transmit_sent _ _ _ _ E1) as [Hs1 Hc1]. simpl in Hs1, Hc1.
    destruct (current_layer_name_in_fails r0) as [Hn1 Hn2].
    destruct (current_layer_name_in json_loads r0) as [name|d|e] eqn:En.
    + cbn [on_socket_error].
      destruct (transmit_fails cmd k1) as [Hc1' Hc2'].
      destruct (transmit cmd k1) as [[r k2]|d|e] eqn:E2.
      * pose proof (transmit_sent _ _ _ _ E2) as [Hs2 Hc2].
        split; [discriminate|]. split; [|split; discriminate].
        intros r' k' H. injection H as _ <-. split; [|congruence].
        rewrite Hs2, Hs1, <- app_assoc. reflexivity.
      * now contradiction (Hc1' d).
      * split; [discriminate|]. split; [discriminate|]. split; [discriminate|].
        intros e' H. injection H as <-. split; [reflexivity|].
        destruct (Hc2' e eq_refl) as [-> | ->]; auto.
    + now contradiction (Hn1 d).
    + specialize (Hn2 e eq_refl).
      destruct e; cbn [on_socket_error];
        (split; [discriminate|]); (split; [discriminate|]);
        split; try discriminate;
        try (intros d H; now injection H as <-);
        intros e' H; injection H as <-; (split; [reflexivity|]);
        destruct Hn2 as [Hn2|Hn2]; try discriminate Hn2; auto.
  - now contradiction (Hq1 d).
  - specialize (Hq2 e eq_refl).
    destruct Hq2 as [-> | ->]; cbn [on_socket_error].
    + split; [discriminate|]. split; [discriminate|]. split; [|discriminate].
      intros d H. now injection H as <-.
    + split; [discriminate|]. split; [discriminate|]. split; [discriminate|].
      intros e' H. injection H as <-. auto.
Qed.

End ResponseFacts.

Lemma send_response_shape_witness :
  strip ("{" ++ json_text.quoted "CurrentLayerName" ++ ":{"
         ++ json_text.quoted "name" ++ ":" ++ json_text.quoted "base" ++ "}}")
  <> ""
  /\ has_char nl
       (strip ("{" ++ json_text.quoted "CurrentLayerName" ++ ":{"
               ++ json_text.quoted "name" ++ ":" ++ json_text.quoted "base"
               ++ "}}")) = false
  /\ strip (strip ("{" ++ json_text.quoted "CurrentLayerName" ++ ":{"
                   ++ json_text.quoted "name" ++ ":" ++ json_text.quoted "base"
                   ++ "}}"))
     = strip ("{" ++ json_text.quoted "CurrentLayerName" ++ ":{"
              ++ json_text.quoted "name" ++ ":" ++ json_text.quoted "base"
              ++ "}}").
Proof.
  eapply (send_response_shape json_text.loads layer_name_query base_client).
  lazy. reflexivity.
Defined.

Lemma send_connected_returns_witness :
  (send json_text.loads layer_name_query garbled_client = Raise UnicodeDecodeError
   -> UnicodeDecodeError = OSError \/ UnicodeDecodeError = UnicodeDecodeError)
  /\ exists r k',
      send json_text.loads layer_name_query silent_client = Ok (r, k')
      /\ sent (_client k') = sent (_client silent_client) ++ [layer_name_query]
      /\ _connected k' = true
      /\ clean (_buffer k').
Proof.
  split.
  - apply (proj1 (proj2 (send_connected_returns json_text.loads layer_name_query
                           garbled_client eq_refl))).
  - apply (proj2 (proj2 (send_connected_returns json_text.loads layer_name_query
                           silent_client eq_refl))).
    now apply faultless_connected_client.
Defined.

Lemma send_first_connects_witness :
  send json_text.loads (change_layer_request "media") (fresh_client false [])
  = Fatal ConnectionError
  /\ (forall r k',
         send json_text.loads (change_layer_request "media") (fresh_client true [])
         = Ok (r, k') ->
         sent (_client k') = [layer_name_query; change_layer_request "media"]
         /\ _connected k' = true)
  /\ (send json_text.loads (change_layer_request "media") (fresh_client true [Reset])
      = Fatal ConnectionError -> ConnectionError = ConnectionError).
Proof.
  split; [|split].
  - apply (proj1 (send_first_connects json_text.loads (change_layer_request "media")
                    (fresh_client false []) eq_refl)).
    reflexivity.
  - apply (proj1 (proj2 (send_first_connects json_text.loads
                           (change_layer_request "media")
                           (fresh_client true []) eq_refl))).
  - apply (proj1 (proj2 (proj2 (send_first_connects json_text.loads
                                  (change_layer_request "media")
                                  (fresh_client true [Reset]) eq_refl)))).
Defined.

(** A connected client that meets bytes that are no UTF-8 raises; a
    socket error in the query of a first connection ends the process
    with the message on the connection. *)
Example faults_of_the_socket :
  send json_text.loads layer_name_query garbled_client = Raise UnicodeDecodeError
  /\ send json_text.loads layer_name_query (connected_client [Timeout; Reset])
     = Raise OSError
  /\ send json_text.loads layer_name_query (fresh_client true [Reset])
     = Fatal ConnectionError
  /\ send json_text.loads layer_name_query breaking_client
     = Ok (None, state_after (send json_text.loads layer_name_query breaking_client)
                   breaking_client)
  /\ send json_text.loads layer_name_query
       (state_after (send json_text.loads layer_name_query breaking_client)
          breaking_client)
     = Raise OSError.
Proof. repeat split; vm_compute; reflexivity. Qed.

Section MoreKanataFacts.

Variable json_loads : string -> loads_result.

(** X10.  What [get_current_layer_name] makes of the response [send]
    has returned for its query.  No response and a response that is no
    JSON give [None]; a JSON object gives what it holds under
    [CurrentLayerName], [name], and [None] when one of the two keys is
    missing; a response that is JSON but no object, or holds something
    else than an object under [CurrentLayerName], ends in
    [AttributeError]; and what [json.loads] raises besides
    [JSONDecodeError] is raised.  A message of [fatal], or any
    other end, is that of [send] itself. *)
Theorem layer_name_of_answer (k k' : Kanata) (response : option string) :
  send json_loads layer_name_query k = Ok (response, k') ->
  get_current_layer_name json_loads k
  = match response with
    | None => Ok (JNull, k')
    | Some line =>
        match json_loads line with
        | JSONDecodeError => Ok (JNull, k')
        | LoadsRaises e => Raise e
        | Parsed (JObject d) =>
            match dict_get d "CurrentLayerName" with
            | None => Ok (JNull, k')
            | Some (JObject inner) => Ok (value_of inner "name", k')
            | Some _ => Raise AttributeError
            end
        | Parsed _ => Raise AttributeError
        end
    end.
Proof.
  intros Hs. unfold get_current_layer_name, mbind, lift.
  change (request "RequestCurrentLayerName" []) with layer_name_query.
  rewrite Hs.
  unfold current_layer_name_in, _parse_json_response.
  destruct response as [line|]; [|reflexivity].
  assert (Hne : line <> "").
  { unfold send, mbind in Hs.
    destruct (_connected k).
    - now apply transmit_response_shape in Hs.
    - destruct (_connect json_loads k) as [[[] k1]| |]; try discriminate.
      now apply transmit_response_shape in Hs. }
  destruct line as [|c line]; [contradiction|].
  destruct (json_loads (String c line)) as [v| |e]; cbn [bind]; try reflexivity.
  destruct v as [| | | | | |d]; cbn [py_get bind]; try reflexivity.
  unfold value_of.
  destruct (dict_get d "CurrentLayerName") as [[| | | | | |inner]|];
    cbn [py_get bind dict_get]; reflexivity.
Qed.

(** The requests [get_current_layer_name] ends as [send] does when
    [send] does not return. *)
Lemma get_current_layer_name_stops (k : Kanata) :
  (forall d, send json_loads layer_name_query k = Fatal d ->
             get_current_layer_name json_loads k = Fatal d)
  /\ (forall e, send json_loads layer_name_query k = Raise e ->
                get_current_layer_name json_loads k = Raise e).
Proof.
  unfold get_current_layer_name, mbind.
  change (request "RequestCurrentLayerName" []) with layer_name_query.
  split; intros x H; now rewrite H.
Qed.

Lemma validate_fake_key_ok (v : json) (rule_no : option nat) (name action : string) :
  utils.validate_fake_key v rule_no = Ok (name, action) ->
  utils.is_blank name = false
  /\ In action utils.valid_actions
  /\ exists given,
      utils.unpack2 v = Ok (JString name, JString given)
      /\ action = capitalize given.
Proof.
  cbv beta iota zeta delta [utils.validate_fake_key bind].
  destruct (utils.unpack2 v) as [[a b]| |]; try discriminate.
  destruct a as [| | | |nm| |]; try discriminate.
  destruct (utils.is_blank nm) eqn:Hb; [discriminate|].
  destruct b as [| | | |given| |]; try discriminate.
  destruct (utils.str_in (capitalize given) utils.valid_actions) eqn:Hin;
    cbv beta iota delta [negb].
  - intros H. injection H as <- <-.
    split; [exact Hb|]. split; [now apply str_in_In|]. eauto.
  - destruct rule_no as [[|n]|]; discriminate.
Qed.

(** X11.  When [act_on_fake_key] returns, what it has sent, after the
    query of a first connection if there was one, is one
    [ActOnFakeKey] request whose name is not blank and whose action is
    one of [Press], [Release], [Tap] and [Toggle]: a fake key with a
    blank name or another action never reaches the daemon. *)
Theorem act_on_fake_key_sends_valid (fake_key : json) (k k' : Kanata) :
  act_on_fake_key json_loads fake_key k = Ok (tt, k') ->
  exists name action,
    utils.is_blank name = false
    /\ In action utils.valid_actions
    /\ (sent (_client k') = sent (_client k) ++ [fake_key_request name action]
        \/ sent (_client k')
           = sent (_client k) ++ [layer_name_query; fake_key_request name action]).
Proof.
  unfold act_on_fake_key, mbind, lift.
  destruct (utils.validate_fake_key fake_key None) as [[name action]| |] eqn:Hv;
    try discriminate.
  apply validate_fake_key_ok in Hv. destruct Hv as (Hb & Ha & _).
  destruct (send json_loads _ k) as [[r k1]| |] eqn:Es; try discriminate.
  apply send_sent in Es. destruct Es as [_ Es].
  destruct (_parse_json_response json_loads r); try discriminate.
  unfold ret. intros H. injection H as <-.
  exists name, action. auto.
Qed.

End MoreKanataFacts.

Lemma layer_name_of_answer_witness :
  get_current_layer_name json_text.loads base_client
  = Ok (JString "base",
        state_after (send json_text.loads layer_name_query base_client)
          base_client)
  /\ get_current_layer_name json_text.loads odd_client = Raise AttributeError.
Proof.
  split.
  - rewrite (layer_name_of_answer json_text.loads base_client
               (state_after (send json_text.loads layer_name_query base_client)
                  base_client)
               (Some (strip (layer_name_reply "base")))).
    + vm_compute. reflexivity.
    + vm_compute. reflexivity.
  - rewrite (layer_name_of_answer json_text.loads odd_client
               (state_after (send json_text.loads layer_name_query odd_client)
                  odd_client)
               (Some "[]")).
    + vm_compute. reflexivity.
    + vm_compute. reflexivity.
Defined.

Lemma act_on_fake_key_sends_valid_witness :
  exists name action,
    utils.is_blank name = false
    /\ In action utils.valid_actions
    /\ (sent (_client (state_after
                         (act_on_fake_key json_text.loads
                            (JList [JString "Space"; JString "tap"]) silent_client)
                         silent_client))
        = sent (_client silent_client) ++ [fake_key_request name action]
        \/ sent (_client (state_after
                            (act_on_fake_key json_text.loads
                               (JList [JString "Space"; JString "tap"])
                               silent_client)
                            silent_client))
           = sent (_client silent_client)
             ++ [layer_name_query; fake_key_request name action]).
Proof.
  apply (act_on_fake_key_sends_valid json_text.loads
           (JList [JString "Space"; JString "tap"]) silent_client).
  vm_compute. reflexivity.
Defined.

(** ** [Config._validate] *)

Lemma filter_none {A : Type} (f : A -> bool) (l : list A) :
  filter f l = [] <-> forall x, In x l -> f x = false.
Proof.
  induction l as [|a l IH]; simpl.
  - split; [intros _ x []|reflexivity].
  - destruct (f a) eqn:E.
    + split; [discriminate|].
      intros H. rewrite H in E by (now left). discriminate.
    + rewrite IH. split.
      * intros H x [<-|Hx]; auto.
      * intros H x Hx. apply H. now right.
Qed.

Lemma unexpected_nil (d : list (string * json)) :
  unexpected_rule_keys (JObject d) = []
  <-> forall key, In key (dict_keys d) -> In key allowed_rule_keys.
Proof.
  unfold unexpected_rule_keys. rewrite filter_none.
  split; intros H key Hk.
  - apply str_in_In. specialize (H key Hk). now apply negb_false_iff in H.
  - apply negb_false_iff, str_in_In. auto.
Qed.

Lemma check_strings_step (d : list (string * json)) (n : nat) (key : string)
  (rest : list string) :
  check_strings (JObject d) n (key :: rest)
  = if text_or_disabled (value_of d key)
    then check_strings (JObject d) n rest
    else Fatal (NotNonEmptyString key n).
Proof.
  cbn [check_strings py_get bind]. unfold value_of.
  destruct (dict_get d key) as [v|]; [|reflexivity].
  destruct v as [|[|]| | |t| |]; try reflexivity.
  simpl. now destruct (utils.is_blank t).
Qed.

Lemma check_strings_ok (d : list (string * json)) (n : nat) (keys : list string) :
  check_strings (JObject d) n keys = Ok tt
  <-> forall key, In key keys -> text_or_disabled (value_of d key) = true.
Proof.
  induction keys as [|key keys IH].
  - simpl. split; [intros _ key []|reflexivity].
  - rewrite check_strings_step.
    destruct (text_or_disabled (value_of d key)) eqn:E.
    + rewrite IH. split.
      * intros H k [<-|Hk]; auto.
      * intros H k Hk. apply H. now right.
    + split; [discriminate|].
      intros H. rewrite H in E by (now left). discriminate.
Qed.

Lemma check_fake_key_ok (n : nat) (fk : json) :
  check_fake_key n fk = Ok tt <-> fake_key_passes fk.
Proof.
  split; [|apply check_fake_key_passes].
  unfold check_fake_key, fake_key_passes.
  destruct (truthy fk) eqn:Ht; [|now left].
  destruct fk as [| | | | |l|]; try discriminate.
  cbn [is_list negb orb all_of].
  destruct (forallb is_str l) eqn:Hs; [|discriminate].
  cbn [negb].
  destruct (utils.validate_fake_key (JList l) (Some n)) as [[name action]| |] eqn:Hv;
    try discriminate.
  intros _. right.
  apply validate_fake_key_ok in Hv.
  destruct Hv as (Hb & Ha & given & Hu & ->).
  exists name, given. split; [|split; [exact Hb|now apply str_in_In]].
  destruct l as [|a [|b [|c l]]]; try discriminate.
  simpl in Hu. now injection Hu as -> ->.
Qed.

Lemma check_set_mouse_ok (n : nat) (sm : json) :
  check_set_mouse n sm = Ok tt <-> set_mouse_passes sm.
Proof.
  unfold check_set_mouse, set_mouse_passes.
  destruct (truthy sm); [|split; [now left|reflexivity]].
  destruct (is_list sm); destruct (all_of is_int sm); simpl; split;
    try discriminate; try reflexivity; try (intros _; right; now split);
    intros [H|[H1 H2]]; discriminate.
Qed.

Lemma check_layer_ok (layers : json) (n : nat) (layer : json) :
  check_layer layers n layer = Ok tt <-> layer_passes layers layer.
Proof.
  unfold check_layer, layer_passes.
  destruct (truthy layer) eqn:Ht; [|split; [now left|reflexivity]].
  destruct layer as [| | | |l| |];
    try (split; [discriminate|intros [H|(l0 & H & _)]; discriminate]).
  destruct (str_in_json l layers) as [[|]| |] eqn:Hin; simpl.
  - split; [intros _; right; eauto|reflexivity].
  - split; [discriminate|].
    intros [H|(l0 & H & H')]; [discriminate|].
    injection H as <-. congruence.
  - split; [discriminate|].
    intros [H|(l0 & H & H')]; [discriminate|].
    injection H as <-. congruence.
  - split; [discriminate|].
    intros [H|(l0 & H & H')]; [discriminate|].
    injection H as <-. congruence.
Qed.

(** One rule passes exactly when it is well-formed. *)
Lemma validate_rule_ok (layers : json) (n : nat) (rule : json) :
  validate_rule layers n rule = Ok tt <-> well_formed layers rule.
Proof.
  destruct rule as [| | | | | |d];
    try (split; [discriminate|intros (d & H & _); discriminate]).
  rewrite validate_rule_dict. unfold well_formed.
  split.
  - destruct (unexpected_rule_keys (JObject d)) as [|x xs] eqn:Eu; [|discriminate].
    destruct (check_strings (JObject d) n text_keys) as [[]| |] eqn:Ec;
      try discriminate.
    destruct d as [|kv d]; [discriminate|].
    destruct (check_fake_key n _) as [[]| |] eqn:Ef; try discriminate.
    destruct (check_set_mouse n _) as [[]| |] eqn:Em; try discriminate.
    intros El. exists (kv :: d).
    split; [reflexivity|]. split; [discriminate|].
    split; [now apply unexpected_nil|].
    split; [now apply (check_strings_ok _ n)|].
    split; [now apply (check_fake_key_ok n)|].
    split; [now apply (check_set_mouse_ok n)|now apply (check_layer_ok layers n)].
  - intros (d' & E & Hne & Hk & Ht & Hf & Hm & Hl). injection E as <-.
    apply unexpected_nil in Hk. rewrite Hk.
    apply (check_strings_ok _ n) in Ht. rewrite Ht.
    destruct d as [|kv d]; [contradiction|].
    apply (check_fake_key_ok n) in Hf. rewrite Hf.
    apply (check_set_mouse_ok n) in Hm. rewrite Hm.
    now apply check_layer_ok.
Qed.

Lemma validate_rules_ok (layers : json) (rules : list json) :
  forall n,
    validate_rules layers n rules = Ok tt <-> Forall (well_formed layers) rules.
Proof.
  induction rules as [|rule rules IH]; intros n; simpl.
  - split; [constructor|reflexivity].
  - destruct (validate_rule layers n rule) as [[]| |] eqn:E; simpl.
    + rewrite IH. split.
      * intros H. constructor; [now apply (validate_rule_ok layers n)|exact H].
      * intros H. now inversion H.
    + split; [discriminate|].
      intros H. inversion H as [|x l Hw _]; subst.
      apply (validate_rule_ok layers n) in Hw. congruence.
    + split; [discriminate|].
      intros H. inversion H as [|x l Hw _]; subst.
      apply (validate_rule_ok layers n) in Hw. congruence.
Qed.

Lemma unpack2_not_fatal (v : json) (d : diagnostic) :
  utils.unpack2 v <> Fatal d.
Proof.
  destruct v as [| | | |t|l|o]; try discriminate.
  - destruct t as [|a [|b [|c t]]]; discriminate.
  - destruct l as [|a [|b [|c l]]]; discriminate.
  - destruct o as [|[k1 v1] [|[k2 v2] [|kv o]]]; discriminate.
Qed.

Lemma check_fake_key_fatal (n : nat) (fk : json) (diag : diagnostic) :
  check_fake_key (S n) fk = Fatal diag ->
  diag = BlankFakeKeyName \/ rule_no_of diag = Some (S n).
Proof.
  unfold check_fake_key.
  destruct (truthy fk); [|discriminate].
  destruct (negb (is_list fk) || negb (all_of is_str fk)).
  - intros E. injection E as <-. now right.
  - cbv beta iota zeta delta [utils.validate_fake_key bind].
    destruct (utils.unpack2 fk) as [[a b]|d0|] eqn:Eu; try discriminate;
      [|now destruct (unpack2_not_fatal _ _ Eu)].
    destruct a as [| | | |nm| |]; try discriminate.
    destruct (utils.is_blank nm); [intros E; injection E as <-; now left|].
    destruct b as [| | | |given| |]; try discriminate.
    destruct (utils.str_in (capitalize given) utils.valid_actions);
      cbv beta iota delta [negb]; [discriminate|].
    intros E. injection E as <-. now right.
Qed.

Lemma check_set_mouse_fatal (n : nat) (sm : json) (diag : diagnostic) :
  check_set_mouse n sm = Fatal diag -> rule_no_of diag = Some n.
Proof.
  unfold check_set_mouse.
  destruct (truthy sm && _); [|discriminate].
  intros E. now injection E as <-.
Qed.

Lemma check_layer_fatal (layers : json) (n : nat) (layer : json)
  (diag : diagnostic) :
  check_layer layers n layer = Fatal diag -> rule_no_of diag = Some n.
Proof.
  unfold check_layer.
  destruct (truthy layer); [|discriminate].
  destruct layer as [| | | |l| |]; try discriminate.
  destruct (str_in_json l layers) as [[|]|d0|] eqn:Ein; simpl; try discriminate.
  - intros E. now injection E as <-.
  - destruct layers; discriminate.
Qed.

(** A message of [fatal] from the rule numbered [S n] carries that
    number, but for the one on a blank name of a fake key. *)
Lemma validate_rule_fatal_number (layers : json) (n : nat) (rule : json)
  (diag : diagnostic) :
  validate_rule layers (S n) rule = Fatal diag ->
  diag = BlankFakeKeyName \/ rule_no_of diag = Some (S n).
Proof.
  destruct rule as [| | | | | |d]; try discriminate.
  destruct (validate_rule_stages layers (S n) d) as [(diag' & H & Hn)|H];
    rewrite H.
  - intros E. injection E as <-. now right.
  - clear H.
    destruct (check_fake_key (S n) (value_of d "fake_key")) as [[]| |] eqn:Ef;
      try discriminate.
    + destruct (check_set_mouse (S n) (value_of d "set_mouse")) as [[]| |] eqn:Em;
        try discriminate.
      * intros El. right. now apply check_layer_fatal in El.
      * intros E. injection E as <-. right. now apply check_set_mouse_fatal in Em.
    + intros E. injection E as <-. now apply check_fake_key_fatal in Ef.
Qed.

Lemma validate_rules_first_failure (layers : json) (rules : list json)
  (diag : diagnostic) :
  forall n,
    validate_rules layers n rules = Fatal diag ->
    exists pre rule post,
      rules = pre ++ rule :: post
      /\ validate_rules layers n pre = Ok tt
      /\ validate_rule layers (n + length pre) rule = Fatal diag.
Proof.
  induction rules as [|rule rules IH]; intros n; simpl; [discriminate|].
  destruct (validate_rule layers n rule) as [[]| |] eqn:E; simpl.
  - intros H. destruct (IH _ H) as (pre & r & post & -> & Hpre & Hr).
    exists (rule :: pre), r, post. split; [reflexivity|].
    split; [simpl; now rewrite E|].
    simpl. now rewrite Nat.add_succ_r.
  - intros H. injection H as <-. exists [], rule, rules.
    split; [reflexivity|]. split; [reflexivity|].
    simpl. now rewrite Nat.add_0_r.
  - discriminate.
Qed.

Lemma validate_rule_without_names (layers : json) (n : nat) (rule : json) :
  well_formed layers rule ->
  validate_rule JNull n rule
  = if has_layer rule then Raise TypeError else Ok tt.
Proof.
  intros (d & -> & Hne & Hk & Ht & Hf & Hm & Hl).
  rewrite validate_rule_dict.
  apply unexpected_nil in Hk. rewrite Hk.
  apply (check_strings_ok _ n) in Ht. rewrite Ht.
  destruct d as [|kv d]; [contradiction|].
  apply (check_fake_key_ok n) in Hf. rewrite Hf.
  apply (check_set_mouse_ok n) in Hm. rewrite Hm.
  unfold has_layer, check_layer.
  destruct (truthy (value_of (kv :: d) "layer")) eqn:E; [|reflexivity].
  destruct Hl as [Hl|(l & Hl & _)]; [congruence|].
  rewrite Hl. reflexivity.
Qed.

Lemma validate_rules_without_names (layers : json) (rules : list json) :
  Forall (well_formed layers) rules ->
  forall n,
    validate_rules JNull n rules
    = if existsb has_layer rules then Raise TypeError else Ok tt.
Proof.
  induction 1 as [|rule rules Hw _ IH]; intros n; simpl; [reflexivity|].
  rewrite (validate_rule_without_names _ n _ Hw).
  destruct (has_layer rule); simpl; [reflexivity|apply IH].
Qed.

Section MoreValidationFacts.

Variable json_loads : string -> loads_result.

(** X12.  [_validate] passes a list of rules exactly when the query for
    the names of the layers has returned and every rule is well-formed
    for what it returned: a JSON object that is not empty, with allowed
    keys only, with [false], [null] or a text that is not blank under
    [class], [title], [layer] and [cmd], with a fake key and a mouse
    position that count as false or are a name that is not blank with
    one of the four actions and a list of integers, and with a layer
    that counts as false or is among the names. *)
Theorem validation_accepts_well_formed (rules : list json) (k k' : Kanata) :
  _validate json_loads (JList rules) k = Ok (tt, k')
  <-> exists layers,
      get_layer_names json_loads k = Ok (layers, k')
      /\ Forall (well_formed layers) rules.
Proof.
  unfold _validate, mbind, lift.
  destruct (get_layer_names json_loads k) as [[layers k1]| |] eqn:El.
  - destruct (validate_rules layers 1 rules) as [[]| |] eqn:Ev.
    + apply validate_rules_ok in Ev. split.
      * intros H. injection H as <-. eauto.
      * intros (l & H & _). injection H as _ <-. reflexivity.
    + split; [discriminate|].
      intros (l & H & Hw). injection H as <- <-.
      apply (validate_rules_ok _ _ 1) in Hw. congruence.
    + split; [discriminate|].
      intros (l & H & Hw). injection H as <- <-.
      apply (validate_rules_ok _ _ 1) in Hw. congruence.
  - split; [discriminate|]. intros (l & H & _). discriminate.
  - split; [discriminate|]. intros (l & H & _). discriminate.
Qed.

(** X13.  When [_validate] ends in a message of [fatal] and the names
    of the layers had been returned, the message is about the first
    rule that is not well-formed, and it carries the number of that
    rule, counted from one; the one message without a number is the one
    on the blank name of a fake key. *)
Theorem validation_names_first_failure (rules : list json) (k k' : Kanata)
  (layers : json) (diag : diagnostic) :
  get_layer_names json_loads k = Ok (layers, k') ->
  _validate json_loads (JList rules) k = Fatal diag ->
  exists pre rule post,
    rules = pre ++ rule :: post
    /\ Forall (well_formed layers) pre
    /\ ~ well_formed layers rule
    /\ (diag = BlankFakeKeyName \/ rule_no_of diag = Some (S (length pre))).
Proof.
  intros El. unfold _validate, mbind, lift. rewrite El.
  destruct (validate_rules layers 1 rules) as [[]|d|] eqn:Ev; try discriminate.
  intros H. injection H as ->.
  apply validate_rules_first_failure in Ev.
  destruct Ev as (pre & rule & post & -> & Hpre & Hr).
  exists pre, rule, post. split; [reflexivity|].
  split; [now apply (validate_rules_ok _ _ 1)|].
  split.
  - intros Hw. apply (validate_rule_ok layers (1 + length pre)) in Hw. congruence.
  - now apply validate_rule_fatal_number in Hr.
Qed.

(** X14.  When the query for the names of the layers has given [None],
    as it does when the daemon does not answer in time, rules that
    would pass for a daemon that knows their layers pass only if none
    of them asks for a layer; otherwise [_validate] ends in [TypeError]
    at the first rule that asks for one, not in a message of
    [fatal]. *)
Theorem validation_without_layer_names (rules : list json) (k k' : Kanata)
  (layers : json) :
  get_layer_names json_loads k = Ok (JNull, k') ->
  Forall (well_formed layers) rules ->
  _validate json_loads (JList rules) k
  = if existsb has_layer rules then Raise TypeError else Ok (tt, k').
Proof.
  intros El Hw. unfold _validate, mbind, lift. rewrite El.
  rewrite (validate_rules_without_names _ _ Hw).
  now destruct (existsb has_layer rules).
Qed.

(** X15.  What passing [_validate] is worth when the rule is applied
    on a connected client.  On a connection without faults the fake key
    of a well-formed rule, when it counts as true, is always sent, with
    its action in canonical case, and its mouse position is sent when
    it is a list of two; a list of integers of another length, which is
    well-formed too, makes [set_mouse] end in [ValueError]. *)
Theorem well_formed_effects (layers : json) (d : list (string * json))
  (k : Kanata) :
  well_formed layers (JObject d) ->
  _connected k = true ->
  (tame json_loads -> faultless (_client k) ->
   truthy (value_of d "fake_key") = true ->
   exists name action k',
     value_of d "fake_key" = JList [JString name; JString action]
     /\ act_on_fake_key json_loads (value_of d "fake_key") k = Ok (tt, k')
     /\ sent (_client k')
        = sent (_client k) ++ [fake_key_request name (capitalize action)])
  /\ (tame json_loads -> faultless (_client k) ->
      forall x y,
        value_of d "set_mouse" = JList [x; y] ->
        exists k',
          set_mouse json_loads (value_of d "set_mouse") k = Ok (tt, k')
          /\ sent (_client k') = sent (_client k) ++ [set_mouse_request x y])
  /\ (truthy (value_of d "set_mouse") = true ->
      (forall x y, value_of d "set_mouse" <> JList [x; y]) ->
      set_mouse json_loads (value_of d "set_mouse") k = Raise ValueError).
Proof.
  intros (d' & E & _ & _ & _ & Hf & Hm & _) Hc. injection E as <-.
  split; [|split].
  - intros Htame Hfl Ht.
    destruct Hf as [Hf|(name & action & Hfk & Hb & Ha)]; [congruence|].
    exists name, action. rewrite Hfk.
    destruct (act_on_fake_key_fires json_loads name action k Htame Hc Hfl Hb Ha)
      as (k' & Hk & Hs & _).
    exists k'. auto.
  - intros Htame Hfl x y Hxy. rewrite Hxy.
    destruct (set_mouse_fires json_loads x y k Htame Hc Hfl) as (k' & Hk & Hs & _).
    exists k'. auto.
  - intros Ht Hxy. destruct Hm as [Hm|[Hl _]]; [congruence|].
    destruct (value_of d "set_mouse") as [| | | | |l|]; try discriminate.
    unfold set_mouse, mbind, lift.
    destruct l as [|a [|b [|c l]]]; try reflexivity.
    now contradiction (Hxy a b).
Qed.

End MoreValidationFacts.

Lemma validation_accepts_well_formed_witness :
  exists layers,
    get_layer_names json_text.loads layers_client
    = Ok (layers, state_after (_validate json_text.loads
                                 (JList [rule_ok; rule_plain]) layers_client)
                    layers_client)
    /\ Forall (well_formed layers) [rule_ok; rule_plain].
Proof.
  apply (proj1 (validation_accepts_well_formed json_text.loads
                  [rule_ok; rule_plain] layers_client _)).
  vm_compute. reflexivity.
Defined.

Lemma validation_names_first_failure_witness :
  exists pre rule post,
    [rule_ok; rule_plain; JObject rule_hold; JObject rule_blank_class]
    = pre ++ rule :: post
    /\ Forall (well_formed two_layers) pre
    /\ ~ well_formed two_layers rule
    /\ (InvalidActionInRule 3 "Hold" = BlankFakeKeyName
        \/ rule_no_of (InvalidActionInRule 3 "Hold") = Some (S (length pre))).
Proof.
  eapply (validation_names_first_failure json_text.loads
            [rule_ok; rule_plain; JObject rule_hold; JObject rule_blank_class]
            layers_client).
  - lazy. reflexivity.
  - vm_compute. reflexivity.
Defined.

Lemma validation_without_layer_names_witness :
  _validate json_text.loads (JList [rule_plain; rule_ok]) silent_client
  = Raise TypeError.
Proof.
  eapply (validation_without_layer_names json_text.loads [rule_plain; rule_ok]
            silent_client _ two_layers).
  - lazy. reflexivity.
  - apply (validate_rules_ok two_layers [rule_plain; rule_ok] 1).
    vm_compute. reflexivity.
Defined.

Lemma well_formed_effects_witness :
  (exists name action k',
      value_of rule_one_coordinate "fake_key"
      = JList [JString name; JString action]
      /\ act_on_fake_key json_text.loads (value_of rule_one_coordinate "fake_key")
           silent_client = Ok (tt, k')
      /\ sent (_client k')
         = sent (_client silent_client)
           ++ [fake_key_request name (capitalize action)])
  /\ set_mouse json_text.loads (value_of rule_one_coordinate "set_mouse")
       silent_client = Raise ValueError.
Proof.
  assert (Hw : well_formed two_layers (JObject rule_one_coordinate)).
  { apply (validate_rule_ok two_layers 1). vm_compute. reflexivity. }
  destruct (well_formed_effects json_text.loads two_layers rule_one_coordinate
              silent_client Hw eq_refl) as (H1 & _ & H3).
  split.
  - apply H1; [exact json_text_loads_tame| |reflexivity].
    now apply faultless_connected_client.
  - apply H3; [reflexivity|]. intros x y. discriminate.
Defined.

(** ** [Config.detect_rule] *)

Section MoreLookupFacts.

Variable re_match : string -> string -> outcome bool.

Lemma detect_rule_app_match (pre post : list json) (rule : json) (win : WinInfo) :
  rule_matches re_match rule win = Ok true ->
  detect_rule re_match (pre ++ rule :: post) win
  = detect_rule re_match (pre ++ [rule]) win.
Proof.
  intros Hm. induction pre as [|r pre IH]; simpl.
  - now rewrite Hm.
  - destruct (rule_matches re_match r win) as [[|]| |]; simpl; auto.
Qed.

(** X16.  A rule that [detect_rule] returns is one of the rules.  And
    the rules behind a rule that matches the window play no part: they
    are never returned, and nothing in them, not even a pattern that
    does not compile, changes the outcome. *)
Theorem detect_rule_shadowing (win : WinInfo) :
  (forall rules rule,
      detect_rule re_match rules win = Ok (Some rule) -> In rule rules)
  /\ (forall pre rule post,
         rule_matches re_match rule win = Ok true ->
         detect_rule re_match (pre ++ rule :: post) win
         = detect_rule re_match (pre ++ [rule]) win).
Proof.
  split.
  - intros rules rule H. apply detect_rule_some_inv in H.
    destruct H as (pre & post & -> & _). apply in_elt.
  - intros pre rule post. apply detect_rule_app_match.
Qed.

End MoreLookupFacts.

Lemma catch_all_matches (d : list (string * json)) (win : WinInfo) :
  catch_all d -> rule_matches re.match_ (JObject d) win = Ok true.
Proof.
  intros [Hc Ht].
  assert (Hfc : literal_field d "class" (cls win)).
  { unfold literal_field. destruct Hc as [-> | ->]; [exact I|now left]. }
  assert (Hft : literal_field d "title" (title win)).
  { unfold literal_field. destruct Ht as [-> | ->]; [exact I|now left]. }
  destruct (literal_field_pattern _ _ _ Hfc) as (vc & pc & Hvc & Hpc & Hmc).
  destruct (literal_field_pattern _ _ _ Hft) as (vt & pt & Hvt & Hpt & Hmt).
  unfold rule_matches. rewrite Hvc. cbn [bind]. rewrite Hpc. cbn [bind].
  rewrite Hvt. cbn [bind]. rewrite Hpt. cbn [bind]. rewrite Hmc.
  assert (E : wanted d "class" = None).
  { unfold wanted. destruct Hc as [-> | ->]; reflexivity. }
  rewrite E. cbn [holds bind]. rewrite Hmt.
  assert (E' : wanted d "title" = None).
  { unfold wanted. destruct Ht as [-> | ->]; reflexivity. }
  now rewrite E'.
Qed.

(** X17.  A rule whose class and title are each missing or ["*"]
    matches every window.  With such a rule in the list a lookup that
    returns never returns [None], and the rules behind it are dead:
    the list behaves as if it ended with that rule. *)
Theorem catch_all_rule (d : list (string * json)) :
  catch_all d ->
  forall pre post win,
    rule_matches re.match_ (JObject d) win = Ok true
    /\ detect_rule re.match_ (pre ++ JObject d :: post) win
       = detect_rule re.match_ (pre ++ [JObject d]) win
    /\ detect_rule re.match_ (pre ++ JObject d :: post) win <> Ok None.
Proof.
  intros Hd pre post win.
  pose proof (catch_all_matches d win Hd) as Hm.
  split; [exact Hm|]. split; [now apply detect_rule_app_match|].
  intros H. apply detect_rule_none_inv in H.
  rewrite Forall_forall in H.
  specialize (H (JObject d) (in_elt _ _ _)).
  unfold no_match in H. congruence.
Qed.

Lemma catch_all_rule_witness :
  rule_matches re.match_ (JObject [("layer", JString "base")]) youtube = Ok true
  /\ detect_rule re.match_
       ([rule_a] ++ JObject [("layer", JString "base")] :: [rule_media]) youtube
     = detect_rule re.match_ ([rule_a] ++ [JObject [("layer", JString "base")]])
         youtube
  /\ detect_rule re.match_
       ([rule_a] ++ JObject [("layer", JString "base")] :: [rule_media]) youtube
     <> Ok None.
Proof.
  apply (catch_all_rule [("layer", JString "base")]).
  split; left; reflexivity.
Defined.

Lemma detect_rule_shadowing_witness :
  In rule_a_b [rule_of_class "x"; rule_a_b]
  /\ detect_rule re.match_ ([rule_of_class "x"] ++ rule_a :: [rule_paren])
       (window "a" "b")
     = detect_rule re.match_ ([rule_of_class "x"] ++ [rule_a]) (window "a" "b").
Proof.
  pose proof (detect_rule_shadowing re.match_ (window "a" "b")) as [H1 H2].
  split.
  - apply (H1 [rule_of_class "x"; rule_a_b] rule_a_b). vm_compute. reflexivity.
  - apply (H2 [rule_of_class "x"] rule_a [rule_paren]). vm_compute. reflexivity.
Defined.

(** X18.  A class set to [false] or [null] passes [_validate] as
    switched off, but [detect_rule] still tests it: the value is shown
    in the pattern as the text [False] or [None], and the rule matches
    exactly the windows, of one line, whose class holds that text (and
    whose title matches). *)
Theorem class_off_is_tested (d : list (string * json)) (v : json) (win : WinInfo) :
  v = JBool false \/ v = JNull ->
  dict_get d "class" = Some v ->
  literal_field d "title" (title win) ->
  has_char nl (cls win) = false ->
  text_or_disabled v = true
  /\ rule_matches re.match_ (JObject d) win
     = Ok (contains (shown v) (cls win)
           && holds (wanted d "title") (title win)).
Proof.
  intros Hv Hc Ht Hn.
  split; [destruct Hv as [-> | ->]; reflexivity|].
  destruct (literal_field_pattern _ _ _ Ht) as (vt & pt & Hvt & Hpt & Hmt).
  assert (Hvc : py_get (JObject d) "class" (JString "*") = Ok v).
  { unfold py_get. now rewrite Hc. }
  assert (Hp : to_pattern v = Ok (".*" ++ shown v ++ ".*")%string).
  { destruct Hv as [-> | ->]; reflexivity. }
  unfold rule_matches. rewrite Hvc. cbn [bind]. rewrite Hp. cbn [bind].
  rewrite Hvt. cbn [bind]. rewrite Hpt. cbn [bind].
  rewrite match_wrapped; [|destruct Hv as [-> | ->]; reflexivity|exact Hn].
  cbn [bind].
  destruct (contains (shown v) (cls win)); [exact Hmt|reflexivity].
Qed.

Lemma class_off_is_tested_witness :
  text_or_disabled (JBool false) = true
  /\ rule_matches re.match_ (JObject rule_class_off) (window "code" "Editor")
     = Ok false.
Proof.
  apply (class_off_is_tested rule_class_off (JBool false) (window "code" "Editor")).
  - now left.
  - reflexivity.
  - right. split; reflexivity.
  - reflexivity.
Defined.

(** ** The focus handler *)

Section MoreHandlerFacts.

Variable json_loads : string -> loads_result.
Variable re_match : string -> string -> outcome bool.

Lemma send_count (cmd : json) (k k' : Kanata) (r : option string) :
  send json_loads cmd k = Ok (r, k') ->
  change_layer_requests (sent (_client k'))
  = change_layer_requests (sent (_client k))
    + (if is_change_layer cmd then 1 else 0).
Proof.
  intros H. apply send_sent in H. destruct H as [_ [H|H]];
    rewrite H, change_layer_requests_app; f_equal;
    unfold change_layer_requests; simpl;
    destruct (is_change_layer cmd); reflexivity.
Qed.

Lemma act_on_fake_key_count (fake_key : json) (k k' : Kanata) :
  act_on_fake_key json_loads fake_key k = Ok (tt, k') ->
  change_layer_requests (sent (_client k'))
  = change_layer_requests (sent (_client k)).
Proof.
  unfold act_on_fake_key, mbind, lift.
  destruct (utils.validate_fake_key fake_key None) as [[name action]| |];
    try discriminate.
  destruct (send _ _ _) as [[r k1]| |] eqn:E; try discriminate.
  apply send_count in E. simpl in E.
  destruct (_parse_json_response json_loads r); try discriminate.
  unfold ret. intros H; inversion H; subst. lia.
Qed.

Lemma set_mouse_count (pos : json) (k k' : Kanata) :
  set_mouse json_loads pos k = Ok (tt, k') ->
  change_layer_requests (sent (_client k'))
  = change_layer_requests (sent (_client k)).
Proof.
  unfold set_mouse, mbind, lift.
  destruct (utils.unpack2 pos) as [[x y]| |]; try discriminate.
  destruct (send _ _ _) as [[r k1]| |] eqn:E; try discriminate.
  apply send_count in E. simpl in E.
  destruct (_parse_json_response json_loads r); try discriminate.
  unfold ret. intros H; inversion H; subst. lia.
Qed.

Lemma when_on_kanata_count (b : bool) (m : M Kanata unit) (st st' : Listener) :
  (forall k k', m k = Ok (tt, k') ->
                change_layer_requests (sent (_client k'))
                = change_layer_requests (sent (_client k))) ->
  when b (on_kanata m) st = Ok (tt, st') ->
  switches st' = switches st /\ spawned st' = spawned st.
Proof.
  intros Hm. destruct b; simpl.
  - unfold on_kanata, switches.
    destruct (m (kanata st)) as [[[] k]| |] eqn:E; try discriminate.
    intros H; inversion H; subst; simpl. split; [now apply Hm|reflexivity].
  - unfold ret. intros H; inversion H; subst. auto.
Qed.

(** The side effects send no [ChangeLayer] and start at most one
    command. *)
Lemma side_effects_count (rule : json) (st st' : Listener) :
  side_effects json_loads rule st = Ok (tt, st') ->
  switches st' = switches st /\ at_most_one_started st st'.
Proof.
  unfold side_effects, mbind, lift.
  destruct (py_get rule "cmd" JNull) as [c| |]; try discriminate.
  destruct (py_get rule "fake_key" JNull) as [f| |]; try discriminate.
  destruct (py_get rule "set_mouse" JNull) as [m| |]; try discriminate.
  assert (H1 : exists s1, when (truthy c) (run_cmd_bg c) st = Ok (tt, s1)
                          /\ switches s1 = switches st
                          /\ at_most_one_started st s1).
  { destruct (truthy c); simpl; eexists; (split; [reflexivity|]);
      (split; [reflexivity|]); [right; now exists c|now left]. }
  destruct H1 as (s1 & -> & Hn1 & Hs1).
  destruct (when (truthy f) _ s1) as [[[] s2]| |] eqn:E2; try discriminate.
  apply when_on_kanata_count in E2; [|apply act_on_fake_key_count].
  intros E3. apply when_on_kanata_count in E3; [|apply set_mouse_count].
  destruct E2 as [Hn2 Hs2], E3 as [Hn3 Hs3].
  split; [congruence|].
  unfold at_most_one_started in *. rewrite Hs3, Hs2. exact Hs1.
Qed.

(** X19.  A window for which no rule is found, or only a rule that
    counts as false, is reported and nothing else: it is not
    remembered.  So a notification for the remembered window that
    comes after it is still ignored, and the rule of that window is
    not applied again. *)
Theorem unmatched_window_not_remembered (rules : list json) (win : WinInfo)
  (st : Listener) :
  is_last_win win st = false ->
  detect_rule re_match rules win = Ok None
  \/ (exists rule, detect_rule re_match rules win = Ok (Some rule)
                   /\ truthy rule = false) ->
  on_focus_event json_loads re_match rules win st = Ok (tt, noted win st)
  /\ forall back,
      is_last_win back st = true ->
      on_focus_event json_loads re_match rules back (noted win st)
      = Ok (tt, noted win st).
Proof.
  intros Hnew Hd. split.
  - rewrite (on_focus_event_new _ _ _ _ _ Hnew).
    destruct Hd as [-> | (rule & -> & ->)]; reflexivity.
  - intros back Hb. apply on_focus_event_same.
    now rewrite is_last_win_noted.
Qed.

(** X20.  When the daemon answers that it is in the layer of the rule
    already, the window is remembered and that is all: no
    [ChangeLayer] goes out, and the command, the fake key and the
    mouse position of the rule are left alone. *)
Theorem active_layer_skips_effects (rules : list json) (win : WinInfo)
  (st : Listener) (rule : json) (layer : string) (k1 : Kanata) :
  is_last_win win st = false ->
  detect_rule re_match rules win = Ok (Some rule) ->
  truthy rule = true ->
  py_get rule "layer" JNull = Ok (JString layer) ->
  layer <> "" ->
  get_current_layer_name json_loads (kanata st) = Ok (JString layer, k1) ->
  on_focus_event json_loads re_match rules win st = Ok (tt, taken_up win k1 st)
  /\ (exists n, sent (_client k1)
                = sent (_client (kanata st)) ++ repeat layer_name_query (S n))
  /\ switches (taken_up win k1 st) = switches st
  /\ spawned (taken_up win k1 st) = spawned st.
Proof.
  intros Hnew Hd Ht Hl Hne Hq.
  assert (Htl : truthy (JString layer) = true).
  { simpl. destruct (string_eqb_spec layer ""); [contradiction|reflexivity]. }
  split.
  - rewrite (on_focus_event_new _ _ _ _ _ Hnew), Hd, Ht, dispatch_unfold, Hl, Htl.
    simpl. rewrite (change_layer_same _ _ _ _ Hq). reflexivity.
  - apply get_current_layer_name_sent in Hq. destruct Hq as [_ [n Hn]].
    split; [now exists n|]. split; [|reflexivity].
    unfold switches; simpl.
    rewrite Hn, change_layer_requests_app, change_layer_requests_queries. lia.
Qed.

(** What one run of the handler may do to the client and to the
    started commands. *)
Lemma on_focus_event_effects (rules : list json) (win : WinInfo)
  (st st' : Listener) :
  on_focus_event json_loads re_match rules win st = Ok (tt, st') ->
  ((exists n, sent (_client (kanata st'))
              = sent (_client (kanata st)) ++ repeat layer_name_query n)
   /\ spawned st' = spawned st)
  \/ (switches st' = S (switches st) /\ at_most_one_started st st').
Proof.
  assert (Hsame : forall s : Listener,
             kanata s = kanata st -> spawned s = spawned st ->
             (exists n, sent (_client (kanata s))
                        = sent (_client (kanata st)) ++ repeat layer_name_query n)
             /\ spawned s = spawned st).
  { intros s Hk Hs. split; [|exact Hs]. exists 0. rewrite Hk. simpl.
    now rewrite app_nil_r. }
  destruct (is_last_win win st) eqn:Hst.
  - rewrite (on_focus_event_same _ _ _ _ _ Hst).
    intros H; inversion H; subst. left. now apply Hsame.
  - rewrite (on_focus_event_new _ _ _ _ _ Hst).
    destruct (detect_rule re_match rules win) as [[rule|]| |]; try discriminate.
    2:{ intros H; inversion H; subst. left. now apply Hsame. }
    destruct (truthy rule).
    2:{ intros H; inversion H; subst. left. now apply Hsame. }
    rewrite dispatch_unfold.
    destruct (py_get rule "layer" JNull) as [v| |]; try discriminate.
    destruct (negb (truthy v)).
    { intros H; inversion H; subst. left. now apply Hsame. }
    destruct v; try discriminate.
    destruct (change_layer json_loads s (kanata (noted win st)))
      as [[ok k]| |] eqn:Ec; try discriminate.
    apply change_layer_inv in Ec.
    destruct Ec as (name & k1 & Hq & _ & Hk).
    apply get_current_layer_name_sent in Hq. destruct Hq as [_ [n Hn]].
    change (kanata (noted win st)) with (kanata st) in Hn.
    destruct ok.
    + intros H. apply side_effects_count in H. destruct H as [Hsw Hsp].
      right. split; [|exact Hsp].
      rewrite Hsw. unfold switches; simpl.
      rewrite Hk, Hn, !change_layer_requests_app, change_layer_requests_queries.
      change (change_layer_requests [change_layer_request s]) with 1. lia.
    + subst k. intros H; inversion H; subst; simpl. left.
      split; [now exists (S n)|reflexivity].
Qed.

(** X21.  One notification sends at most one [ChangeLayer].  When it
    sends none, all it may have sent are queries for the name of the
    layer, and no command is started; when it sends one, at most one
    command is started.  So a command, a fake key or a mouse position
    only ever follows a [ChangeLayer] of the same notification. *)
Theorem one_switch_per_event (rules : list json) (win : WinInfo)
  (st st' : Listener) :
  on_focus_event json_loads re_match rules win st = Ok (tt, st') ->
  ((exists n, sent (_client (kanata st'))
              = sent (_client (kanata st)) ++ repeat layer_name_query n)
   /\ spawned st' = spawned st)
  \/ (switches st' = S (switches st) /\ at_most_one_started st st').
Proof. apply on_focus_event_effects. Qed.

(** X22.  Over a run of notifications that returns, the handler sends
    at most one [ChangeLayer] for each notification and starts at most
    one command for each [ChangeLayer]; the commands started before
    stay, in their order. *)
Theorem listen_effects_bounded (rules : list json) (wins : list WinInfo)
  (st st' : Listener) :
  handle_all json_loads re_match rules wins st = Ok (tt, st') ->
  switches st <= switches st' <= switches st + length wins
  /\ length (spawned st') + switches st <= length (spawned st) + switches st'
  /\ exists cmds, spawned st' = spawned st ++ cmds.
Proof.
  revert st. induction wins as [|w wins IH]; intros st; simpl.
  - unfold ret. intros H; inversion H; subst.
    split; [lia|]. split; [lia|]. exists []. now rewrite app_nil_r.
  - unfold mbind.
    destruct (on_focus_event json_loads re_match rules w st) as [[[] s1]| |] eqn:E;
      try discriminate.
    intros H. apply IH in H. destruct H as (Hb & Hs & cmds & Hc).
    apply on_focus_event_effects in E.
    destruct E as [[[n Hn] Hsp] | [Hsw [Hsp | [c Hsp]]]].
    + assert (Hsw : switches s1 = switches st).
      { unfold switches.
        rewrite Hn, change_layer_requests_app, change_layer_requests_queries.
        lia. }
      rewrite Hsw, Hsp in *. split; [lia|]. split; [lia|]. now exists cmds.
    + rewrite Hsw, Hsp in *. split; [lia|]. split; [lia|]. now exists cmds.
    + rewrite Hsw, Hsp in *. rewrite length_app in Hs. simpl in Hs.
      split; [lia|]. split; [lia|].
      exists (c :: cmds). rewrite Hc, <- app_assoc. reflexivity.
Qed.

End MoreHandlerFacts.

Lemma unmatched_window_not_remembered_witness :
  let st := remembered youtube (listen_init silent_client) in
  on_focus_event json_text.loads re.match_ [rule_media] (window "term" "bash") st
  = Ok (tt, noted (window "term" "bash") st)
  /\ on_focus_event json_text.loads re.match_ [rule_media] youtube
       (noted (window "term" "bash") st)
     = Ok (tt, noted (window "term" "bash") st).
Proof.
  intros st.
  destruct (unmatched_window_not_remembered json_text.loads re.match_
              [rule_media] (window "term" "bash") st) as [H1 H2].
  - vm_compute. reflexivity.
  - left. vm_compute. reflexivity.
  - split; [exact H1|]. apply (H2 youtube). vm_compute. reflexivity.
Defined.

Lemma active_layer_skips_effects_witness :
  let st := listen_init media_client in
  let k1 := state_after (get_current_layer_name json_text.loads media_client)
              media_client in
  on_focus_event json_text.loads re.match_ [rule_media] youtube st
  = Ok (tt, taken_up youtube k1 st)
  /\ (exists n, sent (_client k1)
                = sent (_client (kanata st)) ++ repeat layer_name_query (S n))
  /\ switches (taken_up youtube k1 st) = switches st
  /\ spawned (taken_up youtube k1 st) = spawned st.
Proof.
  intros st k1.
  apply (active_layer_skips_effects json_text.loads re.match_ [rule_media]
           youtube st rule_media "media" k1);
    try (vm_compute; reflexivity).
  discriminate.
Defined.

Lemma one_switch_per_event_witness :
  let st := listen_init base_client in
  let st' := state_after
               (on_focus_event json_text.loads re.match_ [rule_media] youtube st)
               st in
  ((exists n, sent (_client (kanata st'))
              = sent (_client (kanata st)) ++ repeat layer_name_query n)
   /\ spawned st' = spawned st)
  \/ (switches st' = S (switches st) /\ at_most_one_started st st').
Proof.
  intros st st'.
  apply (one_switch_per_event json_text.loads re.match_ [rule_media] youtube
           st st').
  vm_compute. reflexivity.
Defined.

Lemma listen_effects_bounded_witness :
  let st := listen_init switching_client in
  let wins := [youtube; youtube; window "term" "bash"; youtube] in
  let st' := state_after
               (handle_all json_text.loads re.match_ [rule_media] wins st) st in
  switches st <= switches st' <= switches st + length wins
  /\ length (spawned st') + switches st <= length (spawned st) + switches st'
  /\ exists cmds, spawned st' = spawned st ++ cmds.
Proof.
  intros st wins st'.
  apply (listen_effects_bounded json_text.loads re.match_ [rule_media] wins
           st st').
  vm_compute. reflexivity.
Defined.

(** ** The X11 listener *)

Lemma x11_try_body_stops (S : Type) (cb : S -> outcome (unit * S))
  (gfp : X11.error_class -> X11.raised + option (list Z))
  (ev : X11.next) (w : X11.Watcher S) :
  X11.try_body S cb gfp ev w
  = (w, if X11.stops ev
        then Some (match ev with
                   | X11.Fails r => r
                   | _ => X11.KeyError "NET_ACTIVE_WINDOW"
                   end)
        else None).
Proof. destruct ev as [[atom|]|r]; reflexivity. Qed.

(** X23.  The event loop of the X11 listener never calls the handler.
    It skips the events that are not [PropertyNotify]; at the first
    [PropertyNotify], or the first exception of [next_event], a key
    that [self.errors] does not hold is looked up, in the test and
    again in the [except] clause, and the loop is left with the
    [KeyError] of ["ConnectionError"]: [fatal] is not reached, no call
    of the handler is counted and its state is as it was. *)
Theorem x11_loop_never_calls_back (S : Type) (cb : S -> outcome (unit * S))
  (gfp : X11.error_class -> X11.raised + option (list Z))
  (events : list X11.next) (w : X11.Watcher S) :
  X11._setup_event_listener S cb gfp events w
  = (if existsb X11.stops events
     then X11.Uncaught (X11.KeyError "ConnectionError")
     else X11.Waiting, w).
Proof.
  induction events as [|ev events IH]; [reflexivity|].
  cbn [X11._setup_event_listener existsb].
  rewrite x11_try_body_stops.
  destruct (X11.stops ev); [reflexivity|exact IH].
Qed.

Lemma class_of_two (inst c rest : string) :
  has_char X11.NUL inst = false ->
  has_char X11.NUL c = false ->
  X11.class_of (inst ++ String X11.NUL (c ++ String X11.NUL rest)) = c.
Proof.
  intros Hi Hc. unfold X11.class_of.
  rewrite (split_app_clean _ _ _ Hi), (split_app_clean _ _ _ Hc).
  reflexivity.
Qed.

Lemma class_of_clean (text : string) :
  has_char X11.NUL (X11.class_of text) = false.
Proof.
  unfold X11.class_of.
  pose proof (split_all_clean X11.NUL text) as H.
  destruct (split X11.NUL text) as [|p [|q qs]]; try reflexivity.
  simpl. inversion H as [|? ? _ H']; subst. now inversion H'.
Qed.

(** X24.  The class [X11.get_active_win] gives never holds a NUL.  For
    a [WM_CLASS] of the usual form, the instance, a NUL, the class and
    a NUL, it is the class and not the instance; for a [WM_CLASS]
    without a NUL it is ["*"].  The title is the decoded
    [_NET_WM_NAME]. *)
Theorem x11_class_of_wm_class (decode : string -> string) (d : X11.Display) :
  has_char X11.NUL (cls (X11.get_active_win decode d)) = false
  /\ forall window_id others raw name,
      X11.net_active_window d = X11.Property (window_id :: others) ->
      X11.net_wm_name d window_id = X11.Property name ->
      X11.wm_class d window_id = X11.Property raw ->
      name <> "" -> raw <> "" ->
      title (X11.get_active_win decode d) = decode name
      /\ (forall inst c rest,
             decode raw = (inst ++ String X11.NUL (c ++ String X11.NUL rest))%string ->
             has_char X11.NUL inst = false ->
             has_char X11.NUL c = false ->
             cls (X11.get_active_win decode d) = c)
      /\ (has_char X11.NUL (decode raw) = false ->
          cls (X11.get_active_win decode d) = "*").
Proof.
  split.
  - unfold X11.get_active_win.
    destruct (X11.net_active_window d) as [|[|id ids]|]; try reflexivity.
    destruct (X11.net_wm_name d id) as [|[|a v]|]; try reflexivity;
      destruct (X11.wm_class d id) as [|[|b u]|]; try reflexivity;
      apply class_of_clean.
  - intros id others raw name Ha Hn Hc Hne Hre.
    unfold X11.get_active_win. rewrite Ha, Hn, Hc.
    destruct name as [|a v]; [contradiction|].
    destruct raw as [|b u]; [contradiction|].
    cbn [cls title]. split; [reflexivity|]. split.
    + intros inst c rest -> Hi Hcl. now apply class_of_two.
    + intros Hcl. unfold X11.class_of. now rewrite (split_clean _ _ Hcl).
Qed.

Lemma x11_class_of_wm_class_witness :
  title (X11.get_active_win (fun s => s) firefox_display) = "Mozilla Firefox"
  /\ cls (X11.get_active_win (fun s => s) firefox_display) = "Navigator".
Proof.
  destruct (proj2 (x11_class_of_wm_class (fun s => s) firefox_display)
              42%Z [] ("firefox" ++ String X11.NUL ("Navigator" ++ String X11.NUL ""))%string
              "Mozilla Firefox")
    as (Ht & Hc & _); try reflexivity; try discriminate.
  split; [exact Ht|].
  apply (Hc "firefox" "Navigator" ""%string); reflexivity.
Defined.
